(** * Device discovery of the Digiducer Python examples

    A shallow embedding of [FindDigiDevices] (src/FindDigiDevices.py) and of
    its near-duplicate [TMSFindDevices] (src/TMS_Digital_Audio.py), with the
    library calls they rely on: string slicing, [in], [str.find], [int],
    [datetime.strptime] with the format ['%y%m%d'], float division and the
    conversion to float32 done by [np.array(..., dtype='float32')].

    Python [int] values are [Z]; strings are [string], a character standing
    for a code point below 256; floats are [spec_float] values of the
    Standard Library, binary64 for Python floats and binary32 for the
    elements of the numpy array.

    The two queries of [sounddevice] and [sys.platform] are arguments of
    the functions.  An exception ends the call: a function returns
    [Raise e] and nothing else is kept of that call, the lines it had
    printed included.  The list [sens] and the array [scale] are rebuilt by
    every decoding branch before they are stored, so that records are
    plain values here.

    The code that calls them is embedded as well: src/findDigiImport.py
    as the list of what it prints, records and plots, and the lines of
    src/TMS_Digital_Audio.py around [TMSFindDevices] as the setting of
    units and scale and the plot loop, with the blocks of the queue and
    the readings of the clock as arguments.  The callback, which runs in
    the thread of PortAudio, and the arithmetic of [time_ms] are left
    out. *)

From Stdlib Require Import ZArith List String Ascii Bool Lia Sorted.
From Stdlib Require Import Floats.SpecFloat.
Import ListNotations.

Local Open Scope string_scope.
Local Open Scope list_scope.
Local Open Scope Z_scope.

(** ** Exceptions and results *)

Inductive value_error : Type :=
  | InvalidLiteralForInt (s : string)
  | TimeDataDoesNotMatch (s : string)
  | UnconvertedDataRemains (rest : string)
  | DayOutOfRange.

Inductive exn : Type :=
  | ValueError (why : value_error)
  | ZeroDivisionError
  | OverflowError
  | UnboundLocalError (var : string)
  | NameError (name : string)
  | Raised (cls : string) (msg : string).

Inductive result (A : Type) : Type :=
  | Ok (a : A)
  | Raise (e : exn).

Arguments Ok {A} a.
Arguments Raise {A} e.

Definition bind {A B : Type} (r : result A) (k : A -> result B) : result B :=
  match r with
  | Ok a => k a
  | Raise e => Raise e
  end.

Declare Scope py_scope.
Delimit Scope py_scope with py.
Notation "x <- c ;; k" := (bind c (fun x => k))
  (at level 61, c at next level, right associativity) : py_scope.
Local Open Scope py_scope.

(** ** Strings *)

Module PyStr.

(** [clamp len i]: the position a slice bound [i] denotes in a string of
    length [len] (negative bounds count from the end). *)
Definition clamp (len i : Z) : Z :=
  if i <? 0 then Z.max (i + len) 0 else Z.min i len.

(** [s[lo:hi]] *)
Definition slice (s : string) (lo hi : Z) : string :=
  let len := Z.of_nat (String.length s) in
  let a := clamp len lo in
  let b := clamp len hi in
  substring (Z.to_nat a) (Z.to_nat (b - a)) s.

(** Position of the first occurrence of [x] in [s], counted from [i]. *)
Fixpoint find_from (x s : string) (i : Z) : option Z :=
  if prefix x s then Some i
  else match s with
       | EmptyString => None
       | String _ s' => find_from x s' (i + 1)
       end.

(** [s.find(x)] *)
Definition find (s x : string) : Z :=
  match find_from x s 0 with
  | Some i => i
  | None => -1
  end.

(** [x in s] *)
Definition contains (x s : string) : bool :=
  match find_from x s 0 with
  | Some _ => true
  | None => false
  end.

Definition code (c : ascii) : Z := Z.of_N (N_of_ascii c).

Definition digit_of (c : ascii) : option Z :=
  let n := code c in
  if (48 <=? n) && (n <=? 57) then Some (n - 48) else None.

(** White space as [int] sees it: the C white space below 127, and of the
    code points from 127 to 255 those Unicode calls white space. *)
Definition is_space (c : ascii) : bool :=
  let n := code c in
  ((9 <=? n) && (n <=? 13)) || (n =? 32) || (n =? 133) || (n =? 160).

Fixpoint lstrip (s : string) : string :=
  match s with
  | String c r => if is_space c then lstrip r else s
  | EmptyString => EmptyString
  end.

Fixpoint all_space (s : string) : bool :=
  match s with
  | String c r => is_space c && all_space r
  | EmptyString => true
  end.

(** Digits with single underscores between them, then white space only.
    [prev] tells whether the previous character was a digit. *)
Fixpoint int_digits (acc : Z) (prev : bool) (s : string) : option Z :=
  match s with
  | EmptyString => if prev then Some acc else None
  | String c r =>
      match digit_of c with
      | Some d => int_digits (10 * acc + d) true r
      | None =>
          if Ascii.eqb c "_" then
            if prev then int_digits acc false r else None
          else if prev && all_space s then Some acc else None
      end
  end.

Definition int_signed (s : string) : option Z :=
  match s with
  | String "+" r => int_digits 0 false r
  | String "-" r => option_map Z.opp (int_digits 0 false r)
  | _ => int_digits 0 false s
  end.

(** [int(s)] *)
Definition int (s : string) : result Z :=
  match int_signed (lstrip s) with
  | Some n => Ok n
  | None => Raise (ValueError (InvalidLiteralForInt s))
  end.

End PyStr.

(** ** Dates: [datetime.datetime.strptime(s, '%y%m%d')] *)

Module PyDate.

Import PyStr.

(** The time of day is midnight in every value [strptime] builds from
    ['%y%m%d'], so only the calendar date is kept. *)
Record datetime : Type := mkdate { year : Z; month : Z; day : Z }.

Definition in_range (lo hi : Z) (c : ascii) : option Z :=
  match digit_of c with
  | Some d => if (lo <=? d) && (d <=? hi) then Some d else None
  | None => None
  end.

(** The alternatives of a directive's regular expression that match at
    the head of [s], in the order the expression lists them, each with
    the value read and the text left. *)

(** [%m]: [1[0-2]|0[1-9]|[1-9]] *)
Definition month_alts (s : string) : list (Z * string) :=
  match s with
  | String a r =>
      (match r with
       | String b r' =>
           (match in_range 1 1 a, in_range 0 2 b with
            | Some x, Some y => [(10 * x + y, r')]
            | _, _ => []
            end) ++
           (match in_range 0 0 a, in_range 1 9 b with
            | Some x, Some y => [(10 * x + y, r')]
            | _, _ => []
            end)
       | EmptyString => []
       end) ++
      (match in_range 1 9 a with
       | Some x => [(x, r)]
       | None => []
       end)
  | EmptyString => []
  end.

(** [%d]: [3[0-1]|[1-2]\d|0[1-9]|[1-9]| [1-9]] *)
Definition day_alts (s : string) : list (Z * string) :=
  match s with
  | String a r =>
      (match r with
       | String b r' =>
           (match in_range 3 3 a, in_range 0 1 b with
            | Some x, Some y => [(10 * x + y, r')]
            | _, _ => []
            end) ++
           (match in_range 1 2 a, in_range 0 9 b with
            | Some x, Some y => [(10 * x + y, r')]
            | _, _ => []
            end) ++
           (match in_range 0 0 a, in_range 1 9 b with
            | Some x, Some y => [(10 * x + y, r')]
            | _, _ => []
            end)
       | EmptyString => []
       end) ++
      (match in_range 1 9 a with
       | Some x => [(x, r)]
       | None => []
       end) ++
      (match r with
       | String b r' =>
           if Ascii.eqb a " " then
             match in_range 1 9 b with
             | Some y => [(y, r')]
             | None => []
             end
           else []
       | EmptyString => []
       end)
  | EmptyString => []
  end.

(** The first month alternative after which a day matches, with the
    first day alternative there: what the backtracking matcher finds. *)
Fixpoint first_month_day (ms : list (Z * string)) : option (Z * Z * string) :=
  match ms with
  | [] => None
  | (m, r) :: ms' =>
      match day_alts r with
      | (d, r') :: _ => Some (m, d, r')
      | [] => first_month_day ms'
      end
  end.

(** [(?P<y>\d\d)(?P<m>...)(?P<d>...)] matched at the start of [s]. *)
Definition match_ymd (s : string) : option (Z * Z * Z * string) :=
  match s with
  | String a (String b r) =>
      match digit_of a, digit_of b with
      | Some x, Some y =>
          match first_month_day (month_alts r) with
          | Some (m, d, r') => Some (10 * x + y, m, d, r')
          | None => None
          end
      | _, _ => None
      end
  | _ => None
  end.

Definition is_leap (y : Z) : bool :=
  ((y mod 4 =? 0) && negb (y mod 100 =? 0)) || (y mod 400 =? 0).

Definition days_in_month (y m : Z) : Z :=
  if m =? 2 then (if is_leap y then 29 else 28)
  else if (m =? 4) || (m =? 6) || (m =? 9) || (m =? 11) then 30
  else 31.

(** A two-digit year of 68 or less is in the 2000s, else in the 1900s. *)
Definition full_year (yy : Z) : Z :=
  if yy <=? 68 then 2000 + yy else 1900 + yy.

Definition strptime (s : string) : result datetime :=
  match match_ymd s with
  | None => Raise (ValueError (TimeDataDoesNotMatch s))
  | Some (yy, m, d, rest) =>
      match rest with
      | String _ _ => Raise (ValueError (UnconvertedDataRemains rest))
      | EmptyString =>
          let y := full_year yy in
          if d <=? days_in_month y m then Ok (mkdate y m d)
          else Raise (ValueError DayOutOfRange)
      end
  end.

End PyDate.

(** ** Floats *)

Module PyFloat.

Definition float64 : Type := spec_float.
Definition float32 : Type := spec_float.

(** The binary64 value nearest to an integer (ties to even). *)
Definition of_int (n : Z) : float64 := binary_normalize 53 1024 n 0 false.

(** [a / n] for a float [a] and an [int] [n]: [n] is converted to a float
    first, which fails when it is too large; a zero divisor raises. *)
Definition truediv_int (a : float64) (n : Z) : result float64 :=
  match of_int n with
  | S754_infinity _ => Raise OverflowError
  | S754_zero _ => Raise ZeroDivisionError
  | b => Ok (SFdiv 53 1024 a b)
  end.

(** Conversion of a binary64 value to binary32, as numpy stores it. *)
Definition to_float32 (x : float64) : float32 :=
  match x with
  | S754_finite s m e => binary_round 24 128 s m e
  | _ => x
  end.

End PyFloat.

(** ** Name lookup *)

Module PyNames.

(** The names of the [builtins] module. *)
Definition builtins : list string :=
  ["ArithmeticError"; "AssertionError"; "AttributeError";
   "BaseException"; "BlockingIOError"; "BrokenPipeError"; "BufferError";
   "BytesWarning"; "ChildProcessError"; "ConnectionAbortedError";
   "ConnectionError"; "ConnectionRefusedError"; "ConnectionResetError";
   "DeprecationWarning"; "EOFError"; "Ellipsis"; "EncodingWarning";
   "EnvironmentError"; "Exception"; "False"; "FileExistsError";
   "FileNotFoundError"; "FloatingPointError"; "FutureWarning";
   "GeneratorExit"; "IOError"; "ImportError"; "ImportWarning";
   "IndentationError"; "IndexError"; "InterruptedError";
   "IsADirectoryError"; "KeyError"; "KeyboardInterrupt"; "LookupError";
   "MemoryError"; "ModuleNotFoundError"; "NameError"; "None";
   "NotADirectoryError"; "NotImplemented"; "NotImplementedError";
   "OSError"; "OverflowError"; "PendingDeprecationWarning";
   "PermissionError"; "ProcessLookupError"; "RecursionError";
   "ReferenceError"; "ResourceWarning"; "RuntimeError"; "RuntimeWarning";
   "StopAsyncIteration"; "StopIteration"; "SyntaxError"; "SyntaxWarning";
   "SystemError"; "SystemExit"; "TabError"; "TimeoutError"; "True";
   "TypeError"; "UnboundLocalError"; "UnicodeDecodeError";
   "UnicodeEncodeError"; "UnicodeError"; "UnicodeTranslateError";
   "UnicodeWarning"; "UserWarning"; "ValueError"; "Warning";
   "ZeroDivisionError"; "__build_class__"; "__debug__"; "__doc__";
   "__import__"; "__loader__"; "__name__"; "__package__"; "__spec__";
   "abs"; "aiter"; "all"; "anext"; "any"; "ascii"; "bin"; "bool";
   "breakpoint"; "bytearray"; "bytes"; "callable"; "chr"; "classmethod";
   "compile"; "complex"; "copyright"; "credits"; "delattr"; "dict";
   "dir"; "divmod"; "enumerate"; "eval"; "exec"; "exit"; "filter";
   "float"; "format"; "frozenset"; "getattr"; "globals"; "hasattr";
   "hash"; "help"; "hex"; "id"; "input"; "int"; "isinstance";
   "issubclass"; "iter"; "len"; "license"; "list"; "locals"; "map";
   "max"; "memoryview"; "min"; "next"; "object"; "oct"; "open"; "ord";
   "pow"; "print"; "property"; "quit"; "range"; "repr"; "reversed";
   "round"; "set"; "setattr"; "slice"; "sorted"; "staticmethod"; "str";
   "sum"; "super"; "tuple"; "type"; "vars"; "zip"].

(** A name read in a function that never assigns it is looked up in the
    module's globals, then in the builtins. *)
Definition bound (globals : list string) (x : string) : bool :=
  existsb (String.eqb x) globals || existsb (String.eqb x) builtins.

(** [raise cls(msg)]: an unbound [cls] makes the statement fail with a
    [NameError]; [Raised cls msg] stands for the outcome with [cls]
    bound, which depends on what it is bound to. *)
Definition raise_class {A : Type} (globals : list string) (cls msg : string)
  : result A :=
  if bound globals cls then Raise (Raised cls msg) else Raise (NameError cls).

(** Reading a local variable: it is unbound until assigned. *)
Definition load {A : Type} (var : string) (v : option A) : result A :=
  match v with
  | Some a => Ok a
  | None => Raise (UnboundLocalError var)
  end.

End PyNames.

(** ** Data *)

Import PyStr PyDate PyFloat PyNames.

(** An entry of [sd.query_hostapis()]; only its ['name'] is read. *)
Record HostApi : Type := { api_name : string }.

(** An entry of [sd.query_devices()]; only ['name'] and ['hostapi'] are
    read. *)
Record RawDevice : Type := { name : string; hostapi : Z }.

(** The dictionary appended to [dev_info], a field per key. *)
Record DevInfo : Type := {
  device : Z;
  model : string;
  serial_number : string;
  date : datetime;
  format : Z;
  sensitivity_int : list Z;
  scale : list float32
}.

(** ["format" - format of data from device, 0 - acceleration, 1 - voltage] *)
Definition ACCELERATION : Z := 0.
Definition VOLTAGE : Z := 1.

(** The local variables of the discovery function that outlive one turn of
    its loop, and the lines printed so far.  [date], [form], [sens] and
    [scale] are unbound until a decoding branch assigns them. *)
Record locals : Type := {
  v_dev_info : list DevInfo;
  v_dev_num : Z;
  v_date : option datetime;
  v_form : option Z;
  v_sens : option (list Z);
  v_scale : option (list float32);
  stdout : list string
}.

Definition set_dev_info (st : locals) (x : list DevInfo) : locals :=
  {| v_dev_info := x; v_dev_num := v_dev_num st; v_date := v_date st;
     v_form := v_form st; v_sens := v_sens st; v_scale := v_scale st;
     stdout := stdout st |}.

Definition set_dev_num (st : locals) (x : Z) : locals :=
  {| v_dev_info := v_dev_info st; v_dev_num := x; v_date := v_date st;
     v_form := v_form st; v_sens := v_sens st; v_scale := v_scale st;
     stdout := stdout st |}.

Definition set_date (st : locals) (x : datetime) : locals :=
  {| v_dev_info := v_dev_info st; v_dev_num := v_dev_num st; v_date := Some x;
     v_form := v_form st; v_sens := v_sens st; v_scale := v_scale st;
     stdout := stdout st |}.

Definition set_form (st : locals) (x : Z) : locals :=
  {| v_dev_info := v_dev_info st; v_dev_num := v_dev_num st;
     v_date := v_date st;
     v_form := Some x; v_sens := v_sens st; v_scale := v_scale st;
     stdout := stdout st |}.

Definition set_sens (st : locals) (x : list Z) : locals :=
  {| v_dev_info := v_dev_info st; v_dev_num := v_dev_num st;
     v_date := v_date st;
     v_form := v_form st; v_sens := Some x; v_scale := v_scale st;
     stdout := stdout st |}.

Definition set_scale (st : locals) (x : list float32) : locals :=
  {| v_dev_info := v_dev_info st; v_dev_num := v_dev_num st;
     v_date := v_date st;
     v_form := v_form st; v_sens := v_sens st; v_scale := Some x;
     stdout := stdout st |}.

(** [print(line)] *)
Definition print (st : locals) (line : string) : locals :=
  {| v_dev_info := v_dev_info st; v_dev_num := v_dev_num st;
     v_date := v_date st;
     v_form := v_form st; v_sens := v_sens st; v_scale := v_scale st;
     stdout := stdout st ++ [line] |}.

(** The state at [dev_info = []], [dev_num=0]. *)
Definition entry : locals :=
  {| v_dev_info := []; v_dev_num := 0; v_date := None; v_form := None;
     v_sens := None; v_scale := None; stdout := [] |}.

(** ** The code shared by the two discovery functions *)

(** [models=["485B", "333D", "633A", "SDC0"]] *)
Definition models : list string := ["485B"; "333D"; "633A"; "SDC0"].

(** [if platform == "win32": ... for api in hapis: ... else: api_num=0]
    (FindDigiDevices.py 28-37, TMS_Digital_Audio.py 52-61). *)
Fixpoint scan_hostapis (hapis : list HostApi) (api_num : Z) : Z :=
  match hapis with
  | [] => api_num
  | api :: rest =>
      if api_name api =? "Windows WDM-KS" then api_num
      else scan_hostapis rest (api_num + 1)
  end%string.

Definition select_api_num (platform : string) (hapis : list HostApi) : Z :=
  if (platform =? "win32")%string then scan_hostapis hapis 0 else 0.

(** [next((x for x in models if x in name), False)]; [None] is [False]. *)
Definition match_model (nm : string) : option string :=
  List.find (fun x => contains x nm) models.

(** [sens[i] *= k] *)
Fixpoint imul_item (sens : list Z) (i : nat) (k : Z) : list Z :=
  match sens, i with
  | x :: rest, O => x * k :: rest
  | x :: rest, S j => x :: imul_item rest j k
  | [], _ => []
  end.

(** [sens[i]] *)
Definition item (sens : list Z) (i : nat) : Z := nth i sens 0.

(** The branch [if fmt == "2" or fmt == '3'] (FindDigiDevices.py 56-65,
    TMS_Digital_Audio.py 80-89). *)
Definition voltage_branch (nm : string) (loc : Z) (fmt : string) (st : locals)
  : result locals :=
  let st := set_form st 1 in
  a <- int (slice nm (loc + 14) (loc + 21)) ;;
  b <- int (slice nm (loc + 21) (loc + 28)) ;;
  let sens := [a; b] in
  let sens :=
    if (fmt =? "3")%string then imul_item (imul_item sens 0 20) 1 20
    else sens in
  let st := set_sens st sens in
  x0 <- truediv_int (of_int 8388608) (item sens 0) ;;
  x1 <- truediv_int (of_int 8388608) (item sens 1) ;;
  let st := set_scale st [to_float32 x0; to_float32 x1] in
  d <- strptime (slice nm (loc + 28) (loc + 34)) ;;
  Ok (set_date st d).

(** The branch [elif fmt == "1"] (FindDigiDevices.py 67-74,
    TMS_Digital_Audio.py 91-98). *)
Definition acceleration_branch (nm : string) (loc : Z) (st : locals)
  : result locals :=
  let st := set_form st 0 in
  a <- int (slice nm (loc + 14) (loc + 19)) ;;
  b <- int (slice nm (loc + 19) (loc + 24)) ;;
  let sens := [a; b] in
  let st := set_sens st sens in
  x0 <- truediv_int (of_int 855400) (item sens 0) ;;
  x1 <- truediv_int (of_int 855400) (item sens 1) ;;
  let st := set_scale st [to_float32 x0; to_float32 x1] in
  d <- strptime (slice nm (loc + 24) (loc + 30)) ;;
  Ok (set_date st d).

(** [dev_info.append({...})]: the values of the dictionary are read in the
    order of its keys. *)
Definition append_record (mdl serialnum : string) (st : locals)
  : result locals :=
  d <- load "date" (v_date st) ;;
  form <- load "form" (v_form st) ;;
  sens <- load "sens" (v_sens st) ;;
  sc <- load "scale" (v_scale st) ;;
  Ok (set_dev_info st
        (v_dev_info st ++
         [ {| device := v_dev_num st; model := mdl;
              serial_number := serialnum; date := d; format := form;
              sensitivity_int := sens; scale := sc |} ])).

(** One turn of [for device in devices:].  The two functions differ in the
    last [else] only, given here as [otherwise]. *)
Definition loop_body (otherwise : locals -> result locals) (api_num : Z)
  (dev : RawDevice) (st : locals) : result locals :=
  st <- (if hostapi dev =? api_num then
           let nm := name dev in
           match match_model nm with
           | Some m =>
               let loc := find nm m in
               let mdl := slice nm loc (loc + 6) in
               let fmt := slice nm (loc + 7) (loc + 8) in
               let serialnum := slice nm (loc + 8) (loc + 14) in
               st <- (if (fmt =? "2")%string || (fmt =? "3")%string
                      then voltage_branch nm loc fmt st
                      else if (fmt =? "1")%string
                      then acceleration_branch nm loc st
                      else otherwise st) ;;
               append_record mdl serialnum st
           | None => Ok st
           end
         else Ok st) ;;
  Ok (set_dev_num st (v_dev_num st + 1)).

Fixpoint for_each (body : RawDevice -> locals -> result locals)
  (devices : list RawDevice) (st : locals) : result locals :=
  match devices with
  | [] => Ok st
  | dev :: rest => st <- body dev st ;; for_each body rest st
  end.

(** ** src/FindDigiDevices.py *)

(** [else: print("Expecting 1, 2, or 3 format")] *)
Definition FindDigiDevices_else (st : locals) : result locals :=
  Ok (print st "Expecting 1, 2, or 3 format").

Definition FindDigiDevices_loop (api_num : Z) :=
  for_each (loop_body FindDigiDevices_else api_num).

(** The value returned and the lines printed. *)
Definition FindDigiDevices (platform : string) (hapis : list HostApi)
  (devices : list RawDevice) : result (list DevInfo * list string) :=
  let api_num := select_api_num platform hapis in
  st <- FindDigiDevices_loop api_num devices entry ;;
  let st :=
    match v_dev_info st with
    | [] => print st "No compatible devices found"
    | _ :: _ => st
    end in
  Ok (v_dev_info st, stdout st).

(** ** src/TMS_Digital_Audio.py *)

(** The names bound in the module when line 129 calls [TMSFindDevices()]:
    those every module has, the imports of lines 12-18, the assignments of
    lines 25-28 and the three functions defined above the call. *)
Definition TMS_globals : list string :=
  ["__name__"; "__doc__"; "__package__"; "__loader__"; "__spec__";
   "__file__"; "__cached__"; "__builtins__"; "__annotations__";
   "np"; "sd"; "plt"; "datetime"; "platform"; "time"; "queue";
   "eu_sen"; "eu_units"; "blocksize"; "samplerate";
   "TMSFindDevices"; "callback"; "time_ms"].

(** [else: raise FormatError("Expecting 1, 2, or 3 format")] *)
Definition TMSFindDevices_else (globals : list string) (st : locals)
  : result locals :=
  raise_class globals "FormatError" "Expecting 1, 2, or 3 format".

Definition TMSFindDevices_loop (globals : list string) (api_num : Z) :=
  for_each (loop_body (TMSFindDevices_else globals) api_num).

Definition TMSFindDevices (globals : list string) (platform : string)
  (hapis : list HostApi) (devices : list RawDevice) : result (list DevInfo) :=
  let api_num := select_api_num platform hapis in
  st <- TMSFindDevices_loop globals api_num devices entry ;;
  match v_dev_info st with
  | [] => raise_class globals "NoDevicesFound" "No compatible devices found"
  | _ :: _ => Ok (v_dev_info st)
  end.

(** ** Notions used in the statements *)

(** A raw device passes the host-API filter and its name holds a model
    substring. *)
Definition is_candidate (api_num : Z) (dev : RawDevice) : bool :=
  (hostapi dev =? api_num) &&
  match match_model (name dev) with
  | Some _ => true
  | None => false
  end.

(** The candidates among [devices], each with its position in the whole
    list when the first of [devices] has position [i]. *)
Fixpoint candidates (api_num : Z) (devices : list RawDevice) (i : Z)
  : list (Z * RawDevice) :=
  match devices with
  | [] => []
  | dev :: rest =>
      (if is_candidate api_num dev then [(i, dev)] else []) ++
      candidates api_num rest (i + 1)
  end.

(** Where the matched model substring starts in a name. *)
Definition loc_of (nm : string) : Z :=
  match match_model nm with
  | Some m => find nm m
  | None => -1
  end.

(** A field of a name: the characters from [loc+a] up to [loc+b]. *)
Definition field (nm : string) (a b : Z) : string :=
  slice nm (loc_of nm + a) (loc_of nm + b).

(** The binary32 value stored for [c.0 / n]. *)
Definition quotient32 (c n : Z) : float32 :=
  to_float32 (SFdiv 53 1024 (of_int c) (of_int n)).

(** The record appended for the candidate [dev] met at [dev_num = i], once
    the branch for its format code has assigned [date], [form], [sens] and
    [scale]. *)
Definition record_for (i : Z) (dev : RawDevice) (d : datetime) (form : Z)
  (sens : list Z) (sc : list float32) : DevInfo :=
  {| device := i;
     model := field (name dev) 0 6;
     serial_number := field (name dev) 8 14;
     date := d; format := form; sensitivity_int := sens; scale := sc |}.

(** The locals after a turn of the loop that decoded a device and appended
    [r]. *)
Definition after_decode (st : locals) (r : DevInfo) : locals :=
  {| v_dev_info := v_dev_info st ++ [r];
     v_dev_num := v_dev_num st + 1;
     v_date := Some (date r);
     v_form := Some (format r);
     v_sens := Some (sensitivity_int r);
     v_scale := Some (scale r);
     stdout := stdout st |}.

(** The format code of a candidate's name is none of "1", "2", "3". *)
Definition other_code (nm : string) : bool :=
  negb ((field nm 7 8 =? "1")%string || (field nm 7 8 =? "2")%string
        || (field nm 7 8 =? "3")%string).

(** [r] is what some turn of the loop appended for the device of [p] at
    the value of [dev_num] given in [p]. *)
Definition appended_by (otherwise : locals -> result locals) (api_num : Z)
  (r : DevInfo) (p : Z * RawDevice) : Prop :=
  exists st st',
    loop_body otherwise api_num (snd p) st = Ok st' /\
    v_dev_num st = fst p /\
    v_dev_info st' = v_dev_info st ++ [r].

(** Either function returned the sequence [recs]. *)
Definition returned (platform : string) (hapis : list HostApi)
  (devices : list RawDevice) (recs : list DevInfo) : Prop :=
  (exists out, FindDigiDevices platform hapis devices = Ok (recs, out)) \/
  (exists globals, TMSFindDevices globals platform hapis devices = Ok recs).

(** A last [else] that, when it falls through, leaves [dev_info] and
    [dev_num] as they were. *)
Definition keeps_list (otherwise : locals -> result locals) : Prop :=
  forall st st1,
    otherwise st = Ok st1 ->
    v_dev_info st1 = v_dev_info st /\ v_dev_num st1 = v_dev_num st.

(** What ties a returned record to the raw device it stands for: its index
    and the two fields copied from the name. *)
Definition stands_for (r : DevInfo) (p : Z * RawDevice) : Prop :=
  device r = fst p /\
  model r = field (name (snd p)) 0 6 /\
  serial_number r = field (name (snd p)) 8 14.

(** The lines [FindDigiDevices] prints inside its loop: one for each
    candidate whose format code is none of "1", "2", "3". *)
Definition diagnostics (api_num : Z) (devices : list RawDevice) : list string :=
  flat_map
    (fun dev =>
       if is_candidate api_num dev && other_code (name dev)
       then ["Expecting 1, 2, or 3 format"] else [])
    devices.

(** [r] with another device index. *)
Definition at_index (r : DevInfo) (i : Z) : DevInfo :=
  {| device := i; model := model r; serial_number := serial_number r;
     date := date r; format := format r;
     sensitivity_int := sensitivity_int r; scale := scale r |}.

(** No device of the list is a candidate. *)
Definition no_candidate (api_num : Z) (devices : list RawDevice) : bool :=
  forallb (fun dev => negb (is_candidate api_num dev)) devices.

(** An exception other than an instance of a class named in a [raise]
    statement. *)
Definition not_a_raised_class (e : exn) : Prop :=
  match e with
  | Raised _ _ => False
  | _ => True
  end.

(** The enumeration of the scenario of C6: a candidate with another format
    code and a valid one, in either order, among devices that are no
    candidates. *)
Definition one_bad_one_good (bad_first : bool) (l1 l2 l3 : list RawDevice)
  (bad good : RawDevice) : list RawDevice :=
  if bad_first then l1 ++ bad :: l2 ++ good :: l3
  else l1 ++ good :: l2 ++ bad :: l3.

(** The position of the valid device in it. *)
Definition good_position (bad_first : bool) (l1 l2 : list RawDevice) : nat :=
  if bad_first then (List.length l1 + 1 + List.length l2)%nat
  else List.length l1.

(** The character of a decimal digit, and the six characters of a date
    written year, month, day with two digits each. *)
Definition digit_char (d : Z) : ascii := ascii_of_N (Z.to_N (48 + d)).

Definition yymmdd (y1 y2 m1 m2 d1 d2 : Z) : string :=
  String (digit_char y1) (String (digit_char y2)
  (String (digit_char m1) (String (digit_char m2)
  (String (digit_char d1) (String (digit_char d2) EmptyString))))).

(** ** Sample enumerations *)

Module Sample.

(** A voltage device with format code "2". *)
Definition volt2 : RawDevice :=
  {| name := "USB Audio Device (485B39 212345602560000256000220615)";
     hostapi := 0 |}.

(** A voltage device with format code "3". *)
Definition volt3 : RawDevice :=
  {| name := "Microphone (485B39 365432100128000012900230101)";
     hostapi := 0 |}.

(** An acceleration device, format code "1". *)
Definition accel1 : RawDevice :=
  {| name := "Microphone (333D01 10012341234512346220615)";
     hostapi := 0 |}.

(** A name with a model substring and the format code "9". *)
Definition code9 : RawDevice :=
  {| name := "Microphone (333D01 90012341234512346220615)";
     hostapi := 0 |}.

(** The name of the spec's scenario, its fields set apart by spaces. *)
Definition spaced : RawDevice :=
  {| name := "USB Audio Device (485B39 2 123456 0256000 0256000 220615)";
     hostapi := 0 |}.

(** A device of another make, and [volt2] as another host API shows it. *)
Definition speakers : RawDevice :=
  {| name := "Speakers (Realtek Audio)"; hostapi := 0 |}.

Definition volt2_mme : RawDevice :=
  {| name := name volt2; hostapi := 3 |}.

Definition windows_hostapis : list HostApi :=
  [ {| api_name := "MME" |}; {| api_name := "Windows DirectSound" |};
    {| api_name := "Windows WASAPI" |}; {| api_name := "Windows WDM-KS" |} ].

End Sample.

(** ** Decoding as a relation *)

(** [decodes_to dev i r]: the name of [dev] holds one of the codes "1",
    "2", "3", its two sensitivity fields read as integers that are not
    zero, its date field reads as a date, and [r] is the record made of
    them for a device met at [dev_num = i]. *)
Inductive decodes_to (dev : RawDevice) (i : Z) : DevInfo -> Prop :=
  | decodes_code_1 : forall s0 s1 d,
      field (name dev) 7 8 = "1" ->
      int (field (name dev) 14 19) = Ok s0 ->
      int (field (name dev) 19 24) = Ok s1 ->
      s0 <> 0 -> s1 <> 0 ->
      strptime (field (name dev) 24 30) = Ok d ->
      decodes_to dev i
        (record_for i dev d ACCELERATION [s0; s1]
           [quotient32 855400 s0; quotient32 855400 s1])
  | decodes_code_2 : forall s0 s1 d,
      field (name dev) 7 8 = "2" ->
      int (field (name dev) 14 21) = Ok s0 ->
      int (field (name dev) 21 28) = Ok s1 ->
      s0 <> 0 -> s1 <> 0 ->
      strptime (field (name dev) 28 34) = Ok d ->
      decodes_to dev i
        (record_for i dev d VOLTAGE [s0; s1]
           [quotient32 8388608 s0; quotient32 8388608 s1])
  | decodes_code_3 : forall s0 s1 d,
      field (name dev) 7 8 = "3" ->
      int (field (name dev) 14 21) = Ok s0 ->
      int (field (name dev) 21 28) = Ok s1 ->
      s0 <> 0 -> s1 <> 0 ->
      strptime (field (name dev) 28 34) = Ok d ->
      decodes_to dev i
        (record_for i dev d VOLTAGE [20 * s0; 20 * s1]
           [quotient32 8388608 (20 * s0); quotient32 8388608 (20 * s1)]).

(** The record last appended to [dev_info], if any. *)
Definition last_record (st : locals) : option DevInfo :=
  match rev (v_dev_info st) with
  | r :: _ => Some r
  | [] => None
  end.

(** [date], [form], [sens] and [scale] hold the values of the record last
    appended, and are unbound while none has been. *)
Definition locals_track (st : locals) : Prop :=
  match last_record st with
  | Some r =>
      v_date st = Some (date r) /\ v_form st = Some (format r) /\
      v_sens st = Some (sensitivity_int r) /\ v_scale st = Some (scale r)
  | None =>
      v_date st = None /\ v_form st = None /\
      v_sens st = None /\ v_scale st = None
  end.

(** The sequences [FindDigiDevices] builds for a list of candidates, [prev]
    being the record appended last before them: a candidate with code "1",
    "2" or "3" gives the record it decodes to; a candidate with another
    code gives a record with its own index, model and serial number and
    the date, format, sensitivities and scale of the record before it, and
    needs such a record. *)
Inductive FindDigiDevices_records
  : option DevInfo -> list DevInfo -> list (Z * RawDevice) -> Prop :=
  | records_nil : forall prev, FindDigiDevices_records prev [] []
  | records_decoded : forall prev i dev r rs ps,
      other_code (name dev) = false ->
      decodes_to dev i r ->
      FindDigiDevices_records (Some r) rs ps ->
      FindDigiDevices_records prev (r :: rs) ((i, dev) :: ps)
  | records_left_over : forall p i dev rs ps,
      other_code (name dev) = true ->
      FindDigiDevices_records
        (Some (record_for i dev (date p) (format p) (sensitivity_int p)
                 (scale p))) rs ps ->
      FindDigiDevices_records (Some p)
        (record_for i dev (date p) (format p) (sensitivity_int p) (scale p)
         :: rs)
        ((i, dev) :: ps).

(** The empty-result line [FindDigiDevices] prints after its loop. *)
Definition empty_result_line (recs : list DevInfo) : list string :=
  match recs with
  | [] => ["No compatible devices found"]
  | _ :: _ => []
  end.

(** The two pairs of a record agree: two sensitivities that are not zero,
    of at most the size their fields allow, and the float32 quotients of
    the constant of the format by them. *)
Definition pairs_agree (r : DevInfo) : Prop :=
  exists s0 s1,
    sensitivity_int r = [s0; s1] /\ s0 <> 0 /\ s1 <> 0 /\
    ((format r = VOLTAGE /\
      Z.abs s0 < 200000000 /\ Z.abs s1 < 200000000 /\
      scale r = [quotient32 8388608 s0; quotient32 8388608 s1]) \/
     (format r = ACCELERATION /\
      Z.abs s0 < 100000 /\ Z.abs s1 < 100000 /\
      scale r = [quotient32 855400 s0; quotient32 855400 s1])).

(** A day of the calendar in the years a two-digit year can denote. *)
Definition valid_date (d : datetime) : Prop :=
  1969 <= year d <= 2068 /\ 1 <= month d <= 12 /\
  1 <= day d <= days_in_month (year d) (month d).


(** [r] is what the candidate of [p] decodes to at the index of [p]. *)
Definition decodes_pair (r : DevInfo) (p : Z * RawDevice) : Prop :=
  decodes_to (snd p) (fst p) r.


(** An exception of the decoding of a name: a field that does not read as
    an integer or as a date, or a sensitivity that is zero. *)
Definition decode_error (e : exn) : Prop :=
  (exists why, e = ValueError why) \/ e = ZeroDivisionError.


(** ** Building names *)

(** [s[n:]] for a position [n] that is not negative. *)
Fixpoint drop (n : nat) (s : string) : string :=
  match n, s with
  | O, _ => s
  | S n', String _ s' => drop n' s'
  | S _, EmptyString => EmptyString
  end.

(** [x] occurs in [s] at position [k]. *)
Definition occurs_at (x s : string) (k : nat) : Prop :=
  prefix x (drop k s) = true.

(** The decimal writing of [n] on [w] digits, zeros in front. *)
Fixpoint digits_of (w : nat) (n : Z) : string :=
  match w with
  | O => EmptyString
  | S w' => digits_of w' (n / 10) ++ String (digit_char (n mod 10)) EmptyString
  end%string.

(** A device name laid out as the offsets of the code expect it: some text,
    the six characters of the model, one character, the format code, the
    six characters of the serial number, two sensitivities of [w] digits,
    the date, some text. *)
Definition device_name (pre mdl : string) (sep code : ascii)
  (serial : string) (w : nat) (s0 s1 : Z) (dt post : string) : string :=
  (pre ++ mdl ++ String sep (String code
     (serial ++ digits_of w s0 ++ digits_of w s1 ++ dt ++ post)))%string.


(** The width of the sensitivity fields a format code goes with, and the
    record a name of that code stands for. *)
Definition code_width (code : ascii) : nat :=
  if Ascii.eqb code "1" then 5%nat else 7%nat.

Definition expected_record (code : ascii) (i : Z) (mdl serial : string)
  (d : datetime) (s0 s1 : Z) : DevInfo :=
  if Ascii.eqb code "1" then
    {| device := i; model := mdl; serial_number := serial; date := d;
       format := ACCELERATION; sensitivity_int := [s0; s1];
       scale := [quotient32 855400 s0; quotient32 855400 s1] |}
  else if Ascii.eqb code "3" then
    {| device := i; model := mdl; serial_number := serial; date := d;
       format := VOLTAGE; sensitivity_int := [20 * s0; 20 * s1];
       scale := [quotient32 8388608 (20 * s0);
                 quotient32 8388608 (20 * s1)] |}
  else
    {| device := i; model := mdl; serial_number := serial; date := d;
       format := VOLTAGE; sensitivity_int := [s0; s1];
       scale := [quotient32 8388608 s0; quotient32 8388608 s1] |}.



(** [r] with its device index moved on by [k]. *)
Definition shift_index (k : Z) (r : DevInfo) : DevInfo :=
  at_index r (device r + k).


(** ** src/findDigiImport.py *)

(** [np.linspace(start, stop, num)], kept as written. *)
Inductive axis : Type :=
  | Linspace (start stop num : Z).

(** What the script does that can be seen from outside, in order. *)
Inductive action : Type :=
  | Print (line : string)
  | Exit
  | Rec (frames samplerate channels dev : Z)
  | Wait
  | Plot (x : axis) (y : list (list float32))
  | Xlim_min_max (x : axis)
  | Title (text : string)
  | Xlabel (text : string)
  | Ylabel (text : string)
  | Show.

(** How a run of the script ends: at its last line, at [exit()], with an
    exception of the discovery, with the error of numpy for two shapes
    that cannot be multiplied, or with the error of [plt.plot] for a
    number of frames that is not the length of the time axis. *)
Inductive ending : Type :=
  | Completed
  | Exited
  | Uncaught (e : exn)
  | Shapes_mismatch
  | Lengths_mismatch.

(** The product of two float32 values. *)
Definition mul32 (x y : float32) : float32 := SFmul 24 128 x y.

(** [data * scale] for the frames of a two-channel recording and a scale
    array of one dimension: an array of two elements scales each channel
    by its own, one of one element scales both, any other does not fit. *)
Definition scale_frames (data : list (float32 * float32))
  (sc : list float32) : option (list (list float32)) :=
  match sc with
  | [a] => Some (map (fun x => [mul32 (fst x) a; mul32 (snd x) a]) data)
  | [a; b] => Some (map (fun x => [mul32 (fst x) a; mul32 (snd x) b]) data)
  | _ => None
  end.

(** [fs = 48000], [duration = 2], [buffersize = int(duration * fs)+1] *)
Definition fs : Z := 48000.
Definition duration : Z := 2.
Definition buffersize : Z := duration * fs + 1.

(** The script, given what the two queries return and the frames
    [sd.rec] has recorded once [sd.wait()] returns. *)
Definition findDigiImport (platform : string) (hapis : list HostApi)
  (devices : list RawDevice) (recorded : list (float32 * float32))
  : list action * ending :=
  match FindDigiDevices platform hapis devices with
  | Raise e => ([], Uncaught e)
  | Ok (devs, out) =>
      match devs with
      | [] => (map Print out ++ [Print "No Devices Found"; Exit], Exited)
      | d0 :: _ =>
          let started :=
            map Print out ++ [Rec buffersize fs 2 (device d0); Wait] in
          match scale_frames recorded (scale d0) with
          | None => (started, Shapes_mismatch)
          | Some scaledData =>
              let t := Linspace 0 duration (duration * fs + 1) in
              if Z.of_nat (List.length scaledData) =? duration * fs + 1 then
                (started ++
                 [Plot t scaledData;
                  Xlim_min_max t;
                  Title (model d0 ++ " S/N: " ++ serial_number d0)%string;
                  Xlabel "Time(seconds)";
                  Ylabel (if (model d0 =? "485B39")%string
                          then "Amplitude (Volts)" else "Amplitude (g's)");
                  Show],
                 Completed)
              else (started, Lengths_mismatch)
          end
      end
  end.


(** ** src/TMS_Digital_Audio.py: the script around [TMSFindDevices] *)

Module Script.

(** Lines 25-28, as shipped. *)
Definition eu_sen : list float64 := [of_int 100; of_int 100].
Definition eu_units : list string := ["g"; "g"].
Definition blocksize : Z := 1024.
Definition samplerate : Z := 48000.

(** [x != 0.0] on floats: true of NaN as well. *)
Definition ne_zero (x : float64) : bool := negb (SFeqb x (S754_zero false)).

(** A float32 value as the float64 it is. *)
Definition to_float64 (x : float32) : float64 :=
  match x with
  | S754_finite s m e => binary_round 53 1024 s m e
  | _ => x
  end.

(** [1.0 / (e/1000.0)] *)
Definition factor (e : float64) : float64 :=
  SFdiv 53 1024 (of_int 1) (SFdiv 53 1024 e (of_int 1000)).

(** [scale[ch] *= 1.0 / (eu_sen[ch]/1000.0)]: the float32 element times a
    float64 is a float64 product, stored back as float32. *)
Definition adjusted (c : float32) (e : float64) : float32 :=
  to_float32 (SFmul 53 1024 (to_float64 c) (factor e)).

(** [l[i] = x] on a list; [None] stands for [IndexError]. *)
Fixpoint set_item {A : Type} (l : list A) (i : nat) (x : A)
  : option (list A) :=
  match l, i with
  | _ :: rest, O => Some (x :: rest)
  | y :: rest, S j => option_map (cons y) (set_item rest j x)
  | [], _ => None
  end.

(** One turn of [for ch in range(len(scale))] (lines 142-144). *)
Definition channel_turn (sen : list float64) (eu : list string) (ch : nat)
  (st : list float32 * list string) : option (list float32 * list string) :=
  let (sc, units) := st in
  match nth_error sen ch with
  | None => None
  | Some e =>
      if ne_zero e then
        match nth_error sc ch with
        | None => None
        | Some c =>
            match set_item sc ch (adjusted c e) with
            | None => None
            | Some sc' =>
                match nth_error eu ch with
                | None => None
                | Some u =>
                    match set_item units ch u with
                    | None => None
                    | Some units' => Some (sc', units')
                    end
                end
            end
        end
      else Some st
  end.

Fixpoint channel_loop (sen : list float64) (eu : list string)
  (chs : list nat) (st : list float32 * list string)
  : option (list float32 * list string) :=
  match chs with
  | [] => Some st
  | ch :: rest =>
      match channel_turn sen eu ch st with
      | None => None
      | Some st' => channel_loop sen eu rest st'
      end
  end.

(** What the script has fixed when its stream starts: the lines printed,
    [info] with the scale array of its first record as the script has left
    it ([scale] is that very array), [units], and the three values handed
    to the plot and to the stream. *)
Record session : Type := {
  printed : list string;
  info : list DevInfo;
  units : list string;
  title : string;
  ylabel : string;
  stream_device : Z
}.

(** How the lines 129-165 end: with the session set up, with the exception
    of [TMSFindDevices], or with an [IndexError]. *)
Inductive setup : Type :=
  | Ready (s : session)
  | Discovery_failed (e : exn)
  | Index_error.

Definition with_scale (r : DevInfo) (sc : list float32) : DevInfo :=
  {| device := device r; model := model r;
     serial_number := serial_number r; date := date r; format := format r;
     sensitivity_int := sensitivity_int r; scale := sc |}.

(** Lines 129-165, given the configuration of lines 25-26. *)
Definition set_up (sen : list float64) (eu : list string)
  (globals : list string) (platform : string) (hapis : list HostApi)
  (devices : list RawDevice) : setup :=
  match TMSFindDevices globals platform hapis devices with
  | Raise e => Discovery_failed e
  | Ok found =>
      let out :=
        if 1 <? Z.of_nat (List.length found)
        then ["Using first device found."] else [] in
      match found with
      | [] => Index_error
      | r :: others =>
          let finish (r' : DevInfo) (us : list string) : setup :=
            match nth_error us 0 with
            | None => Index_error
            | Some u0 =>
                Ready {| printed := out; info := r' :: others; units := us;
                         title := ("The Modal Shop " ++ model r')%string;
                         ylabel := u0; stream_device := device r' |}
            end in
          if format r =? 1 then
            match channel_loop sen eu (seq 0 (List.length (scale r)))
                    (scale r, ["Volts"; "Volts"]) with
            | None => Index_error
            | Some (sc, us) => finish (with_scale r sc) us
            end
          else if format r =? 0 then finish r ["g"; "g"]
          else finish r ["Volts"; "Volts"]
      end
  end.

(** What a turn of the loop of lines 169-192 hands to the plot. *)
Inductive draw : Type :=
  | Axis_auto (sdata : list (list float32))
  | Plot_line (y : list float32)
  | Set_data_and_draw (y : list float32).

(** [sdata[:,0]] *)
Definition column_0 (sdata : list (list float32)) : option (list float32) :=
  List.fold_right
    (fun row acc =>
       match row, acc with
       | x :: _, Some ys => Some (x :: ys)
       | _, _ => None
       end)
    (Some []) sdata.

(** The variables [first] and [start]; [start] is unbound until the first
    block has been plotted. *)
Record throttle : Type := { first : Z; start : option Z }.

Definition at_start : throttle := {| first := 0; start := None |}.

(** How a turn can fail: the shapes of [data * scale] do not fit, the
    block is empty so that [np.min] has nothing to reduce, a row has no
    first column, the block has not the [blocksize] rows of the time axis
    [x] it is drawn against, or [start] is read unbound. *)
Inductive turn_failure : Type :=
  | Bad_shapes
  | Empty_block
  | Bad_index
  | Bad_length
  | Start_unbound.

(** One turn of [for i in range(200)], lines 170-192: [data] is what
    [q.get()] returns and [now] what the one call of [time_ms()] in the
    turn returns.  What matplotlib makes of the limits handed to
    [plt.axis] is left out: the turn hands them over and goes on. *)
Definition block_turn (sc : list float32)
  (data : list (float32 * float32)) (now : Z) (st : throttle)
  : (list draw * throttle) + turn_failure :=
  match scale_frames data sc with
  | None => inr Bad_shapes
  | Some [] => inr Empty_block
  | Some sdata =>
      if first st =? 0 then
        match column_0 sdata with
        | None => inr Bad_index
        | Some y =>
            if Z.of_nat (List.length y) =? blocksize then
              inl ([Axis_auto sdata; Plot_line y],
                   {| first := 1; start := Some now |})
            else inr Bad_length
        end
      else
        match start st with
        | None => inr Start_unbound
        | Some s =>
            if s + 100 <=? now then
              match column_0 sdata with
              | None => inr Bad_index
              | Some y =>
                  if Z.of_nat (List.length y) =? blocksize then
                    inl ([Axis_auto sdata; Set_data_and_draw y],
                         {| first := first st; start := Some (s + 100) |})
                  else inr Bad_length
              end
            else inl ([Axis_auto sdata], st)
        end
  end.

(** The turns for the blocks given, in order, each with what it drew. *)
Fixpoint block_loop (sc : list float32)
  (blocks : list (list (float32 * float32) * Z)) (st : throttle)
  : (list (list draw) * throttle) + turn_failure :=
  match blocks with
  | [] => inl ([], st)
  | (data, now) :: rest =>
      match block_turn sc data now st with
      | inr f => inr f
      | inl (drawn, st') =>
          match block_loop sc rest st' with
          | inr f => inr f
          | inl (more, st'') => inl (drawn :: more, st'')
          end
      end
  end.

(** [for i in range(200)]: the loop takes the first 200 blocks that
    arrive. *)
Definition stream_loop (sc : list float32)
  (blocks : list (list (float32 * float32) * Z))
  : (list (list draw) * throttle) + turn_failure :=
  block_loop sc (firstn 200 blocks) at_start.

(** A turn has redrawn the line. *)
Definition redraws (drawn : list draw) : bool :=
  existsb (fun d => match d with Set_data_and_draw _ => true | _ => false end)
    drawn.

(** The number of turns that have redrawn the line. *)
Definition redraw_count (turns : list (list draw)) : Z :=
  Z.of_nat (List.length (filter redraws turns)).

End Script.

(** A run of three blocks of 1.0 on both channels, read at 1000, 1050 and
    1120 ms, with the scale factors 2.0 and 3.0. *)
Module Run.

Definition factors : list float32 :=
  [S754_finite false 8388608 (-22); S754_finite false 12582912 (-22)].

Definition block : list (float32 * float32) :=
  repeat (S754_finite false 8388608 (-23), S754_finite false 8388608 (-23))
    1024.

Definition blocks : list (list (float32 * float32) * Z) :=
  [(block, 1050); (block, 1120)].

Definition scaled : list (list float32) := repeat factors 1024.

Definition channel_0 : list float32 :=
  repeat (S754_finite false 8388608 (-22)) 1024.

Definition turns : list (list Script.draw) :=
  [[Script.Axis_auto scaled];
   [Script.Axis_auto scaled; Script.Set_data_and_draw channel_0]].

End Run.


(** ** Host API selection *)

Lemma scan_hostapis_none :
  forall hapis k,
    (forall a, In a hapis -> api_name a <> "Windows WDM-KS") ->
    scan_hostapis hapis k = k + Z.of_nat (List.length hapis).
Proof.
  induction hapis as [|a rest IH]; intros k Hnone.
  - simpl. lia.
  - cbn [scan_hostapis].
    destruct (String.eqb_spec (api_name a) "Windows WDM-KS") as [E|_].
    + exfalso. apply (Hnone a); [left; reflexivity | exact E].
    + rewrite IH by (intros b Hb; apply Hnone; right; exact Hb).
      cbn [List.length]. lia.
Qed.

Lemma scan_hostapis_first :
  forall pre api post k,
    (forall a, In a pre -> api_name a <> "Windows WDM-KS") ->
    api_name api = "Windows WDM-KS" ->
    scan_hostapis (pre ++ api :: post) k = k + Z.of_nat (List.length pre).
Proof.
  induction pre as [|a rest IH]; intros api post k Hnone Hapi.
  - cbn [app scan_hostapis List.length]. rewrite Hapi, String.eqb_refl. lia.
  - cbn [app scan_hostapis].
    destruct (String.eqb_spec (api_name a) "Windows WDM-KS") as [E|_].
    + exfalso. apply (Hnone a); [left; reflexivity | exact E].
    + rewrite IH; [cbn [List.length]; lia | | exact Hapi].
      intros b Hb. apply Hnone. right. exact Hb.
Qed.

(** C9. On the platform ["win32"] the API index is the position of the
    first host API named exactly ["Windows WDM-KS"], and the number of host
    APIs when none has that name; on every other platform it is 0. *)
Theorem select_api_num_spec :
  forall (platform : string) (hapis : list HostApi),
    (platform = "win32" ->
     (forall pre api post,
         hapis = pre ++ api :: post ->
         (forall a, In a pre -> api_name a <> "Windows WDM-KS") ->
         api_name api = "Windows WDM-KS" ->
         select_api_num platform hapis = Z.of_nat (List.length pre)) /\
     ((forall a, In a hapis -> api_name a <> "Windows WDM-KS") ->
      select_api_num platform hapis = Z.of_nat (List.length hapis))) /\
    (platform <> "win32" -> select_api_num platform hapis = 0).
Proof.
  intros platform hapis. unfold select_api_num. split.
  - intros ->. rewrite String.eqb_refl. split.
    + intros pre api post -> Hnone Hapi.
      rewrite scan_hostapis_first by assumption. lia.
    + intros Hnone. rewrite scan_hostapis_none by assumption. lia.
  - intros Hne. destruct (String.eqb_spec platform "win32") as [E|_].
    + contradiction.
    + reflexivity.
Qed.

Lemma select_api_num_spec_witness :
  select_api_num "win32"
    [ {| api_name := "MME" |}; {| api_name := "Windows WDM-KS" |};
      {| api_name := "Windows WASAPI" |} ] = 1
  /\ select_api_num "win32"
       [ {| api_name := "MME" |}; {| api_name := "Windows WASAPI" |} ] = 2
  /\ select_api_num "darwin" [ {| api_name := "Core Audio" |} ] = 0.
Proof.
  split; [|split].
  - refine (proj1 (proj1 (select_api_num_spec "win32" _) eq_refl)
              [ {| api_name := "MME" |} ] {| api_name := "Windows WDM-KS" |}
              [ {| api_name := "Windows WASAPI" |} ] eq_refl _ eq_refl).
    intros a [<-|[]]. discriminate.
  - refine (proj2 (proj1 (select_api_num_spec "win32" _) eq_refl) _).
    intros a [<-|[<-|[]]]; discriminate.
  - refine (proj2 (select_api_num_spec "darwin" _) _). discriminate.
Defined.

(** ** Facts on results *)

Lemma bind_ok :
  forall (A B : Type) (c : result A) (k : A -> result B) (b : B),
    bind c k = Ok b -> exists a, c = Ok a /\ k a = Ok b.
Proof.
  intros A B [a|e] k b H; cbn in H.
  - exists a. split; [reflexivity | exact H].
  - discriminate.
Qed.

Lemma bind_assoc :
  forall (A B C : Type) (c : result A) (k : A -> result B)
         (h : B -> result C),
    bind (bind c k) h = bind c (fun a => bind (k a) h).
Proof. intros A B C [a|e] k h; reflexivity. Qed.

Ltac bind_inv H :=
  let a := fresh "a" in
  let Ha := fresh "Ha" in
  apply bind_ok in H; destruct H as (a & Ha & H).

(** ** Facts on floats *)

Lemma digits2_pos_iter_xO :
  forall k m, digits2_pos (Pos.iter xO m k) = (digits2_pos m + k)%positive.
Proof.
  induction k as [|k IH] using Pos.peano_ind; intros m.
  - cbn. lia.
  - rewrite Pos.iter_succ. cbn [digits2_pos]. rewrite IH. lia.
Qed.

Lemma digits2_pos_bound :
  forall p k, 0 <= k -> Zpos p < 2 ^ k -> Zpos (digits2_pos p) <= k.
Proof.
  induction p as [p IH|p IH|]; intros k Hk Hlt; cbn [digits2_pos].
  - assert (k <> 0) by (intros ->; cbn in Hlt; lia).
    replace k with (Z.succ (k - 1)) in Hlt by lia.
    rewrite Z.pow_succ_r in Hlt by lia.
    specialize (IH (k - 1) ltac:(lia) ltac:(lia)). lia.
  - assert (k <> 0) by (intros ->; cbn in Hlt; lia).
    replace k with (Z.succ (k - 1)) in Hlt by lia.
    rewrite Z.pow_succ_r in Hlt by lia.
    specialize (IH (k - 1) ltac:(lia) ltac:(lia)). lia.
  - assert (k <> 0) by (intros ->; cbn in Hlt; lia). lia.
Qed.

(** An integer of at most 53 bits needs no rounding: its binary64 value is
    finite. *)
Lemma binary_round_small :
  forall s p, Zpos p < 2 ^ 53 ->
    exists m e, binary_round 53 1024 s p 0 = S754_finite s m e.
Proof.
  intros s p Hp.
  pose proof (digits2_pos_bound p 53 ltac:(lia) Hp) as Hd.
  unfold binary_round, shl_align.
  set (d := digits2_pos p) in *.
  assert (Hf : fexp 53 1024 (Zpos d + 0) = Zpos d - 53).
  { unfold fexp, emin. lia. }
  rewrite Hf.
  destruct (Zpos d - 53 - 0) as [|q|q] eqn:Hq; try lia.
  - unfold binary_round_aux, shr_fexp.
    cbn [Zdigits2 shr_record_of_loc]. fold d.
    replace (fexp 53 1024 (Zpos d + 0) - 0) with 0 by (rewrite Hf; lia).
    cbn [shr shr_m loc_of_shr_record round_nearest_even Zdigits2]. fold d.
    replace (fexp 53 1024 (Zpos d + 0) - 0) with 0 by (rewrite Hf; lia).
    cbn [shr shr_m]. eexists _, _. reflexivity.
  - unfold binary_round_aux, shr_fexp.
    cbn [Zdigits2 shr_record_of_loc].
    rewrite digits2_pos_iter_xO. fold d.
    assert (Hf2 : fexp 53 1024 (Zpos (d + q) + (Zpos d - 53)) - (Zpos d - 53)
                  = 0).
    { unfold fexp, emin. lia. }
    rewrite Hf2.
    cbn [shr shr_m loc_of_shr_record round_nearest_even Zdigits2].
    rewrite digits2_pos_iter_xO. fold d. rewrite Hf2.
    cbn [shr shr_m].
    replace (Zpos d - 53 <=? 1024 - 53) with true
      by (symmetry; apply Z.leb_le; lia).
    eexists _, _. reflexivity.
Qed.

Lemma of_int_finite :
  forall n, n <> 0 -> Z.abs n < 2 ^ 53 ->
    exists s m e, of_int n = S754_finite s m e.
Proof.
  intros [|p|p] Hn Hb; [contradiction | |];
    unfold of_int, binary_normalize.
  - destruct (binary_round_small false p) as (m & e & E); [lia|].
    exists false, m, e. exact E.
  - destruct (binary_round_small true p) as (m & e & E); [cbn in Hb; lia|].
    exists true, m, e. exact E.
Qed.

(** Division of a float by an [int] of at most 53 bits: it raises exactly
    when the [int] is zero. *)
Lemma truediv_int_zero :
  forall a, truediv_int a 0 = Raise ZeroDivisionError.
Proof. reflexivity. Qed.

Lemma truediv_int_small :
  forall a n, n <> 0 -> Z.abs n < 2 ^ 53 ->
    truediv_int a n = Ok (SFdiv 53 1024 a (of_int n)).
Proof.
  intros a n Hn Hb. unfold truediv_int.
  destruct (of_int_finite n Hn Hb) as (s & m & e & ->). reflexivity.
Qed.

(** ** Facts on strings *)

Lemma substring_length_le :
  forall s n m, (String.length (substring n m s) <= m)%nat.
Proof.
  induction s as [|c s IH]; intros [|n] [|m]; cbn; try lia.
  - specialize (IH 0%nat m). lia.
  - apply IH.
  - apply IH.
Qed.

Lemma slice_length_le :
  forall s lo hi, 0 <= lo -> lo <= hi ->
    Z.of_nat (String.length (slice s lo hi)) <= hi - lo.
Proof.
  intros s lo hi Hlo Hhi. unfold slice, clamp.
  set (len := Z.of_nat (String.length s)).
  destruct (Z.ltb_spec lo 0); [lia|].
  destruct (Z.ltb_spec hi 0); [lia|].
  match goal with
  | |- Z.of_nat (String.length (substring ?n ?m s)) <= _ =>
      pose proof (substring_length_le s n m)
  end. lia.
Qed.

Lemma find_from_ge :
  forall x s i j, find_from x s i = Some j -> i <= j.
Proof.
  intros x s. induction s as [|c s IH]; intros i j H; cbn [find_from] in H.
  - destruct (prefix x ""); [injection H as <-; lia | discriminate].
  - destruct (prefix x (String c s)); [injection H as <-; lia|].
    apply IH in H. lia.
Qed.

Lemma match_model_contains :
  forall nm m, match_model nm = Some m -> In m models /\ contains m nm = true.
Proof.
  intros nm m H. unfold match_model in H.
  apply find_some in H. exact H.
Qed.

(** The model substring found in a candidate's name starts at a position
    that is not negative. *)
Lemma loc_of_nonneg :
  forall nm m, match_model nm = Some m ->
    loc_of nm = find nm m /\ 0 <= find nm m.
Proof.
  intros nm m H. unfold loc_of. rewrite H. split; [reflexivity|].
  apply match_model_contains in H. destruct H as [_ H].
  unfold contains in H. unfold find.
  destruct (find_from m nm 0) as [j|] eqn:E; [|discriminate].
  apply find_from_ge in E. exact E.
Qed.

Lemma lstrip_length_le :
  forall s, (String.length (lstrip s) <= String.length s)%nat.
Proof.
  induction s as [|c s IH]; cbn [lstrip]; [lia|].
  destruct (is_space c); cbn [String.length] in *; lia.
Qed.

Lemma digit_of_range :
  forall c d, digit_of c = Some d -> 0 <= d <= 9.
Proof.
  intros c d. unfold digit_of.
  destruct (Z.leb_spec 48 (code c)) as [Hlo|Hlo];
    destruct (Z.leb_spec (code c) 57) as [Hhi|Hhi];
    cbn; intros H; inversion H; lia.
Qed.

Lemma int_digits_bound :
  forall s acc prev n, 0 <= acc ->
    int_digits acc prev s = Some n ->
    0 <= n < (acc + 1) * 10 ^ Z.of_nat (String.length s).
Proof.
  induction s as [|c s IH]; intros acc prev n Hacc H.
  - cbn in H. destruct prev; inversion H; subst. cbn. lia.
  - cbn [int_digits] in H. cbn [String.length].
    rewrite Nat2Z.inj_succ, Z.pow_succ_r by lia.
    assert (Hp : 0 < 10 ^ Z.of_nat (String.length s))
      by (apply Z.pow_pos_nonneg; lia).
    destruct (digit_of c) as [d|] eqn:Ed.
    + apply digit_of_range in Ed. apply IH in H; [|lia]. nia.
    + destruct (Ascii.eqb c "_").
      * destruct prev; [|discriminate]. apply IH in H; [|lia]. nia.
      * destruct (prev && all_space (String c s)); inversion H; subst. nia.
Qed.

(** [int] reads from [s] a number of at most [len(s)] digits. *)
Lemma int_bound :
  forall s n, int s = Ok n -> Z.abs n < 10 ^ Z.of_nat (String.length s).
Proof.
  intros s n. unfold int.
  destruct (int_signed (lstrip s)) as [k|] eqn:E; [|discriminate].
  intros H. injection H as ->.
  pose proof (lstrip_length_le s) as Hl.
  assert (Hmono : 10 ^ Z.of_nat (String.length (lstrip s))
                  <= 10 ^ Z.of_nat (String.length s))
    by (apply Z.pow_le_mono_r; lia).
  revert E Hmono. generalize (lstrip s) as t. intros t E Hmono.
  assert (Hgen : forall u k', int_digits 0 false u = Some k' ->
                   0 <= k' < 10 ^ Z.of_nat (String.length u)).
  { intros u k' Hu. apply int_digits_bound in Hu; lia. }
  assert (Hstep : forall c u, 10 ^ Z.of_nat (String.length u)
                    <= 10 ^ Z.of_nat (String.length (String c u))).
  { intros c u. apply Z.pow_le_mono_r; cbn [String.length]; lia. }
  unfold int_signed in E.
  destruct t as [|c u]; [apply Hgen in E; lia|].
  specialize (Hstep c u).
  destruct (Ascii.eqb_spec c "+") as [->|Hplus].
  - apply Hgen in E. lia.
  - destruct (Ascii.eqb_spec c "-") as [->|Hminus].
    + destruct (int_digits 0 false u) as [k'|] eqn:E'; [|discriminate].
      cbn in E. injection E as <-. apply Hgen in E'. lia.
    + assert (E2 : int_digits 0 false (String c u) = Some n).
      { destruct c as [[] [] [] [] [] [] [] []]; try exact E;
          exfalso; auto. }
      apply Hgen in E2. lia.
Qed.

(** ** One turn of the loop *)

Section Turn.

Variable otherwise : locals -> result locals.
Variable api_num : Z.

Lemma loop_body_skip :
  forall dev st,
    is_candidate api_num dev = false ->
    loop_body otherwise api_num dev st
    = Ok (set_dev_num st (v_dev_num st + 1)).
Proof.
  intros dev st H. unfold is_candidate in H. unfold loop_body.
  destruct (hostapi dev =? api_num); [|reflexivity].
  destruct (match_model (name dev)); [discriminate | reflexivity].
Qed.

Lemma loop_body_candidate :
  forall dev st,
    is_candidate api_num dev = true ->
    let nm := name dev in
    loop_body otherwise api_num dev st
    = (st1 <- (if (field nm 7 8 =? "2")%string || (field nm 7 8 =? "3")%string
               then voltage_branch nm (loc_of nm) (field nm 7 8) st
               else if (field nm 7 8 =? "1")%string
               then acceleration_branch nm (loc_of nm) st
               else otherwise st) ;;
       st2 <- append_record (field nm 0 6) (field nm 8 14) st1 ;;
       Ok (set_dev_num st2 (v_dev_num st2 + 1))).
Proof.
  intros dev st H nm. unfold is_candidate in H.
  unfold loop_body, field, loc_of. subst nm.
  destruct (hostapi dev =? api_num); [|discriminate].
  destruct (match_model (name dev)) as [m|]; [|discriminate].
  rewrite Z.add_0_r. apply bind_assoc.
Qed.

End Turn.

(** ** The decoding branches *)

Lemma candidate_loc_nonneg :
  forall api_num dev,
    is_candidate api_num dev = true -> 0 <= loc_of (name dev).
Proof.
  intros api_num dev H. unfold is_candidate in H.
  apply andb_true_iff in H. destruct H as [_ H].
  destruct (match_model (name dev)) as [m|] eqn:E; [|discriminate].
  destruct (loc_of_nonneg _ _ E) as [-> Hge]. exact Hge.
Qed.

(** A field of [b - a] characters holds a number below [10 ^ (b - a)]. *)
Lemma field_int_bound :
  forall nm a b n,
    0 <= loc_of nm -> 0 <= a <= b ->
    int (field nm a b) = Ok n -> Z.abs n < 10 ^ (b - a).
Proof.
  intros nm a b n Hloc Hab H. apply int_bound in H.
  pose proof (slice_length_le nm (loc_of nm + a) (loc_of nm + b)
                ltac:(lia) ltac:(lia)) as Hlen.
  fold (field nm a b) in Hlen.
  eapply Z.lt_le_trans; [exact H|].
  apply Z.pow_le_mono_r; lia.
Qed.

Lemma truediv_int_field :
  forall c n k, Z.abs n < 10 ^ 7 -> 1 <= k <= 20 ->
    truediv_int (of_int c) (n * k)
    = if n =? 0 then Raise ZeroDivisionError
      else Ok (SFdiv 53 1024 (of_int c) (of_int (n * k))).
Proof.
  intros c n k Hn Hk. destruct (Z.eqb_spec n 0) as [->|Hne].
  - rewrite Z.mul_0_l. apply truediv_int_zero.
  - apply truediv_int_small; [nia|].
    change (10 ^ 7) with 10000000 in Hn.
    change (2 ^ 53) with 9007199254740992. nia.
Qed.

Lemma voltage_branch_3 :
  forall nm st a b,
    0 <= loc_of nm ->
    int (field nm 14 21) = Ok a ->
    int (field nm 21 28) = Ok b ->
    voltage_branch nm (loc_of nm) "3" st
    = if (a =? 0) || (b =? 0) then Raise ZeroDivisionError
      else d <- strptime (field nm 28 34) ;;
           Ok (set_date
                 (set_scale (set_sens (set_form st 1) [a * 20; b * 20])
                    [quotient32 8388608 (a * 20); quotient32 8388608 (b * 20)])
                 d).
Proof.
  intros nm st a b Hloc Ha Hb.
  pose proof (field_int_bound nm 14 21 a Hloc ltac:(lia) Ha) as Ba.
  pose proof (field_int_bound nm 21 28 b Hloc ltac:(lia) Hb) as Bb.
  unfold voltage_branch. unfold field in Ha, Hb. rewrite Ha, Hb.
  cbn [bind String.eqb Ascii.eqb Bool.eqb imul_item item nth].
  rewrite !truediv_int_field by (assumption || lia).
  destruct (a =? 0); [reflexivity|].
  destruct (b =? 0); reflexivity.
Qed.

Lemma voltage_branch_2 :
  forall nm st a b,
    0 <= loc_of nm ->
    int (field nm 14 21) = Ok a ->
    int (field nm 21 28) = Ok b ->
    voltage_branch nm (loc_of nm) "2" st
    = if (a =? 0) || (b =? 0) then Raise ZeroDivisionError
      else d <- strptime (field nm 28 34) ;;
           Ok (set_date
                 (set_scale (set_sens (set_form st 1) [a; b])
                    [quotient32 8388608 a; quotient32 8388608 b])
                 d).
Proof.
  intros nm st a b Hloc Ha Hb.
  pose proof (field_int_bound nm 14 21 a Hloc ltac:(lia) Ha) as Ba.
  pose proof (field_int_bound nm 21 28 b Hloc ltac:(lia) Hb) as Bb.
  unfold voltage_branch. unfold field in Ha, Hb. rewrite Ha, Hb.
  cbn [bind String.eqb Ascii.eqb Bool.eqb imul_item item nth].
  pose proof (truediv_int_field 8388608 a 1 Ba ltac:(lia)) as Ta.
  pose proof (truediv_int_field 8388608 b 1 Bb ltac:(lia)) as Tb.
  rewrite Z.mul_1_r in Ta, Tb. rewrite Ta, Tb.
  destruct (a =? 0); [reflexivity|].
  destruct (b =? 0); reflexivity.
Qed.

Lemma acceleration_branch_1 :
  forall nm st a b,
    0 <= loc_of nm ->
    int (field nm 14 19) = Ok a ->
    int (field nm 19 24) = Ok b ->
    acceleration_branch nm (loc_of nm) st
    = if (a =? 0) || (b =? 0) then Raise ZeroDivisionError
      else d <- strptime (field nm 24 30) ;;
           Ok (set_date
                 (set_scale (set_sens (set_form st 0) [a; b])
                    [quotient32 855400 a; quotient32 855400 b])
                 d).
Proof.
  intros nm st a b Hloc Ha Hb.
  pose proof (field_int_bound nm 14 19 a Hloc ltac:(lia) Ha) as Ba.
  pose proof (field_int_bound nm 19 24 b Hloc ltac:(lia) Hb) as Bb.
  assert (Ba' : Z.abs a < 10 ^ 7)
    by (eapply Z.lt_le_trans; [exact Ba | apply Z.pow_le_mono_r; lia]).
  assert (Bb' : Z.abs b < 10 ^ 7)
    by (eapply Z.lt_le_trans; [exact Bb | apply Z.pow_le_mono_r; lia]).
  unfold acceleration_branch. unfold field in Ha, Hb. rewrite Ha, Hb.
  cbn [bind item nth].
  pose proof (truediv_int_field 855400 a 1 Ba' ltac:(lia)) as Ta.
  pose proof (truediv_int_field 855400 b 1 Bb' ltac:(lia)) as Tb.
  rewrite Z.mul_1_r in Ta, Tb. rewrite Ta, Tb.
  destruct (a =? 0); [reflexivity|].
  destruct (b =? 0); reflexivity.
Qed.

(** A turn of the loop on a candidate whose branch assigned the four
    variables appends the record built from them. *)
Lemma append_after_branch :
  forall st i dev d form sens sc,
    v_dev_num st = i ->
    (st2 <- append_record (field (name dev) 0 6) (field (name dev) 8 14)
              (set_date (set_scale (set_sens (set_form st form) sens) sc) d) ;;
     Ok (set_dev_num st2 (v_dev_num st2 + 1)))
    = Ok (after_decode st (record_for i dev d form sens sc)).
Proof. intros st i dev d form sens sc <-. reflexivity. Qed.

(** ** The loop *)

Lemma voltage_branch_keeps :
  forall nm loc fmt st st1,
    voltage_branch nm loc fmt st = Ok st1 ->
    v_dev_info st1 = v_dev_info st /\ v_dev_num st1 = v_dev_num st.
Proof.
  intros nm loc fmt st st1 H. unfold voltage_branch in H.
  do 5 bind_inv H. injection H as <-. split; reflexivity.
Qed.

Lemma acceleration_branch_keeps :
  forall nm loc st st1,
    acceleration_branch nm loc st = Ok st1 ->
    v_dev_info st1 = v_dev_info st /\ v_dev_num st1 = v_dev_num st.
Proof.
  intros nm loc st st1 H. unfold acceleration_branch in H.
  do 5 bind_inv H. injection H as <-. split; reflexivity.
Qed.

Lemma FindDigiDevices_else_keeps : keeps_list FindDigiDevices_else.
Proof.
  intros st st1 H. unfold FindDigiDevices_else in H.
  injection H as <-. split; reflexivity.
Qed.

Lemma TMSFindDevices_else_keeps :
  forall globals, keeps_list (TMSFindDevices_else globals).
Proof.
  intros globals st st1 H. unfold TMSFindDevices_else, raise_class in H.
  destruct (bound globals "FormatError"); discriminate.
Qed.

Lemma append_record_ok :
  forall mdl serialnum st st1,
    append_record mdl serialnum st = Ok st1 ->
    exists r,
      v_dev_info st1 = v_dev_info st ++ [r] /\
      v_dev_num st1 = v_dev_num st /\
      device r = v_dev_num st /\ model r = mdl /\
      serial_number r = serialnum.
Proof.
  intros mdl serialnum st st1 H. unfold append_record in H.
  do 4 bind_inv H. injection H as <-.
  eexists. cbn. repeat split; reflexivity.
Qed.

Section Loop.

Variable otherwise : locals -> result locals.
Variable api_num : Z.
Hypothesis otherwise_keeps : keeps_list otherwise.

(** A completed turn moves [dev_num] on by one and appends one record
    for a candidate, none for another device. *)
Lemma loop_body_ok :
  forall dev st st',
    loop_body otherwise api_num dev st = Ok st' ->
    v_dev_num st' = v_dev_num st + 1 /\
    if is_candidate api_num dev
    then exists r, v_dev_info st' = v_dev_info st ++ [r] /\
                   stands_for r (v_dev_num st, dev)
    else v_dev_info st' = v_dev_info st.
Proof.
  intros dev st st' H.
  destruct (is_candidate api_num dev) eqn:Hc.
  - rewrite loop_body_candidate in H by exact Hc.
    bind_inv H. bind_inv H. injection H as <-.
    assert (Hk : v_dev_info a = v_dev_info st /\ v_dev_num a = v_dev_num st).
    { destruct (_ || _).
      - eapply voltage_branch_keeps; eassumption.
      - destruct (_ =? "1")%string.
        + eapply acceleration_branch_keeps; eassumption.
        + apply otherwise_keeps; assumption. }
    destruct Hk as [Hi Hn].
    apply append_record_ok in Ha0.
    destruct Ha0 as (r & Hr & Hn' & Hd & Hm & Hs).
    cbn [v_dev_num v_dev_info set_dev_num]. split; [lia|].
    exists r. split; [congruence|].
    unfold stands_for. cbn [fst snd]. repeat split; congruence.
  - rewrite loop_body_skip in H by exact Hc.
    injection H as <-. split; reflexivity.
Qed.

Lemma loop_body_appended :
  forall dev st st' r,
    loop_body otherwise api_num dev st = Ok st' ->
    v_dev_info st' = v_dev_info st ++ [r] ->
    is_candidate api_num dev = true /\ stands_for r (v_dev_num st, dev).
Proof.
  intros dev st st' r H Hr.
  destruct (loop_body_ok _ _ _ H) as [_ Hc].
  destruct (is_candidate api_num dev).
  - destruct Hc as (r' & Hr' & Hs). rewrite Hr in Hr'.
    apply app_inv_head in Hr'. injection Hr' as ->.
    split; [reflexivity | exact Hs].
  - exfalso. rewrite Hc in Hr.
    apply (f_equal (@List.length DevInfo)) in Hr.
    rewrite length_app in Hr. cbn in Hr. lia.
Qed.

(** The records a completed loop has appended are, in order, those its
    turns appended for the candidates. *)
Lemma for_each_trace :
  forall devices st st',
    for_each (loop_body otherwise api_num) devices st = Ok st' ->
    v_dev_num st' = v_dev_num st + Z.of_nat (List.length devices) /\
    exists news,
      v_dev_info st' = v_dev_info st ++ news /\
      Forall2 (appended_by otherwise api_num) news
        (candidates api_num devices (v_dev_num st)).
Proof.
  induction devices as [|dev rest IH]; intros st st' H.
  - cbn in H. injection H as <-. split; [cbn; lia|].
    exists []. rewrite app_nil_r. split; [reflexivity | constructor].
  - cbn [for_each] in H. bind_inv H.
    destruct (loop_body_ok _ _ _ Ha) as [Hn Hc].
    destruct (IH _ _ H) as (Hn' & news & Hi & Hf).
    split; [cbn [List.length]; lia|].
    cbn [candidates]. rewrite Hn in Hf.
    destruct (is_candidate api_num dev).
    + destruct Hc as (r & Hr & _).
      exists (r :: news). split.
      * rewrite Hi, Hr, <- app_assoc. reflexivity.
      * cbn [app]. constructor; [|exact Hf].
        exists st, a. cbn [fst snd]. repeat split; assumption.
    + exists news. split; [congruence | exact Hf].
Qed.

End Loop.

Lemma for_each_app :
  forall body l1 l2 st,
    for_each body (l1 ++ l2) st
    = (st1 <- for_each body l1 st ;; for_each body l2 st1).
Proof.
  intros body l1. induction l1 as [|d l1 IH]; intros l2 st.
  - reflexivity.
  - cbn [app for_each]. rewrite bind_assoc.
    destruct (body d st) as [st1|e]; [cbn [bind]; apply IH | reflexivity].
Qed.

(** ** The candidates of an enumeration *)

Lemma candidates_fst_ge :
  forall api_num devices i p,
    In p (candidates api_num devices i) -> i <= fst p.
Proof.
  intros api_num devices.
  induction devices as [|dev rest IH]; intros i p H; [contradiction|].
  cbn [candidates] in H. apply in_app_or in H. destruct H as [H|H].
  - destruct (is_candidate api_num dev); [|contradiction].
    destruct H as [<-|[]]. cbn. lia.
  - apply IH in H. lia.
Qed.

Lemma candidates_in :
  forall api_num devices i j dev,
    In (j, dev) (candidates api_num devices i) <->
    i <= j /\ nth_error devices (Z.to_nat (j - i)) = Some dev /\
    is_candidate api_num dev = true.
Proof.
  intros api_num devices.
  induction devices as [|d rest IH]; intros i j dev.
  - cbn [candidates]. split; [contradiction|].
    intros (_ & H & _). destruct (Z.to_nat (j - i)); discriminate.
  - cbn [candidates]. rewrite in_app_iff, IH. split.
    + intros [H|(Hle & Hn & Hc)].
      * destruct (is_candidate api_num d) eqn:Hc; [|contradiction].
        destruct H as [H|[]]. injection H as <- <-.
        rewrite Z.sub_diag. cbn. repeat split; [lia | exact Hc].
      * split; [lia|]. split; [|exact Hc].
        replace (Z.to_nat (j - i)) with (S (Z.to_nat (j - (i + 1)))) by lia.
        exact Hn.
    + intros (Hle & Hn & Hc).
      destruct (Z.eq_dec j i) as [->|Hne].
      * left. rewrite Z.sub_diag in Hn. cbn in Hn. injection Hn as ->.
        rewrite Hc. left. reflexivity.
      * right. split; [lia|]. split; [|exact Hc].
        replace (Z.to_nat (j - i)) with (S (Z.to_nat (j - (i + 1)))) in Hn
          by lia.
        exact Hn.
Qed.

Lemma candidates_sorted :
  forall api_num devices i,
    StronglySorted Z.lt (map fst (candidates api_num devices i)).
Proof.
  intros api_num devices.
  induction devices as [|d rest IH]; intros i; cbn [candidates].
  - constructor.
  - destruct (is_candidate api_num d); cbn [app map]; [|apply IH].
    constructor; [apply IH|].
    apply Forall_forall. intros j Hj. apply in_map_iff in Hj.
    destruct Hj as (p & <- & Hp). apply candidates_fst_ge in Hp.
    cbn [fst]. lia.
Qed.

(** ** The two functions and their loops *)

Lemma FindDigiDevices_ok :
  forall platform hapis devices recs out,
    FindDigiDevices platform hapis devices = Ok (recs, out) ->
    exists st,
      FindDigiDevices_loop (select_api_num platform hapis) devices entry
      = Ok st /\ v_dev_info st = recs.
Proof.
  intros platform hapis devices recs out H. unfold FindDigiDevices in H.
  bind_inv H. exists a. split; [exact Ha|].
  destruct (v_dev_info a) eqn:E; cbn in H; injection H as <- _; congruence.
Qed.

Lemma TMSFindDevices_ok :
  forall globals platform hapis devices recs,
    TMSFindDevices globals platform hapis devices = Ok recs ->
    exists st,
      TMSFindDevices_loop globals (select_api_num platform hapis) devices entry
      = Ok st /\ v_dev_info st = recs.
Proof.
  intros globals platform hapis devices recs H. unfold TMSFindDevices in H.
  bind_inv H. exists a. split; [exact Ha|].
  destruct (v_dev_info a) eqn:E.
  - unfold raise_class in H. destruct (bound _ _); discriminate.
  - injection H as <-. congruence.
Qed.

(** Whatever either function returns was appended, record by record, by
    the turns of its loop on the candidates. *)
Lemma returned_trace :
  forall platform hapis devices recs,
    returned platform hapis devices recs ->
    exists otherwise,
      keeps_list otherwise /\
      Forall2 (appended_by otherwise (select_api_num platform hapis)) recs
        (candidates (select_api_num platform hapis) devices 0).
Proof.
  intros platform hapis devices recs [(out & H)|(globals & H)].
  - apply FindDigiDevices_ok in H. destruct H as (st & H & <-).
    exists FindDigiDevices_else. split; [apply FindDigiDevices_else_keeps|].
    apply (for_each_trace _ _ FindDigiDevices_else_keeps) in H.
    destruct H as (_ & news & Hi & Hf). rewrite Hi. exact Hf.
  - apply TMSFindDevices_ok in H. destruct H as (st & H & <-).
    exists (TMSFindDevices_else globals).
    split; [apply TMSFindDevices_else_keeps|].
    apply (for_each_trace _ _ (TMSFindDevices_else_keeps globals)) in H.
    destruct H as (_ & news & Hi & Hf). rewrite Hi. exact Hf.
Qed.

Lemma Forall2_in_right :
  forall (A B : Type) (R : A -> B -> Prop) l l' y,
    Forall2 R l l' -> In y l' -> exists x, In x l /\ R x y.
Proof.
  intros A B R l l' y H. induction H as [|x z l l' Hxz _ IH]; intros Hy.
  - contradiction.
  - destruct Hy as [->|Hy].
    + exists x. split; [left; reflexivity | exact Hxz].
    + destruct (IH Hy) as (x' & Hx' & HR).
      exists x'. split; [right; exact Hx' | exact HR].
Qed.

Lemma Forall2_weaken :
  forall (A B : Type) (R S : A -> B -> Prop) l l',
    (forall x y, R x y -> S x y) -> Forall2 R l l' -> Forall2 S l l'.
Proof.
  intros A B R S l l' HRS H.
  induction H; constructor; auto.
Qed.

(** C8. The records either function returns stand, one for one and in the
    same order, for the raw devices that pass the host-API filter and the
    model match; the index in each is the position of its raw device in
    the whole enumeration, counted from 0 over all its devices: the loop
    moves [dev_num] on by one for every raw device, candidate or not. *)
Theorem returned_order_and_index :
  forall platform hapis devices recs,
    returned platform hapis devices recs ->
    let api_num := select_api_num platform hapis in
    Forall2 stands_for recs (candidates api_num devices 0) /\
    (forall i dev,
        In (i, dev) (candidates api_num devices 0) <->
        0 <= i /\ nth_error devices (Z.to_nat i) = Some dev /\
        is_candidate api_num dev = true) /\
    StronglySorted Z.lt (map fst (candidates api_num devices 0)) /\
    (forall pre post st,
        devices = pre ++ post ->
        (FindDigiDevices_loop api_num pre entry = Ok st \/
         exists globals,
           TMSFindDevices_loop globals api_num pre entry = Ok st) ->
        v_dev_num st = Z.of_nat (List.length pre)).
Proof.
  intros platform hapis devices recs H api_num.
  split; [|split; [|split]].
  - destruct (returned_trace _ _ _ _ H) as (otherwise & Hk & Hf).
    eapply Forall2_weaken; [|exact Hf].
    intros r [i dev] (st & st' & Hb & Hn & Hi). cbn [fst snd] in *.
    destruct (loop_body_appended _ _ Hk _ _ _ _ Hb Hi) as [_ Hs].
    rewrite Hn in Hs. exact Hs.
  - intros i dev. rewrite candidates_in, Z.sub_0_r. reflexivity.
  - apply candidates_sorted.
  - intros pre post st _ [Hl|(globals & Hl)].
    + apply (for_each_trace _ _ FindDigiDevices_else_keeps) in Hl.
      destruct Hl as [Hl _]. exact Hl.
    + apply (for_each_trace _ _ (TMSFindDevices_else_keeps globals)) in Hl.
      destruct Hl as [Hl _]. exact Hl.
Qed.

Lemma returned_order_and_index_witness :
  Forall2 stands_for
    [ record_for 1 Sample.volt2 (mkdate 2022 6 15) VOLTAGE [256000; 256000]
        [quotient32 8388608 256000; quotient32 8388608 256000];
      record_for 3 Sample.accel1 (mkdate 2022 6 15) ACCELERATION [12345; 12346]
        [quotient32 855400 12345; quotient32 855400 12346] ]
    (candidates 0
       [Sample.speakers; Sample.volt2; Sample.volt2_mme; Sample.accel1] 0).
Proof.
  refine (proj1 (returned_order_and_index "linux" []
                   [Sample.speakers; Sample.volt2; Sample.volt2_mme;
                    Sample.accel1] _ _)).
  left. exists []. vm_compute. reflexivity.
Defined.

(** ** The three format codes *)

(** The record behind [appended_by], when the turn for the device is known
    to be a division check followed by the reading of the date. *)
Lemma appended_by_decoded :
  forall otherwise api_num r i dev (z : bool) (dt : result datetime)
         (F : Z -> datetime -> DevInfo),
    appended_by otherwise api_num r (i, dev) ->
    (forall st,
        loop_body otherwise api_num dev st
        = if z then Raise ZeroDivisionError
          else d <- dt ;; Ok (after_decode st (F (v_dev_num st) d))) ->
    exists d, z = false /\ dt = Ok d /\ r = F i d.
Proof.
  intros otherwise api_num r i dev z dt F (st & st' & Hb & Hn & Hi) Heq.
  cbn [fst snd] in *. rewrite Heq in Hb.
  destruct z; [discriminate|].
  destruct dt as [d|e]; [|discriminate]. cbn [bind] in Hb.
  injection Hb as <-. cbn [after_decode v_dev_info] in Hi.
  apply app_inv_head in Hi. injection Hi as Hi.
  exists d. rewrite <- Hn. auto.
Qed.

Section Codes.

Variable otherwise : locals -> result locals.
Variable api_num : Z.
Variable dev : RawDevice.
Hypothesis Hcand : is_candidate api_num dev = true.

Let nm := name dev.

Lemma turn_code_3 :
  forall s0 s1 st,
    field nm 7 8 = "3" ->
    int (field nm 14 21) = Ok s0 ->
    int (field nm 21 28) = Ok s1 ->
    loop_body otherwise api_num dev st
    = if (s0 =? 0) || (s1 =? 0) then Raise ZeroDivisionError
      else d <- strptime (field nm 28 34) ;;
           Ok (after_decode st
                 (record_for (v_dev_num st) dev d VOLTAGE
                    [20 * s0; 20 * s1]
                    [quotient32 8388608 (20 * s0);
                     quotient32 8388608 (20 * s1)])).
Proof.
  intros s0 s1 st Hcode H0 H1.
  rewrite loop_body_candidate by exact Hcand. fold nm. rewrite Hcode.
  cbn [String.eqb Ascii.eqb Bool.eqb orb].
  rewrite (voltage_branch_3 nm st s0 s1)
    by (assumption || exact (candidate_loc_nonneg _ _ Hcand)).
  rewrite (Z.mul_comm 20 s0), (Z.mul_comm 20 s1).
  destruct ((s0 =? 0) || (s1 =? 0)); [reflexivity|].
  destruct (strptime (field nm 28 34)) as [d|e]; [|reflexivity].
  cbn [bind]. apply append_after_branch. reflexivity.
Qed.

Lemma turn_code_2 :
  forall s0 s1 st,
    field nm 7 8 = "2" ->
    int (field nm 14 21) = Ok s0 ->
    int (field nm 21 28) = Ok s1 ->
    loop_body otherwise api_num dev st
    = if (s0 =? 0) || (s1 =? 0) then Raise ZeroDivisionError
      else d <- strptime (field nm 28 34) ;;
           Ok (after_decode st
                 (record_for (v_dev_num st) dev d VOLTAGE [s0; s1]
                    [quotient32 8388608 s0; quotient32 8388608 s1])).
Proof.
  intros s0 s1 st Hcode H0 H1.
  rewrite loop_body_candidate by exact Hcand. fold nm. rewrite Hcode.
  cbn [String.eqb Ascii.eqb Bool.eqb orb].
  rewrite (voltage_branch_2 nm st s0 s1)
    by (assumption || exact (candidate_loc_nonneg _ _ Hcand)).
  destruct ((s0 =? 0) || (s1 =? 0)); [reflexivity|].
  destruct (strptime (field nm 28 34)) as [d|e]; [|reflexivity].
  cbn [bind]. apply append_after_branch. reflexivity.
Qed.

Lemma turn_code_1 :
  forall s0 s1 st,
    field nm 7 8 = "1" ->
    int (field nm 14 19) = Ok s0 ->
    int (field nm 19 24) = Ok s1 ->
    loop_body otherwise api_num dev st
    = if (s0 =? 0) || (s1 =? 0) then Raise ZeroDivisionError
      else d <- strptime (field nm 24 30) ;;
           Ok (after_decode st
                 (record_for (v_dev_num st) dev d ACCELERATION [s0; s1]
                    [quotient32 855400 s0; quotient32 855400 s1])).
Proof.
  intros s0 s1 st Hcode H0 H1.
  rewrite loop_body_candidate by exact Hcand. fold nm. rewrite Hcode.
  cbn [String.eqb Ascii.eqb Bool.eqb orb].
  rewrite (acceleration_branch_1 nm st s0 s1)
    by (assumption || exact (candidate_loc_nonneg _ _ Hcand)).
  destruct ((s0 =? 0) || (s1 =? 0)); [reflexivity|].
  destruct (strptime (field nm 24 30)) as [d|e]; [|reflexivity].
  cbn [bind]. apply append_after_branch. reflexivity.
Qed.

End Codes.

Lemma candidate_at :
  forall api_num devices i dev,
    nth_error devices i = Some dev ->
    is_candidate api_num dev = true ->
    In (Z.of_nat i, dev) (candidates api_num devices 0).
Proof.
  intros api_num devices i dev Hn Hc. apply candidates_in.
  rewrite Z.sub_0_r, Nat2Z.id. repeat split; [lia | exact Hn | exact Hc].
Qed.

(** The record returned for a candidate whose turn is a division check
    followed by the reading of the date. *)
Lemma returned_decoded :
  forall platform hapis devices recs i dev (z : bool) (dt : result datetime)
         (F : Z -> datetime -> DevInfo),
    returned platform hapis devices recs ->
    nth_error devices i = Some dev ->
    is_candidate (select_api_num platform hapis) dev = true ->
    (forall otherwise st,
        loop_body otherwise (select_api_num platform hapis) dev st
        = if z then Raise ZeroDivisionError
          else d <- dt ;; Ok (after_decode st (F (v_dev_num st) d))) ->
    exists d, z = false /\ dt = Ok d /\ In (F (Z.of_nat i) d) recs.
Proof.
  intros platform hapis devices recs i dev z dt F Hret Hn Hc Heq.
  destruct (returned_trace _ _ _ _ Hret) as (otherwise & _ & Hf).
  pose proof (candidate_at _ _ _ _ Hn Hc) as Hin.
  destruct (Forall2_in_right _ _ _ _ _ _ Hf Hin) as (r & Hr & Ha).
  destruct (appended_by_decoded _ _ _ _ _ z dt F Ha (Heq otherwise))
    as (d & Hz & Hd & ->).
  exists d. auto.
Qed.

Lemma orb_eqb_false :
  forall a b, (a =? 0) || (b =? 0) = false <-> a <> 0 /\ b <> 0.
Proof.
  intros a b. rewrite orb_false_iff, !Z.eqb_neq. reflexivity.
Qed.

(** An enumeration of one candidate that decodes: both functions return
    its record alone, and [FindDigiDevices] prints nothing. *)
Lemma singleton_returned :
  forall platform hapis dev r,
    (forall otherwise,
        loop_body otherwise (select_api_num platform hapis) dev entry
        = Ok (after_decode entry r)) ->
    FindDigiDevices platform hapis [dev] = Ok ([r], []) /\
    (forall globals, TMSFindDevices globals platform hapis [dev] = Ok [r]).
Proof.
  intros platform hapis dev r H. split.
  - unfold FindDigiDevices, FindDigiDevices_loop. cbn [for_each].
    rewrite H. reflexivity.
  - intros globals. unfold TMSFindDevices, TMSFindDevices_loop.
    cbn [for_each]. rewrite H. reflexivity.
Qed.

(** C2. A candidate with format code "3" whose two 7-character fields read
    as [s0] and [s1] is returned, by either function, with the sensitivity
    pair [[20*s0, 20*s1]], the scale pair
    [[8388608.0/(20*s0), 8388608.0/(20*s1)]] as float32 and the format
    VOLTAGE; and whenever neither sensitivity is zero and the date field
    reads as a date, the turn of the loop for it appends that record, and
    both functions return it when the device is enumerated alone. *)
Theorem code_3_record :
  forall platform hapis devices i dev s0 s1,
    let api_num := select_api_num platform hapis in
    let nm := name dev in
    nth_error devices i = Some dev ->
    is_candidate api_num dev = true ->
    field nm 7 8 = "3" ->
    int (field nm 14 21) = Ok s0 ->
    int (field nm 21 28) = Ok s1 ->
    (forall recs,
        returned platform hapis devices recs ->
        exists d,
          strptime (field nm 28 34) = Ok d /\
          In (record_for (Z.of_nat i) dev d VOLTAGE
                [20 * s0; 20 * s1]
                [quotient32 8388608 (20 * s0); quotient32 8388608 (20 * s1)])
             recs) /\
    (forall otherwise st d,
        s0 <> 0 -> s1 <> 0 ->
        strptime (field nm 28 34) = Ok d ->
        loop_body otherwise api_num dev st
        = Ok (after_decode st
                (record_for (v_dev_num st) dev d VOLTAGE
                   [20 * s0; 20 * s1]
                   [quotient32 8388608 (20 * s0);
                    quotient32 8388608 (20 * s1)]))) /\
    (forall d,
        s0 <> 0 -> s1 <> 0 ->
        strptime (field nm 28 34) = Ok d ->
        FindDigiDevices platform hapis [dev]
        = Ok ([record_for 0 dev d VOLTAGE
                   [20 * s0; 20 * s1]
                   [quotient32 8388608 (20 * s0);
                    quotient32 8388608 (20 * s1)]], []) /\
        (forall globals,
            TMSFindDevices globals platform hapis [dev]
            = Ok [record_for 0 dev d VOLTAGE
                   [20 * s0; 20 * s1]
                   [quotient32 8388608 (20 * s0);
                    quotient32 8388608 (20 * s1)]])).
Proof.
  intros platform hapis devices i dev s0 s1 api_num nm Hn Hc Hcode H0 H1.
  split; [|split].
  - intros recs Hret.
    destruct (returned_decoded platform hapis devices recs i dev
                ((s0 =? 0) || (s1 =? 0)) (strptime (field nm 28 34))
                (fun j d => record_for j dev d VOLTAGE [20 * s0; 20 * s1]
                   [quotient32 8388608 (20 * s0);
                    quotient32 8388608 (20 * s1)])
                Hret Hn Hc) as (d & _ & Hd & Hin).
    + intros otherwise st. apply turn_code_3; assumption.
    + exists d. split; assumption.
  - intros otherwise st d Hs0 Hs1 Hd.
    rewrite (turn_code_3 otherwise api_num dev Hc s0 s1 st Hcode H0 H1).
    fold nm. rewrite Hd.
    rewrite (proj2 (orb_eqb_false s0 s1) (conj Hs0 Hs1)). reflexivity.
  - intros d Hs0 Hs1 Hd. apply singleton_returned. intros otherwise.
    fold api_num.
    rewrite (turn_code_3 otherwise api_num dev Hc s0 s1 entry Hcode H0 H1).
    fold nm. rewrite Hd.
    rewrite (proj2 (orb_eqb_false s0 s1) (conj Hs0 Hs1)). reflexivity.
Qed.

Lemma code_3_record_witness :
  (exists d,
      strptime (field (name Sample.volt3) 28 34) = Ok d /\
      In (record_for 1 Sample.volt3 d VOLTAGE [20 * 12800; 20 * 12900]
            [quotient32 8388608 (20 * 12800);
             quotient32 8388608 (20 * 12900)])
         [record_for 1 Sample.volt3 (mkdate 2023 1 1) VOLTAGE [256000; 258000]
            [quotient32 8388608 256000; quotient32 8388608 258000]]) /\
  loop_body FindDigiDevices_else 0 Sample.volt3 entry
  = Ok (after_decode entry
          (record_for 0 Sample.volt3 (mkdate 2023 1 1) VOLTAGE
             [20 * 12800; 20 * 12900]
             [quotient32 8388608 (20 * 12800);
              quotient32 8388608 (20 * 12900)])).
Proof.
  pose proof (code_3_record "linux" [] [Sample.speakers; Sample.volt3]
                1%nat Sample.volt3 12800 12900
                eq_refl eq_refl eq_refl eq_refl eq_refl)
    as (Hret & Hturn & _).
  split.
  - apply Hret. left. exists []. vm_compute. reflexivity.
  - apply (Hturn FindDigiDevices_else entry (mkdate 2023 1 1)).
    + discriminate.
    + discriminate.
    + reflexivity.
Defined.

(** C4. A candidate with format code "2" whose two 7-character fields read
    as [s0] and [s1] is returned, by either function, with the sensitivity
    pair [[s0, s1]] as read, the scale pair [[8388608.0/s0, 8388608.0/s1]]
    as float32, no factor of 20 anywhere, and the format VOLTAGE; and
    whenever neither sensitivity is zero and the date field reads as a
    date, the turn of the loop for it appends that record, and both
    functions return it when the device is enumerated alone. *)
Theorem code_2_record :
  forall platform hapis devices i dev s0 s1,
    let api_num := select_api_num platform hapis in
    let nm := name dev in
    nth_error devices i = Some dev ->
    is_candidate api_num dev = true ->
    field nm 7 8 = "2" ->
    int (field nm 14 21) = Ok s0 ->
    int (field nm 21 28) = Ok s1 ->
    (forall recs,
        returned platform hapis devices recs ->
        exists d,
          strptime (field nm 28 34) = Ok d /\
          In (record_for (Z.of_nat i) dev d VOLTAGE [s0; s1]
                [quotient32 8388608 s0; quotient32 8388608 s1])
             recs) /\
    (forall otherwise st d,
        s0 <> 0 -> s1 <> 0 ->
        strptime (field nm 28 34) = Ok d ->
        loop_body otherwise api_num dev st
        = Ok (after_decode st
                (record_for (v_dev_num st) dev d VOLTAGE [s0; s1]
                   [quotient32 8388608 s0; quotient32 8388608 s1]))) /\
    (forall d,
        s0 <> 0 -> s1 <> 0 ->
        strptime (field nm 28 34) = Ok d ->
        FindDigiDevices platform hapis [dev]
        = Ok ([record_for 0 dev d VOLTAGE [s0; s1]
                   [quotient32 8388608 s0; quotient32 8388608 s1]], []) /\
        (forall globals,
            TMSFindDevices globals platform hapis [dev]
            = Ok [record_for 0 dev d VOLTAGE [s0; s1]
                   [quotient32 8388608 s0; quotient32 8388608 s1]])).
Proof.
  intros platform hapis devices i dev s0 s1 api_num nm Hn Hc Hcode H0 H1.
  split; [|split].
  - intros recs Hret.
    destruct (returned_decoded platform hapis devices recs i dev
                ((s0 =? 0) || (s1 =? 0)) (strptime (field nm 28 34))
                (fun j d => record_for j dev d VOLTAGE [s0; s1]
                   [quotient32 8388608 s0; quotient32 8388608 s1])
                Hret Hn Hc) as (d & _ & Hd & Hin).
    + intros otherwise st. apply turn_code_2; assumption.
    + exists d. split; assumption.
  - intros otherwise st d Hs0 Hs1 Hd.
    rewrite (turn_code_2 otherwise api_num dev Hc s0 s1 st Hcode H0 H1).
    fold nm. rewrite Hd.
    rewrite (proj2 (orb_eqb_false s0 s1) (conj Hs0 Hs1)). reflexivity.
  - intros d Hs0 Hs1 Hd. apply singleton_returned. intros otherwise.
    fold api_num.
    rewrite (turn_code_2 otherwise api_num dev Hc s0 s1 entry Hcode H0 H1).
    fold nm. rewrite Hd.
    rewrite (proj2 (orb_eqb_false s0 s1) (conj Hs0 Hs1)). reflexivity.
Qed.

Lemma code_2_record_witness :
  (exists d,
      strptime (field (name Sample.volt2) 28 34) = Ok d /\
      In (record_for 0 Sample.volt2 d VOLTAGE [256000; 256000]
            [quotient32 8388608 256000; quotient32 8388608 256000])
         [record_for 0 Sample.volt2 (mkdate 2022 6 15) VOLTAGE
            [256000; 256000]
            [quotient32 8388608 256000; quotient32 8388608 256000]]) /\
  loop_body (TMSFindDevices_else TMS_globals) 0 Sample.volt2 entry
  = Ok (after_decode entry
          (record_for 0 Sample.volt2 (mkdate 2022 6 15) VOLTAGE
             [256000; 256000]
             [quotient32 8388608 256000; quotient32 8388608 256000])).
Proof.
  pose proof (code_2_record "linux" [] [Sample.volt2]
                0%nat Sample.volt2 256000 256000
                eq_refl eq_refl eq_refl eq_refl eq_refl)
    as (Hret & Hturn & _).
  split.
  - apply Hret. right. exists TMS_globals. vm_compute. reflexivity.
  - apply (Hturn (TMSFindDevices_else TMS_globals) entry (mkdate 2022 6 15)).
    + discriminate.
    + discriminate.
    + reflexivity.
Defined.

(** ** Dates of six digits *)

Ltac digit_cases d :=
  let H := fresh "Hcases" in
  assert (H : d = 0 \/ d = 1 \/ d = 2 \/ d = 3 \/ d = 4 \/ d = 5 \/ d = 6
              \/ d = 7 \/ d = 8 \/ d = 9) by lia;
  destruct H as [->|[->|[->|[->|[->|[->|[->|[->|[->| ->]]]]]]]]].

Lemma digit_of_digit_char :
  forall d, 0 <= d <= 9 -> digit_of (digit_char d) = Some d.
Proof. intros d Hd. digit_cases d; reflexivity. Qed.

Lemma month_alts_two_digits :
  forall m1 m2 r,
    0 <= m1 <= 9 -> 0 <= m2 <= 9 -> 1 <= 10 * m1 + m2 <= 12 ->
    exists rest,
      month_alts (String (digit_char m1) (String (digit_char m2) r))
      = (10 * m1 + m2, r) :: rest.
Proof.
  intros m1 m2 r H1 H2 Hm.
  assert (Hc : m1 = 0 \/ m1 = 1) by lia.
  destruct Hc as [-> | ->]; digit_cases m2; try lia;
    eexists; reflexivity.
Qed.

Lemma day_alts_two_digits :
  forall d1 d2 r,
    0 <= d1 <= 9 -> 0 <= d2 <= 9 -> 1 <= 10 * d1 + d2 <= 31 ->
    exists rest,
      day_alts (String (digit_char d1) (String (digit_char d2) r))
      = (10 * d1 + d2, r) :: rest.
Proof.
  intros d1 d2 r H1 H2 Hd.
  assert (Hc : d1 = 0 \/ d1 = 1 \/ d1 = 2 \/ d1 = 3) by lia.
  destruct Hc as [-> | [-> | [-> | ->]]]; digit_cases d2; try lia;
    eexists; reflexivity.
Qed.

Lemma days_in_month_le_31 : forall y m, days_in_month y m <= 31.
Proof.
  intros y m. unfold days_in_month.
  destruct (m =? 2); [destruct (is_leap y); lia|].
  destruct (_ || _); lia.
Qed.

(** Six digits YYMMDD that name a day of the calendar read as that day, the
    year in 1969..2068. *)
Lemma strptime_yymmdd :
  forall y1 y2 m1 m2 d1 d2,
    0 <= y1 <= 9 -> 0 <= y2 <= 9 -> 0 <= m1 <= 9 -> 0 <= m2 <= 9 ->
    0 <= d1 <= 9 -> 0 <= d2 <= 9 ->
    1 <= 10 * m1 + m2 <= 12 ->
    1 <= 10 * d1 + d2
      <= days_in_month (full_year (10 * y1 + y2)) (10 * m1 + m2) ->
    strptime (yymmdd y1 y2 m1 m2 d1 d2)
    = Ok (mkdate (full_year (10 * y1 + y2)) (10 * m1 + m2) (10 * d1 + d2)).
Proof.
  intros y1 y2 m1 m2 d1 d2 Hy1 Hy2 Hm1 Hm2 Hd1 Hd2 Hm Hd.
  pose proof (days_in_month_le_31 (full_year (10 * y1 + y2)) (10 * m1 + m2))
    as H31.
  destruct (month_alts_two_digits m1 m2
              (String (digit_char d1) (String (digit_char d2) EmptyString))
              Hm1 Hm2 Hm) as (mrest & Em).
  destruct (day_alts_two_digits d1 d2 EmptyString Hd1 Hd2 ltac:(lia))
    as (drest & Ed).
  unfold strptime, yymmdd, match_ymd.
  rewrite (digit_of_digit_char y1 Hy1), (digit_of_digit_char y2 Hy2).
  rewrite Em. cbn [first_month_day]. rewrite Ed.
  destruct (Z.leb_spec (10 * d1 + d2)
              (days_in_month (full_year (10 * y1 + y2)) (10 * m1 + m2)));
    [reflexivity | lia].
Qed.

(** C3. A candidate with format code "1" whose two 5-character fields at
    +14:+19 and +19:+24 read as [s0] and [s1] is returned, by either
    function, with the scale pair [[855400.0/s0, 855400.0/s1]] as float32,
    the format ACCELERATION and the date read from the characters at
    +24:+30, which follow the second sensitivity field; six digits there
    are read as YYMMDD; and whenever neither sensitivity is zero and the
    date field reads as a date, the turn of the loop for it appends that
    record, and both functions return it when the device is enumerated
    alone. *)
Theorem code_1_record :
  forall platform hapis devices i dev s0 s1,
    let api_num := select_api_num platform hapis in
    let nm := name dev in
    nth_error devices i = Some dev ->
    is_candidate api_num dev = true ->
    field nm 7 8 = "1" ->
    int (field nm 14 19) = Ok s0 ->
    int (field nm 19 24) = Ok s1 ->
    (forall recs,
        returned platform hapis devices recs ->
        exists d,
          strptime (field nm 24 30) = Ok d /\
          In (record_for (Z.of_nat i) dev d ACCELERATION [s0; s1]
                [quotient32 855400 s0; quotient32 855400 s1])
             recs) /\
    (forall y1 y2 m1 m2 d1 d2,
        field nm 24 30 = yymmdd y1 y2 m1 m2 d1 d2 ->
        0 <= y1 <= 9 -> 0 <= y2 <= 9 -> 0 <= m1 <= 9 -> 0 <= m2 <= 9 ->
        0 <= d1 <= 9 -> 0 <= d2 <= 9 ->
        1 <= 10 * m1 + m2 <= 12 ->
        1 <= 10 * d1 + d2
          <= days_in_month (full_year (10 * y1 + y2)) (10 * m1 + m2) ->
        strptime (field nm 24 30)
        = Ok (mkdate (full_year (10 * y1 + y2)) (10 * m1 + m2)
                (10 * d1 + d2))) /\
    (forall otherwise st d,
        s0 <> 0 -> s1 <> 0 ->
        strptime (field nm 24 30) = Ok d ->
        loop_body otherwise api_num dev st
        = Ok (after_decode st
                (record_for (v_dev_num st) dev d ACCELERATION [s0; s1]
                   [quotient32 855400 s0; quotient32 855400 s1]))) /\
    (forall d,
        s0 <> 0 -> s1 <> 0 ->
        strptime (field nm 24 30) = Ok d ->
        FindDigiDevices platform hapis [dev]
        = Ok ([record_for 0 dev d ACCELERATION [s0; s1]
                   [quotient32 855400 s0; quotient32 855400 s1]], []) /\
        (forall globals,
            TMSFindDevices globals platform hapis [dev]
            = Ok [record_for 0 dev d ACCELERATION [s0; s1]
                   [quotient32 855400 s0; quotient32 855400 s1]])).
Proof.
  intros platform hapis devices i dev s0 s1 api_num nm Hn Hc Hcode H0 H1.
  split; [|split; [|split]].
  - intros recs Hret.
    destruct (returned_decoded platform hapis devices recs i dev
                ((s0 =? 0) || (s1 =? 0)) (strptime (field nm 24 30))
                (fun j d => record_for j dev d ACCELERATION [s0; s1]
                   [quotient32 855400 s0; quotient32 855400 s1])
                Hret Hn Hc) as (d & _ & Hd & Hin).
    + intros otherwise st. apply turn_code_1; assumption.
    + exists d. split; assumption.
  - intros y1 y2 m1 m2 d1 d2 ->. apply strptime_yymmdd.
  - intros otherwise st d Hs0 Hs1 Hd.
    rewrite (turn_code_1 otherwise api_num dev Hc s0 s1 st Hcode H0 H1).
    fold nm. rewrite Hd.
    rewrite (proj2 (orb_eqb_false s0 s1) (conj Hs0 Hs1)). reflexivity.
  - intros d Hs0 Hs1 Hd. apply singleton_returned. intros otherwise.
    fold api_num.
    rewrite (turn_code_1 otherwise api_num dev Hc s0 s1 entry Hcode H0 H1).
    fold nm. rewrite Hd.
    rewrite (proj2 (orb_eqb_false s0 s1) (conj Hs0 Hs1)). reflexivity.
Qed.

Lemma code_1_record_witness :
  (exists d,
      strptime (field (name Sample.accel1) 24 30) = Ok d /\
      In (record_for 1 Sample.accel1 d ACCELERATION [12345; 12346]
            [quotient32 855400 12345; quotient32 855400 12346])
         [record_for 0 Sample.volt2 (mkdate 2022 6 15) VOLTAGE
            [256000; 256000]
            [quotient32 8388608 256000; quotient32 8388608 256000];
          record_for 1 Sample.accel1 (mkdate 2022 6 15) ACCELERATION
            [12345; 12346]
            [quotient32 855400 12345; quotient32 855400 12346]]) /\
  strptime (field (name Sample.accel1) 24 30) = Ok (mkdate 2022 6 15) /\
  loop_body FindDigiDevices_else 0 Sample.accel1 entry
  = Ok (after_decode entry
          (record_for 0 Sample.accel1 (mkdate 2022 6 15) ACCELERATION
             [12345; 12346]
             [quotient32 855400 12345; quotient32 855400 12346])).
Proof.
  pose proof (code_1_record "linux" [] [Sample.volt2; Sample.accel1]
                1%nat Sample.accel1 12345 12346
                eq_refl eq_refl eq_refl eq_refl eq_refl)
    as (Hret & Hdate & Hturn & _).
  split; [|split].
  - apply Hret. left. exists []. vm_compute. reflexivity.
  - apply (Hdate 2 2 0 6 1 5); try lia; try reflexivity.
    vm_compute. split; discriminate.
  - apply (Hturn FindDigiDevices_else entry (mkdate 2022 6 15)).
    + discriminate.
    + discriminate.
    + reflexivity.
Defined.

(** ** The scenario of the spec *)

(** C7, as the code has it.  With the fields of the name packed one after
    the other behind the format code, as the offsets of the code expect
    them, both functions decode the model "485B39" at offset 18, the format
    VOLTAGE from code "2", the serial number "123456", the sensitivity pair
    [[256000, 256000]], the scale pair of the float32 next to
    8388608.0/256000 and the date 2022-06-15. *)
Theorem packed_name_decoded :
  find (name Sample.volt2) "485B" = 18 /\
  FindDigiDevices "linux" [] [Sample.volt2]
  = Ok ([ {| device := 0; model := "485B39"; serial_number := "123456";
             date := mkdate 2022 6 15; format := VOLTAGE;
             sensitivity_int := [256000; 256000];
             scale := [quotient32 8388608 256000;
                       quotient32 8388608 256000] |} ], []) /\
  TMSFindDevices TMS_globals "linux" [] [Sample.volt2]
  = Ok [ {| device := 0; model := "485B39"; serial_number := "123456";
            date := mkdate 2022 6 15; format := VOLTAGE;
            sensitivity_int := [256000; 256000];
            scale := [quotient32 8388608 256000;
                      quotient32 8388608 256000] |} ] /\
  quotient32 8388608 256000 = S754_finite false 8589935 (-18).
Proof. repeat split; vm_compute; reflexivity. Qed.

(** C7, as the spec words it: with a space before each field the serial
    number read is [" 12345"] and the first sensitivity field is
    ["6 02560"], which [int] refuses, so neither function decodes the
    name. *)
Lemma spaced_name_not_decoded :
  find (name Sample.spaced) "485B" = 18 /\
  field (name Sample.spaced) 8 14 = " 12345" /\
  field (name Sample.spaced) 14 21 = "6 02560" /\
  FindDigiDevices "linux" [] [Sample.spaced]
  = Raise (ValueError (InvalidLiteralForInt "6 02560")) /\
  TMSFindDevices TMS_globals "linux" [] [Sample.spaced]
  = Raise (ValueError (InvalidLiteralForInt "6 02560")).
Proof. repeat split; vm_compute; reflexivity. Qed.

(** ** A format code that is none of "1", "2", "3" *)

(** C1, at a failing input.  After a decoded device, [FindDigiDevices]
    appends a record for the device with code "9" all the same: its index,
    model and serial number with the date, format, sensitivities and scale
    left over from the device before, where [TMSFindDevices] returns no
    record at all. *)
Theorem FindDigiDevices_appends_for_code_9 :
  FindDigiDevices "linux" [] [Sample.volt2; Sample.code9]
  = Ok ([ {| device := 0; model := "485B39"; serial_number := "123456";
             date := mkdate 2022 6 15; format := VOLTAGE;
             sensitivity_int := [256000; 256000];
             scale := [quotient32 8388608 256000;
                       quotient32 8388608 256000] |};
          {| device := 1; model := "333D01"; serial_number := "001234";
             date := mkdate 2022 6 15; format := VOLTAGE;
             sensitivity_int := [256000; 256000];
             scale := [quotient32 8388608 256000;
                       quotient32 8388608 256000] |} ],
        ["Expecting 1, 2, or 3 format"]) /\
  TMSFindDevices TMS_globals "linux" [] [Sample.volt2; Sample.code9]
  = Raise (NameError "FormatError").
Proof. split; vm_compute; reflexivity. Qed.

Lemma other_code_true :
  forall nm,
    other_code nm = true ->
    (field nm 7 8 =? "2")%string || (field nm 7 8 =? "3")%string = false /\
    (field nm 7 8 =? "1")%string = false.
Proof.
  intros nm H. unfold other_code in H. apply negb_true_iff in H.
  destruct (field nm 7 8 =? "1")%string; [discriminate|].
  destruct (field nm 7 8 =? "2")%string; [discriminate|].
  destruct (field nm 7 8 =? "3")%string; [discriminate|].
  split; reflexivity.
Qed.

Lemma loop_body_other_code :
  forall otherwise api_num dev st,
    is_candidate api_num dev = true ->
    other_code (name dev) = true ->
    loop_body otherwise api_num dev st
    = (st1 <- otherwise st ;;
       st2 <- append_record (field (name dev) 0 6) (field (name dev) 8 14)
                st1 ;;
       Ok (set_dev_num st2 (v_dev_num st2 + 1))).
Proof.
  intros otherwise api_num dev st Hc Ho.
  rewrite loop_body_candidate by exact Hc.
  destruct (other_code_true _ Ho) as [-> ->]. reflexivity.
Qed.

Lemma bind_raise_class :
  forall (A B : Type) globals cls msg (k : A -> result B),
    bind (raise_class globals cls msg) k = raise_class globals cls msg.
Proof.
  intros A B globals cls msg k. unfold raise_class.
  destruct (bound globals cls); reflexivity.
Qed.

(** In [TMSFindDevices] the turn for such a candidate ends at the [raise]
    statement. *)
Lemma TMSFindDevices_turn_other_code :
  forall globals api_num dev st,
    is_candidate api_num dev = true ->
    other_code (name dev) = true ->
    loop_body (TMSFindDevices_else globals) api_num dev st
    = raise_class globals "FormatError" "Expecting 1, 2, or 3 format".
Proof.
  intros globals api_num dev st Hc Ho.
  rewrite loop_body_other_code by assumption.
  unfold TMSFindDevices_else. apply bind_raise_class.
Qed.

(** In [FindDigiDevices] the turn for such a candidate prints the
    diagnostic and goes on to the [append]: with the four variables bound
    by an earlier turn it appends a record made of their values, and with
    [date] unbound the read of [date] fails. *)
Lemma FindDigiDevices_turn_other_code :
  forall api_num dev st d form sens sc,
    is_candidate api_num dev = true ->
    other_code (name dev) = true ->
    v_date st = Some d -> v_form st = Some form ->
    v_sens st = Some sens -> v_scale st = Some sc ->
    loop_body FindDigiDevices_else api_num dev st
    = Ok (set_dev_num
            (set_dev_info (print st "Expecting 1, 2, or 3 format")
               (v_dev_info st
                ++ [record_for (v_dev_num st) dev d form sens sc]))
            (v_dev_num st + 1)).
Proof.
  intros api_num dev st d form sens sc Hc Ho Hd Hf Hs Hsc.
  rewrite loop_body_other_code by assumption.
  unfold FindDigiDevices_else, append_record.
  cbn [bind print v_date v_form v_sens v_scale].
  rewrite Hd, Hf, Hs, Hsc. reflexivity.
Qed.

Lemma FindDigiDevices_turn_other_code_unbound :
  forall api_num dev st,
    is_candidate api_num dev = true ->
    other_code (name dev) = true ->
    v_date st = None ->
    loop_body FindDigiDevices_else api_num dev st
    = Raise (UnboundLocalError "date").
Proof.
  intros api_num dev st Hc Ho Hd.
  rewrite loop_body_other_code by assumption.
  unfold FindDigiDevices_else, append_record. cbn [bind print v_date].
  rewrite Hd. reflexivity.
Qed.

(** [TMSFindDevices] returns no sequence once a candidate of the
    enumeration has such a code. *)
Lemma TMSFindDevices_other_code_not_returned :
  forall globals platform hapis devices dev recs,
    In dev devices ->
    is_candidate (select_api_num platform hapis) dev = true ->
    other_code (name dev) = true ->
    TMSFindDevices globals platform hapis devices <> Ok recs.
Proof.
  intros globals platform hapis devices dev recs Hin Hc Ho H.
  apply in_split in Hin. destruct Hin as (pre & post & ->).
  unfold TMSFindDevices in H. bind_inv H. clear H.
  unfold TMSFindDevices_loop in Ha. rewrite for_each_app in Ha.
  bind_inv Ha. cbn [for_each] in Ha. bind_inv Ha.
  rewrite TMSFindDevices_turn_other_code in Ha1 by assumption.
  unfold raise_class in Ha1.
  destruct (bound globals "FormatError"); discriminate.
Qed.

Lemma set_dev_num_same :
  forall st, set_dev_num st (v_dev_num st + 0) = st.
Proof. intros []. unfold set_dev_num. cbn. rewrite Z.add_0_r. reflexivity. Qed.

(** Devices that are no candidates are counted and nothing else. *)
Lemma for_each_no_candidate :
  forall otherwise api_num devices st,
    no_candidate api_num devices = true ->
    for_each (loop_body otherwise api_num) devices st
    = Ok (set_dev_num st (v_dev_num st + Z.of_nat (List.length devices))).
Proof.
  intros otherwise api_num devices.
  induction devices as [|dev rest IH]; intros st H.
  - cbn [for_each List.length Z.of_nat]. rewrite set_dev_num_same.
    reflexivity.
  - cbn [no_candidate forallb] in H. apply andb_true_iff in H.
    destruct H as [Hd Hrest]. apply negb_true_iff in Hd.
    cbn [for_each]. rewrite loop_body_skip by exact Hd. cbn [bind].
    rewrite IH by exact Hrest. unfold set_dev_num. cbn. f_equal. f_equal.
    lia.
Qed.

Lemma no_candidate_app :
  forall api_num l1 l2,
    no_candidate api_num (l1 ++ l2) = true ->
    no_candidate api_num l1 = true /\ no_candidate api_num l2 = true.
Proof.
  intros api_num l1 l2 H. unfold no_candidate in *.
  rewrite forallb_app in H. apply andb_true_iff in H. exact H.
Qed.

Lemma no_candidate_candidates :
  forall api_num devices i,
    no_candidate api_num devices = true <-> candidates api_num devices i = [].
Proof.
  intros api_num devices.
  induction devices as [|dev rest IH]; intros i.
  - split; reflexivity.
  - cbn [no_candidate forallb candidates]. fold (no_candidate api_num rest).
    rewrite andb_true_iff, (IH (i + 1)), negb_true_iff.
    destruct (is_candidate api_num dev); cbn [app]; split.
    + intros [H _]. discriminate.
    + discriminate.
    + intros [_ H]. exact H.
    + intros H. split; [reflexivity | exact H].
Qed.

(** ** No candidate at all *)

(** C5, as the code has it.  When no raw device passes both the host-API
    filter and the model match, no record is produced: [FindDigiDevices]
    raises nothing, prints "No compatible devices found" and returns the
    empty sequence; [TMSFindDevices] returns no sequence, its call ends at
    the [raise] statement of the empty-result branch. *)
Theorem no_candidate_no_record :
  forall platform hapis devices,
    candidates (select_api_num platform hapis) devices 0 = [] ->
    FindDigiDevices platform hapis devices
    = Ok ([], ["No compatible devices found"]) /\
    (forall globals,
        TMSFindDevices globals platform hapis devices
        = raise_class globals "NoDevicesFound" "No compatible devices found")
    /\
    (forall globals recs,
        TMSFindDevices globals platform hapis devices <> Ok recs).
Proof.
  intros platform hapis devices H.
  apply no_candidate_candidates in H.
  assert (HT : forall globals,
             TMSFindDevices globals platform hapis devices
             = raise_class globals "NoDevicesFound"
                 "No compatible devices found").
  { intros globals. unfold TMSFindDevices, TMSFindDevices_loop.
    rewrite for_each_no_candidate by exact H. reflexivity. }
  split; [|split].
  - unfold FindDigiDevices, FindDigiDevices_loop.
    rewrite for_each_no_candidate by exact H. reflexivity.
  - exact HT.
  - intros globals recs. rewrite HT. unfold raise_class.
    destruct (bound globals "NoDevicesFound"); discriminate.
Qed.

Lemma no_candidate_no_record_witness :
  FindDigiDevices "win32" Sample.windows_hostapis
    [Sample.speakers; Sample.volt2]
  = Ok ([], ["No compatible devices found"]) /\
  TMSFindDevices TMS_globals "win32" Sample.windows_hostapis
    [Sample.speakers; Sample.volt2]
  = raise_class TMS_globals "NoDevicesFound" "No compatible devices found".
Proof.
  pose proof (no_candidate_no_record "win32" Sample.windows_hostapis
                [Sample.speakers; Sample.volt2] eq_refl) as (HF & HT & _).
  split; [exact HF | exact (HT TMS_globals)].
Defined.

(** C5, as the spec words it: on an enumeration without a candidate
    [FindDigiDevices] raises no error, it returns the empty sequence. *)
Lemma FindDigiDevices_empty_not_raised :
  FindDigiDevices "linux" [] [Sample.speakers]
  = Ok ([], ["No compatible devices found"]) /\
  (forall e, FindDigiDevices "linux" [] [Sample.speakers] <> Raise e).
Proof.
  split; [vm_compute; reflexivity|].
  intros e. vm_compute. discriminate.
Qed.

(** ** A candidate that decodes *)

Lemma voltage_branch_shape :
  forall nm loc fmt st st1,
    voltage_branch nm loc fmt st = Ok st1 ->
    exists d form sens sc,
      forall st2,
        voltage_branch nm loc fmt st2
        = Ok (set_date (set_scale (set_sens (set_form st2 form) sens) sc) d).
Proof.
  intros nm loc fmt st st1 H. unfold voltage_branch in H.
  do 5 bind_inv H. clear H.
  eexists _, _, _, _. intros st2. unfold voltage_branch.
  rewrite Ha, Ha0. cbn [bind]. cbv zeta in Ha1, Ha2 |- *.
  rewrite Ha1. cbn [bind]. rewrite Ha2. cbn [bind]. rewrite Ha3.
  reflexivity.
Qed.

Lemma acceleration_branch_shape :
  forall nm loc st st1,
    acceleration_branch nm loc st = Ok st1 ->
    exists d form sens sc,
      forall st2,
        acceleration_branch nm loc st2
        = Ok (set_date (set_scale (set_sens (set_form st2 form) sens) sc) d).
Proof.
  intros nm loc st st1 H. unfold acceleration_branch in H.
  do 5 bind_inv H. clear H.
  eexists _, _, _, _. intros st2. unfold acceleration_branch.
  rewrite Ha, Ha0. cbn [bind]. cbv zeta in Ha1, Ha2 |- *.
  rewrite Ha1. cbn [bind]. rewrite Ha2. cbn [bind]. rewrite Ha3.
  reflexivity.
Qed.

(** What a candidate with code "1", "2" or "3" decodes to does not depend
    on the turn: the record differs by the device index only, whatever the
    locals and whichever of the two functions runs the loop. *)
Lemma turn_any_state :
  forall o1 api_num dev st1 st1',
    is_candidate api_num dev = true ->
    other_code (name dev) = false ->
    loop_body o1 api_num dev st1 = Ok st1' ->
    exists d form sens sc,
      forall o2 st2,
        loop_body o2 api_num dev st2
        = Ok (after_decode st2
                (record_for (v_dev_num st2) dev d form sens sc)).
Proof.
  intros o1 api_num dev st1 st1' Hc Ho H.
  rewrite loop_body_candidate in H by exact Hc.
  unfold other_code in Ho. apply negb_false_iff in Ho.
  bind_inv H. clear H.
  destruct ((field (name dev) 7 8 =? "2")%string
            || (field (name dev) 7 8 =? "3")%string) eqn:E23.
  - destruct (voltage_branch_shape _ _ _ _ _ Ha) as (d & form & sens & sc & Hb).
    exists d, form, sens, sc. intros o2 st2.
    rewrite loop_body_candidate by exact Hc. rewrite E23, Hb. cbn [bind].
    apply append_after_branch. reflexivity.
  - destruct (field (name dev) 7 8 =? "1")%string eqn:E1.
    + destruct (acceleration_branch_shape _ _ _ _ Ha)
        as (d & form & sens & sc & Hb).
      exists d, form, sens, sc. intros o2 st2.
      rewrite loop_body_candidate by exact Hc. rewrite E23, E1, Hb.
      cbn [bind]. apply append_after_branch. reflexivity.
    + exfalso. apply orb_false_iff in E23. destruct E23 as [E2 E3].
      rewrite E2, E3 in Ho. discriminate.
Qed.

Lemma decoded_at_index :
  forall o1 api_num dev r0,
    is_candidate api_num dev = true ->
    other_code (name dev) = false ->
    loop_body o1 api_num dev entry = Ok (after_decode entry r0) ->
    forall o2 st2,
      loop_body o2 api_num dev st2
      = Ok (after_decode st2 (at_index r0 (v_dev_num st2))).
Proof.
  intros o1 api_num dev r0 Hc Ho H o2 st2.
  destruct (turn_any_state _ _ _ _ _ Hc Ho H) as (d & form & sens & sc & Hall).
  rewrite Hall in H.
  assert (E : v_dev_info (after_decode entry
                            (record_for (v_dev_num entry) dev d form sens sc))
              = v_dev_info (after_decode entry r0)) by congruence.
  cbn [after_decode v_dev_info entry app] in E. injection E as <-.
  apply Hall.
Qed.

(** ** What [FindDigiDevices] prints *)

Lemma append_record_stdout :
  forall mdl serialnum st st1,
    append_record mdl serialnum st = Ok st1 -> stdout st1 = stdout st.
Proof.
  intros mdl serialnum st st1 H. unfold append_record in H.
  do 4 bind_inv H. injection H as <-. reflexivity.
Qed.

Lemma FindDigiDevices_turn_stdout :
  forall api_num dev st st',
    loop_body FindDigiDevices_else api_num dev st = Ok st' ->
    stdout st' = stdout st ++ diagnostics api_num [dev].
Proof.
  intros api_num dev st st' H. unfold diagnostics. cbn [flat_map].
  rewrite app_nil_r.
  destruct (is_candidate api_num dev) eqn:Hc; cbn [andb].
  - destruct (other_code (name dev)) eqn:Ho.
    + rewrite loop_body_other_code in H by assumption.
      unfold FindDigiDevices_else in H. cbn [bind] in H.
      bind_inv H. injection H as <-.
      apply append_record_stdout in Ha. cbn [stdout set_dev_num].
      rewrite Ha. reflexivity.
    + destruct (turn_any_state _ _ _ _ _ Hc Ho H)
        as (d & form & sens & sc & Hall).
      rewrite Hall in H. injection H as <-. cbn [after_decode stdout].
      rewrite app_nil_r. reflexivity.
  - rewrite loop_body_skip in H by exact Hc. injection H as <-.
    cbn [stdout set_dev_num]. rewrite app_nil_r. reflexivity.
Qed.

Lemma FindDigiDevices_loop_stdout :
  forall api_num devices st st',
    FindDigiDevices_loop api_num devices st = Ok st' ->
    stdout st' = stdout st ++ diagnostics api_num devices.
Proof.
  intros api_num devices.
  induction devices as [|dev rest IH]; intros st st' H.
  - cbn in H. injection H as <-. cbn. rewrite app_nil_r. reflexivity.
  - unfold FindDigiDevices_loop in H. cbn [for_each] in H. bind_inv H.
    apply FindDigiDevices_turn_stdout in Ha. apply IH in H.
    rewrite H, Ha. unfold diagnostics. cbn [flat_map].
    rewrite !app_nil_r, app_assoc. reflexivity.
Qed.

(** All [FindDigiDevices] has printed when it returns: the diagnostics of
    its loop, then the empty-result message if it returns no record. *)
Lemma FindDigiDevices_printed :
  forall platform hapis devices recs out,
    FindDigiDevices platform hapis devices = Ok (recs, out) ->
    out = diagnostics (select_api_num platform hapis) devices ++
          match recs with
          | [] => ["No compatible devices found"]
          | _ :: _ => []
          end.
Proof.
  intros platform hapis devices recs out H. unfold FindDigiDevices in H.
  bind_inv H. apply FindDigiDevices_loop_stdout in Ha.
  cbn [entry stdout app] in Ha.
  destruct (v_dev_info a) eqn:E; cbn in H; injection H as <- <-.
  - cbn [v_dev_info print]. rewrite E, Ha. reflexivity.
  - rewrite E, Ha, app_nil_r. reflexivity.
Qed.

(** ** The exceptions of [TMSFindDevices] *)

Lemma bind_raise :
  forall (A B : Type) (c : result A) (k : A -> result B) (e : exn),
    bind c k = Raise e ->
    c = Raise e \/ exists a, c = Ok a /\ k a = Raise e.
Proof.
  intros A B [a|e'] k e H; cbn in H.
  - right. exists a. split; [reflexivity | exact H].
  - left. injection H as <-. reflexivity.
Qed.

Lemma int_raise :
  forall s e, int s = Raise e -> not_a_raised_class e.
Proof.
  intros s e H. unfold int in H.
  destruct (int_signed (lstrip s)); [discriminate|].
  injection H as <-. exact I.
Qed.

Lemma truediv_int_raise :
  forall a n e, truediv_int a n = Raise e -> not_a_raised_class e.
Proof.
  intros a n e H. unfold truediv_int in H.
  destruct (of_int n); try discriminate; injection H as <-; exact I.
Qed.

Lemma strptime_raise :
  forall s e, strptime s = Raise e -> not_a_raised_class e.
Proof.
  intros s e H. unfold strptime in H.
  destruct (match_ymd s) as [[[[yy m] d] rest]|]; [|injection H as <-; exact I].
  destruct rest; [|injection H as <-; exact I].
  destruct (_ <=? _); [discriminate | injection H as <-; exact I].
Qed.

Lemma load_raise :
  forall (A : Type) var (v : option A) e,
    load var v = Raise e -> not_a_raised_class e.
Proof.
  intros A var [a|] e H; cbn in H; [discriminate|].
  injection H as <-. exact I.
Qed.

Ltac raise_cases H :=
  repeat (apply bind_raise in H;
          destruct H as [H | (? & _ & H)];
          [ first [ apply int_raise in H; exact H
                  | apply truediv_int_raise in H; exact H
                  | apply strptime_raise in H; exact H
                  | apply load_raise in H; exact H ] | ]).

Lemma voltage_branch_raise :
  forall nm loc fmt st e,
    voltage_branch nm loc fmt st = Raise e -> not_a_raised_class e.
Proof.
  intros nm loc fmt st e H. unfold voltage_branch in H.
  raise_cases H. discriminate.
Qed.

Lemma acceleration_branch_raise :
  forall nm loc st e,
    acceleration_branch nm loc st = Raise e -> not_a_raised_class e.
Proof.
  intros nm loc st e H. unfold acceleration_branch in H.
  raise_cases H. discriminate.
Qed.

Lemma append_record_raise :
  forall mdl serialnum st e,
    append_record mdl serialnum st = Raise e -> not_a_raised_class e.
Proof.
  intros mdl serialnum st e H. unfold append_record in H.
  raise_cases H. discriminate.
Qed.

Section Raises.

Variable otherwise : locals -> result locals.
Variable api_num : Z.
Hypothesis otherwise_raise :
  forall st e, otherwise st = Raise e -> not_a_raised_class e.

Lemma loop_body_raise :
  forall dev st e,
    loop_body otherwise api_num dev st = Raise e -> not_a_raised_class e.
Proof.
  intros dev st e H.
  destruct (is_candidate api_num dev) eqn:Hc.
  - rewrite loop_body_candidate in H by exact Hc.
    apply bind_raise in H. destruct H as [H | (st1 & _ & H)].
    + destruct (_ || _).
      * eapply voltage_branch_raise; exact H.
      * destruct (_ =? "1")%string.
        -- eapply acceleration_branch_raise; exact H.
        -- eapply otherwise_raise; exact H.
    + apply bind_raise in H. destruct H as [H | (st2 & _ & H)].
      * eapply append_record_raise; exact H.
      * discriminate.
  - rewrite loop_body_skip in H by exact Hc. discriminate.
Qed.

Lemma for_each_raise :
  forall devices st e,
    for_each (loop_body otherwise api_num) devices st = Raise e ->
    not_a_raised_class e.
Proof.
  induction devices as [|dev rest IH]; intros st e H.
  - discriminate.
  - cbn [for_each] in H. apply bind_raise in H.
    destruct H as [H | (st1 & _ & H)].
    + eapply loop_body_raise; exact H.
    + eapply IH; exact H.
Qed.

End Raises.

Lemma raise_class_unbound :
  forall (A : Type) globals cls msg,
    bound globals cls = false ->
    @raise_class A globals cls msg = Raise (NameError cls).
Proof.
  intros A globals cls msg H. unfold raise_class. rewrite H. reflexivity.
Qed.

(** C10. Neither [FormatError] nor [NoDevicesFound] is bound anywhere
    [TMSFindDevices] looks a name up, so a call that reaches the [raise]
    of the format branch ends in [NameError] for [FormatError], a call
    that reaches the [raise] of the empty-result branch ends in
    [NameError] for [NoDevicesFound], and no call at all ends in an
    instance of a class named in a [raise] statement. *)
Theorem TMSFindDevices_raise_is_NameError :
  bound TMS_globals "FormatError" = false /\
  bound TMS_globals "NoDevicesFound" = false /\
  (forall platform hapis pre dev post st,
      let api_num := select_api_num platform hapis in
      TMSFindDevices_loop TMS_globals api_num pre entry = Ok st ->
      is_candidate api_num dev = true ->
      other_code (name dev) = true ->
      TMSFindDevices TMS_globals platform hapis (pre ++ dev :: post)
      = Raise (NameError "FormatError")) /\
  (forall platform hapis devices st,
      TMSFindDevices_loop TMS_globals (select_api_num platform hapis)
        devices entry = Ok st ->
      v_dev_info st = [] ->
      TMSFindDevices TMS_globals platform hapis devices
      = Raise (NameError "NoDevicesFound")) /\
  (forall platform hapis devices e,
      TMSFindDevices TMS_globals platform hapis devices = Raise e ->
      not_a_raised_class e).
Proof.
  assert (HF : bound TMS_globals "FormatError" = false) by reflexivity.
  assert (HN : bound TMS_globals "NoDevicesFound" = false) by reflexivity.
  split; [exact HF|]. split; [exact HN|]. split; [|split].
  - intros platform hapis pre dev post st api_num Hpre Hc Ho.
    unfold TMSFindDevices, TMSFindDevices_loop. fold api_num.
    unfold TMSFindDevices_loop in Hpre.
    rewrite for_each_app, Hpre. cbn [bind for_each].
    rewrite TMSFindDevices_turn_other_code by assumption.
    rewrite raise_class_unbound by exact HF. reflexivity.
  - intros platform hapis devices st Hloop Hempty.
    unfold TMSFindDevices. rewrite Hloop. cbn [bind]. rewrite Hempty.
    apply raise_class_unbound. exact HN.
  - intros platform hapis devices e H. unfold TMSFindDevices in H.
    apply bind_raise in H. destruct H as [H | (st & _ & H)].
    + unfold TMSFindDevices_loop in H.
      eapply for_each_raise; [|exact H].
      intros st e' H'. unfold TMSFindDevices_else in H'.
      rewrite raise_class_unbound in H' by exact HF.
      injection H' as <-. exact I.
    + destruct (v_dev_info st); [|discriminate].
      rewrite raise_class_unbound in H by exact HN.
      injection H as <-. exact I.
Qed.

Lemma TMSFindDevices_raise_is_NameError_witness :
  TMSFindDevices TMS_globals "linux" []
    ([Sample.volt2] ++ Sample.code9 :: [Sample.accel1])
  = Raise (NameError "FormatError") /\
  TMSFindDevices TMS_globals "linux" [] [Sample.speakers]
  = Raise (NameError "NoDevicesFound") /\
  not_a_raised_class (ValueError (InvalidLiteralForInt "6 02560")).
Proof.
  destruct TMSFindDevices_raise_is_NameError as (_ & _ & HF & HN & HR).
  split; [|split].
  - apply (HF "linux" [] [Sample.volt2] Sample.code9 [Sample.accel1]
             (after_decode entry
                (record_for 0 Sample.volt2 (mkdate 2022 6 15) VOLTAGE
                   [256000; 256000]
                   [quotient32 8388608 256000; quotient32 8388608 256000]))).
    + vm_compute. reflexivity.
    + reflexivity.
    + reflexivity.
  - apply (HN "linux" [] [Sample.speakers] (set_dev_num entry 1)).
    + reflexivity.
    + reflexivity.
  - apply (HR "linux" [] [Sample.spaced]). vm_compute. reflexivity.
Defined.

(** ** One candidate with another code, one valid candidate *)

Lemma nth_error_middle :
  forall (A : Type) (l1 l2 : list A) (x : A),
    nth_error (l1 ++ x :: l2) (List.length l1) = Some x.
Proof.
  intros A l1 l2 x. induction l1 as [|y l1 IH]; [reflexivity | exact IH].
Qed.

Lemma good_position_nth :
  forall bad_first l1 l2 l3 bad good,
    nth_error (one_bad_one_good bad_first l1 l2 l3 bad good)
      (good_position bad_first l1 l2) = Some good.
Proof.
  intros [|] l1 l2 l3 bad good; unfold one_bad_one_good, good_position.
  - replace (l1 ++ bad :: l2 ++ good :: l3)
      with ((l1 ++ bad :: l2) ++ good :: l3)
      by (rewrite <- app_assoc; reflexivity).
    replace (List.length l1 + 1 + List.length l2)%nat
      with (List.length (l1 ++ bad :: l2))
      by (rewrite length_app; cbn [List.length]; lia).
    apply nth_error_middle.
  - apply nth_error_middle.
Qed.

Lemma diagnostics_app :
  forall api_num l1 l2,
    diagnostics api_num (l1 ++ l2)
    = diagnostics api_num l1 ++ diagnostics api_num l2.
Proof. intros api_num l1 l2. apply flat_map_app. Qed.

Lemma diagnostics_no_candidate :
  forall api_num devices,
    no_candidate api_num devices = true -> diagnostics api_num devices = [].
Proof.
  intros api_num devices. induction devices as [|dev rest IH]; intros H.
  - reflexivity.
  - cbn [no_candidate forallb] in H. apply andb_true_iff in H.
    destruct H as [Hd Hrest]. apply negb_true_iff in Hd.
    unfold diagnostics. cbn [flat_map]. rewrite Hd. cbn [andb app].
    apply IH. exact Hrest.
Qed.

Lemma diagnostics_scenario :
  forall api_num bad_first l1 l2 l3 bad good,
    no_candidate api_num (l1 ++ l2 ++ l3) = true ->
    is_candidate api_num bad = true -> other_code (name bad) = true ->
    other_code (name good) = false ->
    diagnostics api_num (one_bad_one_good bad_first l1 l2 l3 bad good)
    = ["Expecting 1, 2, or 3 format"].
Proof.
  intros api_num bad_first l1 l2 l3 bad good Hno Hcb Hob Hog.
  apply no_candidate_app in Hno. destruct Hno as [H1 Hno].
  apply no_candidate_app in Hno. destruct Hno as [H2 H3].
  assert (Eb : diagnostics api_num [bad] = ["Expecting 1, 2, or 3 format"]).
  { unfold diagnostics. cbn [flat_map]. rewrite Hcb, Hob. reflexivity. }
  assert (Eg : diagnostics api_num [good] = []).
  { unfold diagnostics. cbn [flat_map]. rewrite Hog, andb_false_r.
    reflexivity. }
  destruct bad_first; unfold one_bad_one_good.
  - change (l1 ++ bad :: l2 ++ good :: l3)
      with (l1 ++ [bad] ++ l2 ++ [good] ++ l3).
    rewrite !diagnostics_app, Eb, Eg.
    rewrite !diagnostics_no_candidate by assumption. reflexivity.
  - change (l1 ++ good :: l2 ++ bad :: l3)
      with (l1 ++ [good] ++ l2 ++ [bad] ++ l3).
    rewrite !diagnostics_app, Eb, Eg.
    rewrite !diagnostics_no_candidate by assumption. reflexivity.
Qed.

(** The loop of [TMSFindDevices] ends at the first candidate with another
    code that it reaches. *)
Lemma TMSFindDevices_reaches_other_code :
  forall globals platform hapis pre dev post st,
    TMSFindDevices_loop globals (select_api_num platform hapis) pre entry
    = Ok st ->
    is_candidate (select_api_num platform hapis) dev = true ->
    other_code (name dev) = true ->
    TMSFindDevices globals platform hapis (pre ++ dev :: post)
    = raise_class globals "FormatError" "Expecting 1, 2, or 3 format".
Proof.
  intros globals platform hapis pre dev post st Hpre Hc Ho.
  unfold TMSFindDevices, TMSFindDevices_loop.
  unfold TMSFindDevices_loop in Hpre.
  rewrite for_each_app, Hpre. cbn [bind for_each].
  rewrite TMSFindDevices_turn_other_code by assumption.
  rewrite !bind_raise_class. reflexivity.
Qed.

(** C6, as the code has it.  On an enumeration with one candidate of an
    unrecognized format code, one valid candidate and no other candidate,
    in either order: [TMSFindDevices] does not go on past the unrecognized
    code, its call ends at the [raise] statement of the format branch and
    returns no sequence, the empty-result branch is not reached;
    [FindDigiDevices], whenever it returns, has printed "Expecting 1, 2,
    or 3 format" and nothing else, so not "No compatible devices found",
    and the sequence returned holds the record of the valid device at its
    index in the enumeration. *)
Theorem one_bad_one_good_outcome :
  forall platform hapis bad_first l1 l2 l3 bad good r0,
    let api_num := select_api_num platform hapis in
    let devices := one_bad_one_good bad_first l1 l2 l3 bad good in
    no_candidate api_num (l1 ++ l2 ++ l3) = true ->
    is_candidate api_num bad = true ->
    other_code (name bad) = true ->
    is_candidate api_num good = true ->
    other_code (name good) = false ->
    loop_body FindDigiDevices_else api_num good entry
    = Ok (after_decode entry r0) ->
    (forall globals,
        TMSFindDevices globals platform hapis devices
        = raise_class globals "FormatError" "Expecting 1, 2, or 3 format") /\
    (forall globals recs,
        TMSFindDevices globals platform hapis devices <> Ok recs) /\
    (forall recs out,
        FindDigiDevices platform hapis devices = Ok (recs, out) ->
        In (at_index r0 (Z.of_nat (good_position bad_first l1 l2))) recs /\
        out = ["Expecting 1, 2, or 3 format"]).
Proof.
  intros platform hapis bad_first l1 l2 l3 bad good r0 api_num devices
    Hno Hcb Hob Hcg Hog Hgood.
  pose proof Hno as Hno'.
  apply no_candidate_app in Hno'. destruct Hno' as [H1 Hno'].
  apply no_candidate_app in Hno'. destruct Hno' as [H2 H3].
  assert (HT : forall globals,
             TMSFindDevices globals platform hapis devices
             = raise_class globals "FormatError"
                 "Expecting 1, 2, or 3 format").
  { intros globals. subst devices. destruct bad_first; unfold one_bad_one_good.
    - eapply TMSFindDevices_reaches_other_code; [|assumption|assumption].
      unfold TMSFindDevices_loop. apply for_each_no_candidate. exact H1.
    - replace (l1 ++ good :: l2 ++ bad :: l3)
        with ((l1 ++ good :: l2) ++ bad :: l3)
        by (rewrite <- app_assoc; reflexivity).
      eapply TMSFindDevices_reaches_other_code; [|assumption|assumption].
      unfold TMSFindDevices_loop. rewrite for_each_app.
      fold api_num. rewrite for_each_no_candidate by exact H1.
      cbn [bind for_each].
      rewrite (decoded_at_index _ _ _ _ Hcg Hog Hgood). cbn [bind].
      apply for_each_no_candidate. exact H2. }
  split; [exact HT|]. split.
  - intros globals recs. rewrite HT. unfold raise_class.
    destruct (bound globals "FormatError"); discriminate.
  - intros recs out H.
    assert (Hin : In (at_index r0 (Z.of_nat (good_position bad_first l1 l2)))
                    recs).
    { assert (Hret : returned platform hapis devices recs)
        by (left; exists out; exact H).
      destruct (returned_trace _ _ _ _ Hret) as (otherwise & _ & Hf).
      pose proof (candidate_at api_num devices _ good
                    (good_position_nth bad_first l1 l2 l3 bad good) Hcg)
        as Hc.
      destruct (Forall2_in_right _ _ _ _ _ _ Hf Hc) as (r & Hr & Ha).
      destruct Ha as (st & st' & Hb & Hn & Hi). cbn [fst snd] in *.
      fold api_num in Hb.
      rewrite (decoded_at_index _ _ _ _ Hcg Hog Hgood) in Hb.
      injection Hb as <-. cbn [after_decode v_dev_info] in Hi.
      apply app_inv_head in Hi. injection Hi as <-.
      rewrite <- Hn. exact Hr. }
    split; [exact Hin|].
    rewrite (FindDigiDevices_printed _ _ _ _ _ H). fold api_num.
    subst devices. rewrite diagnostics_scenario by assumption.
    destruct recs; [contradiction | reflexivity].
Qed.

Lemma one_bad_one_good_outcome_witness :
  TMSFindDevices TMS_globals "linux" []
    [Sample.speakers; Sample.code9; Sample.volt2_mme; Sample.volt2]
  = raise_class TMS_globals "FormatError" "Expecting 1, 2, or 3 format" /\
  TMSFindDevices TMS_globals "linux" []
    [Sample.speakers; Sample.volt2; Sample.volt2_mme; Sample.code9]
  = raise_class TMS_globals "FormatError" "Expecting 1, 2, or 3 format" /\
  In (at_index
        (record_for 0 Sample.volt2 (mkdate 2022 6 15) VOLTAGE
           [256000; 256000]
           [quotient32 8388608 256000; quotient32 8388608 256000])
        1)
     [record_for 1 Sample.volt2 (mkdate 2022 6 15) VOLTAGE
        [256000; 256000]
        [quotient32 8388608 256000; quotient32 8388608 256000];
      record_for 3 Sample.code9 (mkdate 2022 6 15) VOLTAGE
        [256000; 256000]
        [quotient32 8388608 256000; quotient32 8388608 256000]].
Proof.
  pose proof (one_bad_one_good_outcome "linux" [] true
                [Sample.speakers] [Sample.volt2_mme] []
                Sample.code9 Sample.volt2
                (record_for 0 Sample.volt2 (mkdate 2022 6 15) VOLTAGE
                   [256000; 256000]
                   [quotient32 8388608 256000; quotient32 8388608 256000])
                eq_refl eq_refl eq_refl eq_refl eq_refl eq_refl)
    as (Hbad_first & _ & _).
  pose proof (one_bad_one_good_outcome "linux" [] false
                [Sample.speakers] [Sample.volt2_mme] []
                Sample.code9 Sample.volt2
                (record_for 0 Sample.volt2 (mkdate 2022 6 15) VOLTAGE
                   [256000; 256000]
                   [quotient32 8388608 256000; quotient32 8388608 256000])
                eq_refl eq_refl eq_refl eq_refl eq_refl eq_refl)
    as (Hgood_first & _ & Hlenient).
  split; [exact (Hbad_first TMS_globals)|].
  split; [exact (Hgood_first TMS_globals)|].
  refine (proj1 (Hlenient _ ["Expecting 1, 2, or 3 format"] _)).
  vm_compute. reflexivity.
Defined.

(** C6, as the spec words it: with the device of code "9" before the valid
    one neither function returns a sequence of one record, both calls are
    aborted; with the valid one first [TMSFindDevices] is aborted and
    [FindDigiDevices] returns two records. *)
Lemma code9_scenario_not_one_record :
  TMSFindDevices TMS_globals "linux" [] [Sample.code9; Sample.volt2]
  = Raise (NameError "FormatError") /\
  FindDigiDevices "linux" [] [Sample.code9; Sample.volt2]
  = Raise (UnboundLocalError "date") /\
  TMSFindDevices TMS_globals "linux" [] [Sample.volt2; Sample.code9]
  = Raise (NameError "FormatError") /\
  (exists r1 r2 out,
      FindDigiDevices "linux" [] [Sample.volt2; Sample.code9]
      = Ok ([r1; r2], out)).
Proof.
  repeat split; try (vm_compute; reflexivity).
  eexists _, _, _. vm_compute. reflexivity.
Qed.

(** ** A turn of the loop, case by case *)

Lemma other_code_false :
  forall nm,
    other_code nm = false ->
    field nm 7 8 = "1" \/ field nm 7 8 = "2" \/ field nm 7 8 = "3".
Proof.
  intros nm H. unfold other_code in H. apply negb_false_iff in H.
  apply orb_true_iff in H. destruct H as [H|H].
  - apply orb_true_iff in H. destruct H as [H|H].
    + left. apply String.eqb_eq. exact H.
    + right. left. apply String.eqb_eq. exact H.
  - right. right. apply String.eqb_eq. exact H.
Qed.

Lemma decodes_to_code :
  forall dev i r, decodes_to dev i r -> other_code (name dev) = false.
Proof.
  intros dev i r H. unfold other_code.
  destruct H as [s0 s1 d Hc|s0 s1 d Hc|s0 s1 d Hc]; rewrite Hc; reflexivity.
Qed.

(** A candidate that decodes to [r] has [r] appended by its turn, in either
    function. *)
Lemma decodes_to_turn :
  forall otherwise api_num dev st r,
    is_candidate api_num dev = true ->
    decodes_to dev (v_dev_num st) r ->
    loop_body otherwise api_num dev st = Ok (after_decode st r).
Proof.
  intros otherwise api_num dev st r Hc H.
  destruct H as [s0 s1 d Hcode H0 H1 Hs0 Hs1 Hd
                |s0 s1 d Hcode H0 H1 Hs0 Hs1 Hd
                |s0 s1 d Hcode H0 H1 Hs0 Hs1 Hd].
  - rewrite (turn_code_1 otherwise api_num dev Hc s0 s1 st Hcode H0 H1).
    rewrite Hd, (proj2 (orb_eqb_false s0 s1) (conj Hs0 Hs1)). reflexivity.
  - rewrite (turn_code_2 otherwise api_num dev Hc s0 s1 st Hcode H0 H1).
    rewrite Hd, (proj2 (orb_eqb_false s0 s1) (conj Hs0 Hs1)). reflexivity.
  - rewrite (turn_code_3 otherwise api_num dev Hc s0 s1 st Hcode H0 H1).
    rewrite Hd, (proj2 (orb_eqb_false s0 s1) (conj Hs0 Hs1)). reflexivity.
Qed.

Lemma voltage_branch_int_raise :
  forall nm fmt st e,
    int (field nm 14 21) = Raise e \/
    (exists a, int (field nm 14 21) = Ok a /\
               int (field nm 21 28) = Raise e) ->
    voltage_branch nm (loc_of nm) fmt st = Raise e.
Proof.
  intros nm fmt st e H. unfold voltage_branch. unfold field in H.
  destruct H as [H|(a & Ha & H)].
  - rewrite H. reflexivity.
  - rewrite Ha, H. reflexivity.
Qed.

Lemma acceleration_branch_int_raise :
  forall nm st e,
    int (field nm 14 19) = Raise e \/
    (exists a, int (field nm 14 19) = Ok a /\
               int (field nm 19 24) = Raise e) ->
    acceleration_branch nm (loc_of nm) st = Raise e.
Proof.
  intros nm st e H. unfold acceleration_branch. unfold field in H.
  destruct H as [H|(a & Ha & H)].
  - rewrite H. reflexivity.
  - rewrite Ha, H. reflexivity.
Qed.

(** A completed turn on a candidate with code "1", "2" or "3" has appended
    the record the candidate decodes to. *)
Lemma turn_decodes :
  forall otherwise api_num dev st st',
    is_candidate api_num dev = true ->
    other_code (name dev) = false ->
    loop_body otherwise api_num dev st = Ok st' ->
    exists r, decodes_to dev (v_dev_num st) r /\ st' = after_decode st r.
Proof.
  intros otherwise api_num dev st st' Hc Ho H.
  destruct (other_code_false _ Ho) as [Hcode|[Hcode|Hcode]].
  - destruct (int (field (name dev) 14 19)) as [s0|e0] eqn:E0.
    + destruct (int (field (name dev) 19 24)) as [s1|e1] eqn:E1.
      * rewrite (turn_code_1 otherwise api_num dev Hc s0 s1 st Hcode E0 E1)
          in H.
        destruct ((s0 =? 0) || (s1 =? 0)) eqn:Ez; [discriminate|].
        destruct (strptime (field (name dev) 24 30)) as [d|e] eqn:Ed;
          [|discriminate].
        injection H as <-. apply orb_eqb_false in Ez. destruct Ez.
        eexists. split; [|reflexivity].
        apply decodes_code_1; assumption.
      * exfalso. rewrite loop_body_candidate in H by exact Hc.
        rewrite Hcode in H. cbn [String.eqb Ascii.eqb Bool.eqb orb] in H.
        rewrite (acceleration_branch_int_raise _ st e1) in H;
          [discriminate|].
        right. exists s0. split; assumption.
    + exfalso. rewrite loop_body_candidate in H by exact Hc.
      rewrite Hcode in H. cbn [String.eqb Ascii.eqb Bool.eqb orb] in H.
      rewrite (acceleration_branch_int_raise _ st e0) in H; [discriminate|].
      left. exact E0.
  - destruct (int (field (name dev) 14 21)) as [s0|e0] eqn:E0.
    + destruct (int (field (name dev) 21 28)) as [s1|e1] eqn:E1.
      * rewrite (turn_code_2 otherwise api_num dev Hc s0 s1 st Hcode E0 E1)
          in H.
        destruct ((s0 =? 0) || (s1 =? 0)) eqn:Ez; [discriminate|].
        destruct (strptime (field (name dev) 28 34)) as [d|e] eqn:Ed;
          [|discriminate].
        injection H as <-. apply orb_eqb_false in Ez. destruct Ez.
        eexists. split; [|reflexivity].
        apply decodes_code_2; assumption.
      * exfalso. rewrite loop_body_candidate in H by exact Hc.
        rewrite Hcode in H. cbn [String.eqb Ascii.eqb Bool.eqb orb] in H.
        rewrite (voltage_branch_int_raise _ _ st e1) in H; [discriminate|].
        right. exists s0. split; assumption.
    + exfalso. rewrite loop_body_candidate in H by exact Hc.
      rewrite Hcode in H. cbn [String.eqb Ascii.eqb Bool.eqb orb] in H.
      rewrite (voltage_branch_int_raise _ _ st e0) in H; [discriminate|].
      left. exact E0.
  - destruct (int (field (name dev) 14 21)) as [s0|e0] eqn:E0.
    + destruct (int (field (name dev) 21 28)) as [s1|e1] eqn:E1.
      * rewrite (turn_code_3 otherwise api_num dev Hc s0 s1 st Hcode E0 E1)
          in H.
        destruct ((s0 =? 0) || (s1 =? 0)) eqn:Ez; [discriminate|].
        destruct (strptime (field (name dev) 28 34)) as [d|e] eqn:Ed;
          [|discriminate].
        injection H as <-. apply orb_eqb_false in Ez. destruct Ez.
        eexists. split; [|reflexivity].
        apply decodes_code_3; assumption.
      * exfalso. rewrite loop_body_candidate in H by exact Hc.
        rewrite Hcode in H. cbn [String.eqb Ascii.eqb Bool.eqb orb] in H.
        rewrite (voltage_branch_int_raise _ _ st e1) in H; [discriminate|].
        right. exists s0. split; assumption.
    + exfalso. rewrite loop_body_candidate in H by exact Hc.
      rewrite Hcode in H. cbn [String.eqb Ascii.eqb Bool.eqb orb] in H.
      rewrite (voltage_branch_int_raise _ _ st e0) in H; [discriminate|].
      left. exact E0.
Qed.

Lemma decodes_to_functional :
  forall dev i r r',
    decodes_to dev i r -> decodes_to dev i r' -> r = r'.
Proof.
  intros dev i r r' H H'.
  destruct H as [s0 s1 d Hc H0 H1 _ _ Hd|s0 s1 d Hc H0 H1 _ _ Hd
                |s0 s1 d Hc H0 H1 _ _ Hd];
    destruct H' as [t0 t1 d' Hc' H0' H1' _ _ Hd'|t0 t1 d' Hc' H0' H1' _ _ Hd'
                   |t0 t1 d' Hc' H0' H1' _ _ Hd'];
    try congruence.
Qed.

(** ** What [TMSFindDevices] returns *)

Lemma TMSFindDevices_loop_sound :
  forall globals api_num devices st st',
    TMSFindDevices_loop globals api_num devices st = Ok st' ->
    exists news,
      v_dev_info st' = v_dev_info st ++ news /\
      Forall2 decodes_pair news (candidates api_num devices (v_dev_num st)).
Proof.
  intros globals api_num devices.
  induction devices as [|dev rest IH]; intros st st' H.
  - cbn in H. injection H as <-. exists []. rewrite app_nil_r.
    split; [reflexivity | constructor].
  - unfold TMSFindDevices_loop in H. cbn [for_each] in H. bind_inv H.
    cbn [candidates].
    destruct (is_candidate api_num dev) eqn:Hc.
    + destruct (other_code (name dev)) eqn:Ho.
      * exfalso. rewrite TMSFindDevices_turn_other_code in Ha by assumption.
        unfold raise_class in Ha.
        destruct (bound globals "FormatError"); discriminate.
      * destruct (turn_decodes _ _ _ _ _ Hc Ho Ha) as (r & Hr & ->).
        destruct (IH _ _ H) as (news & Hi & Hf).
        cbn [after_decode v_dev_info v_dev_num] in Hi, Hf.
        exists (r :: news). split.
        -- rewrite Hi, <- app_assoc. reflexivity.
        -- cbn [app]. constructor; [exact Hr | exact Hf].
    + rewrite loop_body_skip in Ha by exact Hc. injection Ha as <-.
      destruct (IH _ _ H) as (news & Hi & Hf).
      exists news. split; [exact Hi | exact Hf].
Qed.

Lemma loop_decodes_all :
  forall otherwise api_num devices st news,
    Forall2 decodes_pair news (candidates api_num devices (v_dev_num st)) ->
    exists st',
      for_each (loop_body otherwise api_num) devices st = Ok st' /\
      v_dev_info st' = v_dev_info st ++ news /\
      stdout st' = stdout st.
Proof.
  intros otherwise api_num devices.
  induction devices as [|dev rest IH]; intros st news H.
  - cbn [candidates] in H. inversion H; subst.
    exists st. rewrite app_nil_r. repeat split; reflexivity.
  - cbn [candidates] in H. cbn [for_each].
    destruct (is_candidate api_num dev) eqn:Hc.
    + cbn [app] in H. inversion H as [|r p news' ps Hr Hf]; subst.
      unfold decodes_pair in Hr. cbn [fst snd] in Hr.
      rewrite (decodes_to_turn otherwise _ _ _ _ Hc Hr). cbn [bind].
      destruct (IH (after_decode st r) news' Hf) as (st' & Hl & Hi & Hs).
      exists st'. split; [exact Hl|]. split.
      * rewrite Hi. cbn [after_decode v_dev_info].
        rewrite <- app_assoc. reflexivity.
      * rewrite Hs. reflexivity.
    + rewrite loop_body_skip by exact Hc. cbn [bind app] in *.
      destruct (IH (set_dev_num st (v_dev_num st + 1)) news H)
        as (st' & Hl & Hi & Hs).
      exists st'. repeat split; assumption.
Qed.

(** X1. [TMSFindDevices] returns a sequence exactly when the enumeration
    has a candidate and every candidate decodes, and the sequence is then
    what the candidates decode to, one record each, in their order. *)
Theorem TMSFindDevices_returns_iff :
  forall globals platform hapis devices recs,
    TMSFindDevices globals platform hapis devices = Ok recs <->
    recs <> [] /\
    Forall2 decodes_pair recs
      (candidates (select_api_num platform hapis) devices 0).
Proof.
  intros globals platform hapis devices recs. split.
  - intros H. split.
    + unfold TMSFindDevices in H. bind_inv H.
      destruct (v_dev_info a); [|injection H as <-; discriminate].
      unfold raise_class in H. destruct (bound _ _); discriminate.
    + apply TMSFindDevices_ok in H. destruct H as (st & H & <-).
      apply TMSFindDevices_loop_sound in H.
      destruct H as (news & -> & Hf). exact Hf.
  - intros [Hne Hf].
    destruct (loop_decodes_all (TMSFindDevices_else globals) _ devices entry
                recs Hf) as (st' & Hl & Hi & _).
    unfold TMSFindDevices, TMSFindDevices_loop. rewrite Hl. cbn [bind].
    rewrite Hi. cbn [entry v_dev_info app].
    destruct recs; [contradiction | reflexivity].
Qed.

(** ** What [FindDigiDevices] returns *)

Lemma last_record_app :
  forall st l r,
    v_dev_info st = l ++ [r] -> last_record st = Some r.
Proof.
  intros st l r H. unfold last_record. rewrite H, rev_app_distr.
  reflexivity.
Qed.

Lemma locals_track_entry : locals_track entry.
Proof. unfold locals_track. cbn. repeat split; reflexivity. Qed.

Lemma locals_track_after_decode :
  forall st r, locals_track (after_decode st r).
Proof.
  intros st r. unfold locals_track.
  rewrite (last_record_app (after_decode st r) (v_dev_info st) r)
    by reflexivity.
  repeat split; reflexivity.
Qed.

Lemma FindDigiDevices_loop_sound :
  forall api_num devices st st',
    locals_track st ->
    FindDigiDevices_loop api_num devices st = Ok st' ->
    exists news,
      v_dev_info st' = v_dev_info st ++ news /\
      FindDigiDevices_records (last_record st) news
        (candidates api_num devices (v_dev_num st)).
Proof.
  intros api_num devices.
  induction devices as [|dev rest IH]; intros st st' Ht H.
  - cbn in H. injection H as <-. exists []. rewrite app_nil_r.
    split; [reflexivity | constructor].
  - unfold FindDigiDevices_loop in H. cbn [for_each] in H. bind_inv H.
    fold (FindDigiDevices_loop api_num rest a) in H.
    cbn [candidates].
    destruct (is_candidate api_num dev) eqn:Hc.
    + destruct (other_code (name dev)) eqn:Ho.
      * unfold locals_track in Ht.
        destruct (last_record st) as [p|] eqn:El.
        -- destruct Ht as (Hd & Hf & Hs & Hsc).
           rewrite (FindDigiDevices_turn_other_code _ _ _ _ _ _ _
                      Hc Ho Hd Hf Hs Hsc) in Ha.
           injection Ha as <-.
           match type of H with
           | FindDigiDevices_loop _ _ ?s = _ =>
               assert (Ht' : locals_track s)
           end.
           { unfold locals_track.
             erewrite last_record_app by reflexivity.
             cbn. repeat split; assumption. }
           destruct (IH _ _ Ht' H) as (news & Hi & Hr).
           erewrite last_record_app in Hr by reflexivity.
           cbn [set_dev_num set_dev_info print v_dev_info v_dev_num]
             in Hi, Hr.
           eexists (_ :: news). split.
           ++ rewrite Hi, <- app_assoc. reflexivity.
           ++ cbn [app]. apply records_left_over; [exact Ho | exact Hr].
        -- exfalso. destruct Ht as (Hd & _).
           rewrite (FindDigiDevices_turn_other_code_unbound _ _ _ Hc Ho Hd)
             in Ha.
           discriminate.
      * destruct (turn_decodes _ _ _ _ _ Hc Ho Ha) as (r & Hr & ->).
        destruct (IH _ _ (locals_track_after_decode st r) H)
          as (news & Hi & Hf).
        erewrite last_record_app in Hf by reflexivity.
        cbn [after_decode v_dev_info v_dev_num] in Hi, Hf.
        exists (r :: news). split.
        -- rewrite Hi, <- app_assoc. reflexivity.
        -- cbn [app]. apply records_decoded; assumption.
    + rewrite loop_body_skip in Ha by exact Hc. injection Ha as <-.
      assert (Ht' : locals_track (set_dev_num st (v_dev_num st + 1)))
        by exact Ht.
      destruct (IH _ _ Ht' H) as (news & Hi & Hf).
      exists news. split; [exact Hi | exact Hf].
Qed.

Lemma FindDigiDevices_loop_complete :
  forall api_num devices st news,
    locals_track st ->
    FindDigiDevices_records (last_record st) news
      (candidates api_num devices (v_dev_num st)) ->
    exists st',
      FindDigiDevices_loop api_num devices st = Ok st' /\
      v_dev_info st' = v_dev_info st ++ news.
Proof.
  intros api_num devices.
  induction devices as [|dev rest IH]; intros st news Ht H.
  - cbn [candidates] in H. inversion H; subst.
    exists st. rewrite app_nil_r. split; reflexivity.
  - cbn [candidates] in H. unfold FindDigiDevices_loop. cbn [for_each].
    destruct (is_candidate api_num dev) eqn:Hc.
    + cbn [app] in H.
      inversion H as [|prev i dev' r rs ps Ho Hr Hrest
                      |p i dev' rs ps Ho Hrest Hprev]; subst.
      * rewrite (decodes_to_turn _ _ _ _ _ Hc Hr). cbn [bind].
        destruct (IH (after_decode st r) rs
                    (locals_track_after_decode st r)) as (st' & Hl & Hi).
        { erewrite last_record_app by reflexivity. exact Hrest. }
        exists st'. split; [exact Hl|].
        rewrite Hi. cbn [after_decode v_dev_info].
        rewrite <- app_assoc. reflexivity.
      * unfold locals_track in Ht. rewrite <- Hprev in Ht.
        destruct Ht as (Hd & Hf & Hs & Hsc).
        rewrite (FindDigiDevices_turn_other_code _ _ _ _ _ _ _
                   Hc Ho Hd Hf Hs Hsc). cbn [bind].
        match goal with
        | |- exists st', for_each _ _ ?s = _ /\ _ =>
            destruct (IH s rs) as (st' & Hl & Hi)
        end.
        { unfold locals_track.
          erewrite last_record_app by reflexivity.
          cbn. repeat split; assumption. }
        { erewrite last_record_app by reflexivity. exact Hrest. }
        exists st'. split; [exact Hl|].
        rewrite Hi.
        cbn [set_dev_num set_dev_info print v_dev_info].
        rewrite <- app_assoc. reflexivity.
    + rewrite loop_body_skip by exact Hc. cbn [bind app] in *.
      destruct (IH (set_dev_num st (v_dev_num st + 1)) news Ht H)
        as (st' & Hl & Hi).
      exists st'. split; assumption.
Qed.

(** X2. [FindDigiDevices] returns a sequence and prints its lines exactly
    when the sequence is built from the candidates as
    [FindDigiDevices_records] tells, the first record being decoded from
    its own device, and the lines are one diagnostic for every candidate
    of another code, then the empty-result line if the sequence is
    empty. *)
Theorem FindDigiDevices_returns_iff :
  forall platform hapis devices recs out,
    FindDigiDevices platform hapis devices = Ok (recs, out) <->
    FindDigiDevices_records None recs
      (candidates (select_api_num platform hapis) devices 0) /\
    out = diagnostics (select_api_num platform hapis) devices
          ++ empty_result_line recs.
Proof.
  intros platform hapis devices recs out. split.
  - intros H. split.
    + apply FindDigiDevices_ok in H. destruct H as (st & H & <-).
      apply (FindDigiDevices_loop_sound _ _ _ _ locals_track_entry) in H.
      destruct H as (news & -> & Hr). exact Hr.
    + apply FindDigiDevices_printed. exact H.
  - intros [Hr ->].
    destruct (FindDigiDevices_loop_complete _ devices entry recs
                locals_track_entry Hr) as (st' & Hl & Hi).
    pose proof (FindDigiDevices_loop_stdout _ _ _ _ Hl) as Hs.
    cbn [entry v_dev_info stdout app] in Hi, Hs.
    unfold FindDigiDevices. rewrite Hl. cbn [bind]. rewrite Hi.
    destruct recs; cbn [empty_result_line v_dev_info stdout print];
      rewrite ?Hi, Hs, ?app_nil_r; reflexivity.
Qed.

(** ** The exceptions a call can end in *)

Lemma int_raise_value :
  forall s e, int s = Raise e -> decode_error e.
Proof.
  intros s e H. unfold int in H.
  destruct (int_signed (lstrip s)); [discriminate|].
  injection H as <-. left. eexists. reflexivity.
Qed.

Lemma strptime_raise_value :
  forall s e, strptime s = Raise e -> decode_error e.
Proof.
  intros s e H. unfold strptime in H.
  destruct (match_ymd s) as [[[[yy m] d] rest]|];
    [|injection H as <-; left; eexists; reflexivity].
  destruct rest; [|injection H as <-; left; eexists; reflexivity].
  destruct (_ <=? _); [discriminate|].
  injection H as <-. left. eexists. reflexivity.
Qed.

Lemma truediv_int_field_raise :
  forall c n k e,
    Z.abs n < 10 ^ 7 -> 1 <= k <= 20 ->
    truediv_int (of_int c) (n * k) = Raise e -> e = ZeroDivisionError.
Proof.
  intros c n k e Hn Hk H. rewrite truediv_int_field in H by assumption.
  destruct (n =? 0); [injection H as <-; reflexivity | discriminate].
Qed.

Lemma voltage_branch_raise_decode :
  forall nm fmt st e,
    0 <= loc_of nm ->
    voltage_branch nm (loc_of nm) fmt st = Raise e -> decode_error e.
Proof.
  intros nm fmt st e Hloc H. unfold voltage_branch in H.
  fold (field nm 14 21) (field nm 21 28) (field nm 28 34) in H.
  destruct (int (field nm 14 21)) as [a|ea] eqn:Ea;
    [|cbn [bind] in H; injection H as <-; eapply int_raise_value; exact Ea].
  destruct (int (field nm 21 28)) as [b|eb] eqn:Eb;
    [|cbn [bind] in H; injection H as <-; eapply int_raise_value; exact Eb].
  pose proof (field_int_bound nm 14 21 a Hloc ltac:(lia) Ea) as Ba.
  pose proof (field_int_bound nm 21 28 b Hloc ltac:(lia) Eb) as Bb.
  cbn [bind] in H. cbv zeta in H.
  destruct (fmt =? "3")%string; cbn [imul_item item nth] in H.
  - apply bind_raise in H. destruct H as [H|(x0 & _ & H)].
    + right. eapply truediv_int_field_raise; [exact Ba | | exact H]. lia.
    + apply bind_raise in H. destruct H as [H|(x1 & _ & H)].
      * right. eapply truediv_int_field_raise; [exact Bb | | exact H]. lia.
      * apply bind_raise in H. destruct H as [H|(d & _ & H)].
        -- eapply strptime_raise_value; exact H.
        -- discriminate.
  - rewrite <- (Z.mul_1_r a), <- (Z.mul_1_r b) in H.
    apply bind_raise in H. destruct H as [H|(x0 & _ & H)].
    + right. eapply truediv_int_field_raise; [exact Ba | | exact H]. lia.
    + apply bind_raise in H. destruct H as [H|(x1 & _ & H)].
      * right. eapply truediv_int_field_raise; [exact Bb | | exact H]. lia.
      * apply bind_raise in H. destruct H as [H|(d & _ & H)].
        -- eapply strptime_raise_value; exact H.
        -- discriminate.
Qed.

Lemma acceleration_branch_raise_decode :
  forall nm st e,
    0 <= loc_of nm ->
    acceleration_branch nm (loc_of nm) st = Raise e -> decode_error e.
Proof.
  intros nm st e Hloc H. unfold acceleration_branch in H.
  fold (field nm 14 19) (field nm 19 24) (field nm 24 30) in H.
  destruct (int (field nm 14 19)) as [a|ea] eqn:Ea;
    [|cbn [bind] in H; injection H as <-; eapply int_raise_value; exact Ea].
  destruct (int (field nm 19 24)) as [b|eb] eqn:Eb;
    [|cbn [bind] in H; injection H as <-; eapply int_raise_value; exact Eb].
  pose proof (field_int_bound nm 14 19 a Hloc ltac:(lia) Ea) as Ba.
  pose proof (field_int_bound nm 19 24 b Hloc ltac:(lia) Eb) as Bb.
  assert (Ba' : Z.abs a < 10 ^ 7)
    by (eapply Z.lt_le_trans; [exact Ba | apply Z.pow_le_mono_r; lia]).
  assert (Bb' : Z.abs b < 10 ^ 7)
    by (eapply Z.lt_le_trans; [exact Bb | apply Z.pow_le_mono_r; lia]).
  cbn [bind] in H. cbv zeta in H. cbn [item nth] in H.
  rewrite <- (Z.mul_1_r a), <- (Z.mul_1_r b) in H.
  apply bind_raise in H. destruct H as [H|(x0 & _ & H)].
  - right. eapply truediv_int_field_raise; [exact Ba' | | exact H]. lia.
  - apply bind_raise in H. destruct H as [H|(x1 & _ & H)].
    + right. eapply truediv_int_field_raise; [exact Bb' | | exact H]. lia.
    + apply bind_raise in H. destruct H as [H|(d & _ & H)].
      * eapply strptime_raise_value; exact H.
      * discriminate.
Qed.

(** A turn on a candidate with code "1", "2" or "3" fails only for what its
    name holds. *)
Lemma turn_raise_decode :
  forall otherwise api_num dev st e,
    is_candidate api_num dev = true ->
    other_code (name dev) = false ->
    loop_body otherwise api_num dev st = Raise e -> decode_error e.
Proof.
  intros otherwise api_num dev st e Hc Ho H.
  pose proof (candidate_loc_nonneg _ _ Hc) as Hloc.
  rewrite loop_body_candidate in H by exact Hc.
  unfold other_code in Ho. apply negb_false_iff in Ho.
  destruct ((field (name dev) 7 8 =? "2")%string
            || (field (name dev) 7 8 =? "3")%string) eqn:E23.
  - destruct (voltage_branch (name dev) (loc_of (name dev))
                (field (name dev) 7 8) st) as [st1|e1] eqn:Eb.
    + exfalso.
      destruct (voltage_branch_shape _ _ _ _ _ Eb)
        as (d & form & sens & sc & Hall).
      rewrite Hall in Eb. injection Eb as <-. cbn [bind] in H.
      rewrite (append_after_branch st (v_dev_num st)) in H by reflexivity.
      discriminate.
    + cbn [bind] in H. injection H as <-.
      eapply voltage_branch_raise_decode; eassumption.
  - destruct (field (name dev) 7 8 =? "1")%string eqn:E1.
    + destruct (acceleration_branch (name dev) (loc_of (name dev)) st)
        as [st1|e1] eqn:Eb.
      * exfalso.
        destruct (acceleration_branch_shape _ _ _ _ Eb)
          as (d & form & sens & sc & Hall).
        rewrite Hall in Eb. injection Eb as <-. cbn [bind] in H.
        rewrite (append_after_branch st (v_dev_num st)) in H by reflexivity.
      discriminate.
      * cbn [bind] in H. injection H as <-.
        eapply acceleration_branch_raise_decode; eassumption.
    + exfalso. apply orb_false_iff in E23. destruct E23 as [E2 E3].
      rewrite E2, E3 in Ho. discriminate.
Qed.

Lemma decode_error_not_unbound :
  forall var, ~ decode_error (UnboundLocalError var).
Proof. intros var [(why & H)|H]; discriminate. Qed.

Lemma FindDigiDevices_turn_track :
  forall api_num dev st st',
    locals_track st ->
    loop_body FindDigiDevices_else api_num dev st = Ok st' ->
    locals_track st'.
Proof.
  intros api_num dev st st' Ht H.
  destruct (is_candidate api_num dev) eqn:Hc.
  - destruct (other_code (name dev)) eqn:Ho.
    + unfold locals_track in Ht.
      destruct (last_record st) as [p|] eqn:El.
      * destruct Ht as (Hd & Hf & Hs & Hsc).
        rewrite (FindDigiDevices_turn_other_code _ _ _ _ _ _ _
                   Hc Ho Hd Hf Hs Hsc) in H.
        injection H as <-. unfold locals_track.
        erewrite last_record_app by reflexivity.
        cbn. repeat split; assumption.
      * exfalso. destruct Ht as (Hd & _).
        rewrite (FindDigiDevices_turn_other_code_unbound _ _ _ Hc Ho Hd) in H.
        discriminate.
    + destruct (turn_decodes _ _ _ _ _ Hc Ho H) as (r & _ & ->).
      apply locals_track_after_decode.
  - rewrite loop_body_skip in H by exact Hc. injection H as <-. exact Ht.
Qed.

Lemma FindDigiDevices_turn_last :
  forall api_num dev st st',
    loop_body FindDigiDevices_else api_num dev st = Ok st' ->
    last_record st' = None ->
    is_candidate api_num dev = false /\ last_record st = None.
Proof.
  intros api_num dev st st' H Hl.
  destruct (loop_body_ok _ _ FindDigiDevices_else_keeps _ _ _ H) as [_ Hc].
  destruct (is_candidate api_num dev).
  - exfalso. destruct Hc as (r & Hr & _).
    rewrite (last_record_app _ _ _ Hr) in Hl. discriminate.
  - split; [reflexivity|]. unfold last_record in *. rewrite <- Hc.
    exact Hl.
Qed.

Lemma FindDigiDevices_loop_raise :
  forall api_num devices st e,
    locals_track st ->
    FindDigiDevices_loop api_num devices st = Raise e ->
    decode_error e \/
    (e = UnboundLocalError "date" /\ last_record st = None /\
     exists pre dev post,
       devices = pre ++ dev :: post /\
       no_candidate api_num pre = true /\
       is_candidate api_num dev = true /\
       other_code (name dev) = true).
Proof.
  intros api_num devices.
  induction devices as [|dev rest IH]; intros st e Ht H; [discriminate|].
  unfold FindDigiDevices_loop in H. cbn [for_each] in H.
  apply bind_raise in H. destruct H as [H|(a & Ha & H)].
  - destruct (is_candidate api_num dev) eqn:Hc.
    + destruct (other_code (name dev)) eqn:Ho.
      * unfold locals_track in Ht.
        destruct (last_record st) as [p|] eqn:El.
        -- exfalso. destruct Ht as (Hd & Hf & Hs & Hsc).
           rewrite (FindDigiDevices_turn_other_code _ _ _ _ _ _ _
                      Hc Ho Hd Hf Hs Hsc) in H.
           discriminate.
        -- destruct Ht as (Hd & _).
           rewrite (FindDigiDevices_turn_other_code_unbound _ _ _ Hc Ho Hd)
             in H.
           injection H as <-. right. split; [reflexivity|].
           split; [reflexivity|].
           exists [], dev, rest. repeat split; assumption.
      * left. eapply turn_raise_decode; eassumption.
    + rewrite loop_body_skip in H by exact Hc. discriminate.
  - fold (FindDigiDevices_loop api_num rest a) in H.
    pose proof (FindDigiDevices_turn_track _ _ _ _ Ht Ha) as Ht'.
    destruct (IH _ _ Ht' H)
      as [Hd|(-> & Hl & pre & d & post & -> & Hp & Hc & Ho)].
    + left. exact Hd.
    + destruct (FindDigiDevices_turn_last _ _ _ _ Ha Hl) as [Hn Hl'].
      right. split; [reflexivity|]. split; [exact Hl'|].
      exists (dev :: pre), d, post. split; [reflexivity|].
      split; [|split; assumption].
      cbn [no_candidate forallb]. rewrite Hn. exact Hp.
Qed.

Lemma TMSFindDevices_loop_raise :
  forall globals api_num devices st e,
    TMSFindDevices_loop globals api_num devices st = Raise e ->
    decode_error e \/
    @raise_class locals globals "FormatError" "Expecting 1, 2, or 3 format"
    = Raise e.
Proof.
  intros globals api_num devices.
  induction devices as [|dev rest IH]; intros st e H; [discriminate|].
  unfold TMSFindDevices_loop in H. cbn [for_each] in H.
  apply bind_raise in H. destruct H as [H|(a & Ha & H)].
  - destruct (is_candidate api_num dev) eqn:Hc.
    + destruct (other_code (name dev)) eqn:Ho.
      * rewrite TMSFindDevices_turn_other_code in H by assumption.
        right. exact H.
      * left. eapply turn_raise_decode; eassumption.
    + rewrite loop_body_skip in H by exact Hc. discriminate.
  - eapply IH. exact H.
Qed.

(** X3. [FindDigiDevices] ends in [UnboundLocalError], for [date], exactly
    when the first candidate of the enumeration has a format code that is
    none of "1", "2", "3": the [append] then reads [date] before any
    branch has assigned it. *)
Theorem FindDigiDevices_unbound_iff :
  forall platform hapis devices var,
    FindDigiDevices platform hapis devices = Raise (UnboundLocalError var) <->
    var = "date" /\
    exists pre dev post,
      devices = pre ++ dev :: post /\
      no_candidate (select_api_num platform hapis) pre = true /\
      is_candidate (select_api_num platform hapis) dev = true /\
      other_code (name dev) = true.
Proof.
  intros platform hapis devices var. split.
  - intros H. unfold FindDigiDevices in H.
    apply bind_raise in H. destruct H as [H|(st & _ & H)]; [|discriminate].
    apply (FindDigiDevices_loop_raise _ _ _ _ locals_track_entry) in H.
    destruct H as [H|(H & _ & Hex)].
    + exfalso. exact (decode_error_not_unbound _ H).
    + injection H as ->. split; [reflexivity | exact Hex].
  - intros (-> & pre & dev & post & -> & Hp & Hc & Ho).
    unfold FindDigiDevices, FindDigiDevices_loop.
    rewrite for_each_app, for_each_no_candidate by exact Hp.
    cbn [bind for_each].
    rewrite FindDigiDevices_turn_other_code_unbound by
      (assumption || reflexivity).
    reflexivity.
Qed.

(** X4. The exceptions a call can end in.  [FindDigiDevices] ends in a
    [ValueError] or a [ZeroDivisionError] of the decoding of a name, or in
    the [UnboundLocalError] for [date]; [TMSFindDevices] in a [ValueError]
    or a [ZeroDivisionError] of the decoding, or in the [NameError] of one
    of its two [raise] statements.  No sensitivity is ever too large a
    number for the division: neither ends in [OverflowError]. *)
Theorem discovery_exceptions :
  (forall platform hapis devices e,
      FindDigiDevices platform hapis devices = Raise e ->
      (exists why, e = ValueError why) \/ e = ZeroDivisionError \/
      e = UnboundLocalError "date") /\
  (forall platform hapis devices e,
      TMSFindDevices TMS_globals platform hapis devices = Raise e ->
      (exists why, e = ValueError why) \/ e = ZeroDivisionError \/
      e = NameError "FormatError" \/ e = NameError "NoDevicesFound").
Proof.
  split.
  - intros platform hapis devices e H. unfold FindDigiDevices in H.
    apply bind_raise in H. destruct H as [H|(st & _ & H)]; [|discriminate].
    apply (FindDigiDevices_loop_raise _ _ _ _ locals_track_entry) in H.
    destruct H as [[H|H]|(H & _)]; auto.
  - intros platform hapis devices e H. unfold TMSFindDevices in H.
    apply bind_raise in H. destruct H as [H|(st & _ & H)].
    + apply TMSFindDevices_loop_raise in H. destruct H as [[H|H]|H]; auto.
      right. right. left. vm_compute in H. congruence.
    + destruct (v_dev_info st); [|discriminate].
      right. right. right. vm_compute in H. congruence.
Qed.

(** ** Every record returned *)

Lemma in_range_bounds :
  forall lo hi c x, in_range lo hi c = Some x -> lo <= x <= hi.
Proof.
  intros lo hi c x H. unfold in_range in H.
  destruct (digit_of c) as [d|]; [|discriminate].
  destruct (Z.leb_spec lo d) as [Hlo|Hlo];
    destruct (Z.leb_spec d hi) as [Hhi|Hhi]; cbn in H;
    try discriminate.
  injection H as <-. lia.
Qed.

Ltac in_range_cases :=
  repeat match goal with
         | H : In _ (_ ++ _) |- _ => apply in_app_or in H; destruct H as [H|H]
         | H : In _ [] |- _ => contradiction
         | H : In _ [_] |- _ =>
             destruct H as [H|[]]; apply pair_equal_spec in H;
             destruct H as [<- <-]
         | H : In _ (match in_range ?a ?b ?c with _ => _ end) |- _ =>
             let E := fresh "E" in
             destruct (in_range a b c) eqn:E;
             [apply in_range_bounds in E|]
         | H : In _ (if ?b then _ else _) |- _ => destruct b
         end.

Lemma month_alts_range :
  forall s m r, In (m, r) (month_alts s) -> 1 <= m <= 12.
Proof.
  intros s m r H. unfold month_alts in H.
  destruct s as [|a s]; [contradiction|].
  destruct s as [|b s]; in_range_cases; lia.
Qed.

Lemma day_alts_range :
  forall s d r, In (d, r) (day_alts s) -> 1 <= d <= 31.
Proof.
  intros s d r H. unfold day_alts in H.
  destruct s as [|a s]; [contradiction|].
  destruct s as [|b s]; in_range_cases; lia.
Qed.

Lemma first_month_day_in :
  forall ms m d r,
    first_month_day ms = Some (m, d, r) ->
    exists r0, In (m, r0) ms /\ In (d, r) (day_alts r0).
Proof.
  induction ms as [|[m0 r0] ms IH]; intros m d r H; [discriminate|].
  cbn [first_month_day] in H.
  destruct (day_alts r0) as [|[d0 r1] rest] eqn:E.
  - destruct (IH _ _ _ H) as (r2 & Hin & Hd).
    exists r2. split; [right; exact Hin | exact Hd].
  - injection H as <- <- <-. exists r0.
    split; [left; reflexivity | rewrite E; left; reflexivity].
Qed.

(** What [strptime] returns for ['%y%m%d'] is a day of the calendar in the
    years 1969 to 2068. *)
Lemma strptime_valid :
  forall s d, strptime s = Ok d -> valid_date d.
Proof.
  intros s d H. unfold strptime in H.
  destruct (match_ymd s) as [[[[yy m] dd] rest]|] eqn:E; [|discriminate].
  destruct rest; [|discriminate].
  destruct (Z.leb_spec dd (days_in_month (full_year yy) m)) as [Hle|];
    [|discriminate].
  injection H as <-. unfold match_ymd in E.
  destruct s as [|a [|b s]]; try discriminate.
  destruct (digit_of a) as [x|] eqn:Ex; [|discriminate].
  destruct (digit_of b) as [y|] eqn:Ey; [|discriminate].
  destruct (first_month_day (month_alts s)) as [[[m' d'] r']|] eqn:Ef;
    [|discriminate].
  remember (10 * x + y) as v eqn:Hv.
  injection E as Eyy Em Edd Er. subst yy m dd r'.
  apply digit_of_range in Ex, Ey.
  apply first_month_day_in in Ef. destruct Ef as (r0 & Hm & Hd).
  apply month_alts_range in Hm. apply day_alts_range in Hd.
  unfold valid_date. cbn [year month day]. unfold full_year in *.
  destruct (Z.leb_spec v 68); repeat split; lia.
Qed.

Lemma decodes_to_well_formed :
  forall dev i r,
    0 <= loc_of (name dev) ->
    decodes_to dev i r -> pairs_agree r /\ valid_date (date r).
Proof.
  intros dev i r Hloc H.
  destruct H as [s0 s1 d Hc H0 H1 Hs0 Hs1 Hd|s0 s1 d Hc H0 H1 Hs0 Hs1 Hd
                |s0 s1 d Hc H0 H1 Hs0 Hs1 Hd];
    (split; [|exact (strptime_valid _ _ Hd)]).
  - pose proof (field_int_bound _ 14 19 s0 Hloc ltac:(lia) H0) as B0.
    pose proof (field_int_bound _ 19 24 s1 Hloc ltac:(lia) H1) as B1.
    change (10 ^ (19 - 14)) with 100000 in B0.
    change (10 ^ (24 - 19)) with 100000 in B1.
    exists s0, s1. split; [reflexivity|]. split; [exact Hs0|].
    split; [exact Hs1|]. right. auto.
  - pose proof (field_int_bound _ 14 21 s0 Hloc ltac:(lia) H0) as B0.
    pose proof (field_int_bound _ 21 28 s1 Hloc ltac:(lia) H1) as B1.
    change (10 ^ (21 - 14)) with 10000000 in B0.
    change (10 ^ (28 - 21)) with 10000000 in B1.
    exists s0, s1. split; [reflexivity|]. split; [exact Hs0|].
    split; [exact Hs1|]. left. repeat split; try reflexivity; lia.
  - pose proof (field_int_bound _ 14 21 s0 Hloc ltac:(lia) H0) as B0.
    pose proof (field_int_bound _ 21 28 s1 Hloc ltac:(lia) H1) as B1.
    change (10 ^ (21 - 14)) with 10000000 in B0.
    change (10 ^ (28 - 21)) with 10000000 in B1.
    exists (20 * s0), (20 * s1). split; [reflexivity|]. split; [lia|].
    split; [lia|]. left. repeat split; try reflexivity; lia.
Qed.

Lemma candidates_are_candidates :
  forall api_num devices i,
    Forall (fun p => is_candidate api_num (snd p) = true)
      (candidates api_num devices i).
Proof.
  intros api_num devices i. apply Forall_forall. intros [j dev] H.
  apply candidates_in in H. cbn [snd]. tauto.
Qed.

(** A property of the date, format, sensitivities and scale that every
    decoded record has holds of the left-over records as well. *)
Lemma FindDigiDevices_records_forall :
  forall (api_num : Z) (P : DevInfo -> Prop),
    (forall i dev r,
        is_candidate api_num dev = true -> decodes_to dev i r -> P r) ->
    (forall p i dev,
        P p ->
        P (record_for i dev (date p) (format p) (sensitivity_int p)
             (scale p))) ->
    forall prev recs ps,
      FindDigiDevices_records prev recs ps ->
      Forall (fun p => is_candidate api_num (snd p) = true) ps ->
      (forall q, prev = Some q -> P q) ->
      Forall P recs.
Proof.
  intros api_num P Hdec Hcopy prev recs ps H.
  induction H as [prev|prev i dev r rs ps Ho Hr Hrest IH
                 |p i dev rs ps Ho Hrest IH]; intros Hc Hprev.
  - constructor.
  - inversion Hc as [|x l Hx Hl]; subst. cbn [snd] in Hx.
    pose proof (Hdec _ _ _ Hx Hr) as HP.
    constructor; [exact HP|].
    apply IH; [exact Hl|]. intros q Hq. injection Hq as <-. exact HP.
  - inversion Hc as [|x l Hx Hl]; subst.
    pose proof (Hcopy p i dev (Hprev p eq_refl)) as HP.
    constructor; [exact HP|].
    apply IH; [exact Hl|]. intros q Hq. injection Hq as <-. exact HP.
Qed.

Lemma returned_forall :
  forall (P : DevInfo -> Prop),
    (forall dev i r,
        0 <= loc_of (name dev) -> decodes_to dev i r -> P r) ->
    (forall p i dev,
        P p ->
        P (record_for i dev (date p) (format p) (sensitivity_int p)
             (scale p))) ->
    forall platform hapis devices recs,
      returned platform hapis devices recs -> Forall P recs.
Proof.
  intros P Hdec Hcopy platform hapis devices recs [(out & H)|(globals & H)].
  - apply FindDigiDevices_ok in H. destruct H as (st & H & <-).
    apply (FindDigiDevices_loop_sound _ _ _ _ locals_track_entry) in H.
    destruct H as (news & -> & Hr).
    eapply (FindDigiDevices_records_forall
              (select_api_num platform hapis) P); try eassumption.
    + intros i dev r Hc Hd.
      apply (Hdec dev i r); [|exact Hd].
      eapply candidate_loc_nonneg; exact Hc.
    + apply candidates_are_candidates.
    + intros q Hq. discriminate.
  - apply TMSFindDevices_ok in H. destruct H as (st & H & <-).
    apply TMSFindDevices_loop_sound in H. destruct H as (news & -> & Hf).
    cbn [entry v_dev_info v_dev_num app] in *.
    pose proof (candidates_are_candidates (select_api_num platform hapis)
                  devices 0) as Hc.
    revert Hc. induction Hf as [|r p rs ps Hr Hf IH]; intros Hc.
    + constructor.
    + inversion Hc as [|x l Hx Hl]; subst. constructor.
      * apply (Hdec (snd p) (fst p) r); [|exact Hr].
        eapply candidate_loc_nonneg; exact Hx.
      * apply IH. exact Hl.
Qed.

(** X5. In every record either function returns, the sensitivity pair has
    two numbers that are not zero, below 200000000 in size for VOLTAGE and
    below 100000 for ACCELERATION, the format is one of the two, and the
    scale pair is the float32 quotient of the constant of the format,
    8388608.0 or 855400.0, by these two numbers: the pairs of a record
    always agree, also in the records [FindDigiDevices] appends for a
    format code it does not know. *)
Theorem returned_pairs_agree :
  forall platform hapis devices recs,
    returned platform hapis devices recs -> Forall pairs_agree recs.
Proof.
  apply returned_forall.
  - intros dev i r Hloc Hd. apply (decodes_to_well_formed dev i r Hloc Hd).
  - intros p i dev HP. exact HP.
Qed.

(** X6. The date of every record either function returns is a day of the
    calendar, in the years 1969 to 2068. *)
Theorem returned_dates_valid :
  forall platform hapis devices recs,
    returned platform hapis devices recs ->
    Forall (fun r => valid_date (date r)) recs.
Proof.
  apply (returned_forall (fun r => valid_date (date r))).
  - intros dev i r Hloc Hd. apply (decodes_to_well_formed dev i r Hloc Hd).
  - intros p i dev HP. exact HP.
Qed.

(** ** Facts on slices and occurrences *)

Lemma string_app_assoc :
  forall a b c : string, ((a ++ b) ++ c = a ++ (b ++ c))%string.
Proof.
  induction a as [|x a IH]; intros b c; cbn; [reflexivity|].
  rewrite IH. reflexivity.
Qed.

Lemma string_app_length :
  forall a b : string,
    String.length (a ++ b)%string = (String.length a + String.length b)%nat.
Proof.
  induction a as [|x a IH]; intros b; cbn; [reflexivity|].
  rewrite IH. reflexivity.
Qed.

Lemma substring_drop :
  forall s n m, substring n m s = substring 0 m (drop n s).
Proof.
  induction s as [|c s IH]; intros [|n] m; cbn [substring drop];
    try reflexivity.
  - destruct m; reflexivity.
  - apply IH.
Qed.

Lemma drop_app_length :
  forall a b : string, drop (String.length a) (a ++ b)%string = b.
Proof. induction a as [|x a IH]; intros b; cbn; [reflexivity | apply IH]. Qed.

Lemma substring_0_app :
  forall a b : string, substring 0 (String.length a) (a ++ b)%string = a.
Proof.
  induction a as [|x a IH]; intros b; cbn.
  - destruct b; reflexivity.
  - rewrite IH. reflexivity.
Qed.

Lemma substring_0_clamp :
  forall s m,
    substring 0 m s = substring 0 (Nat.min m (String.length s)) s.
Proof.
  induction s as [|c s IH]; intros [|m]; cbn; try reflexivity.
  rewrite <- IH. reflexivity.
Qed.

Lemma drop_length :
  forall s n, String.length (drop n s) = (String.length s - n)%nat.
Proof.
  induction s as [|c s IH]; intros [|n]; cbn; try reflexivity. apply IH.
Qed.

(** A slice with bounds that are not negative is the substring between
    them. *)
Lemma slice_substring :
  forall s lo hi,
    0 <= lo <= hi ->
    slice s lo hi = substring (Z.to_nat lo) (Z.to_nat (hi - lo)) s.
Proof.
  intros s lo hi H. unfold slice, clamp.
  destruct (Z.ltb_spec lo 0) as [?|_]; [lia|].
  destruct (Z.ltb_spec hi 0) as [?|_]; [lia|].
  set (len := String.length s).
  assert (Hd : forall k, (len <= k)%nat -> drop k s = EmptyString).
  { intros k Hk. pose proof (drop_length s k) as Hl. fold len in Hl.
    destruct (drop k s); [reflexivity | cbn in Hl; lia]. }
  match goal with
  | |- substring ?n ?m s = substring ?n' ?m' s =>
      rewrite (substring_drop s n m), (substring_drop s n' m');
      rewrite (substring_0_clamp (drop n s) m),
        (substring_0_clamp (drop n' s) m');
      rewrite (drop_length s n), (drop_length s n')
  end.
  fold len.
  destruct (Z.le_gt_cases (Z.of_nat len) lo) as [Hge|Hlt].
  - rewrite (Hd (Z.to_nat (Z.min lo (Z.of_nat len)))) by lia.
    rewrite (Hd (Z.to_nat lo)) by lia.
    destruct (Nat.min _ _), (Nat.min _ _); reflexivity.
  - replace (Z.to_nat (Z.min lo (Z.of_nat len))) with (Z.to_nat lo) by lia.
    f_equal. lia.
Qed.

Lemma field_substring :
  forall nm a b,
    0 <= loc_of nm -> 0 <= a <= b ->
    field nm a b
    = substring 0 (Z.to_nat (b - a)) (drop (Z.to_nat (loc_of nm + a)) nm).
Proof.
  intros nm a b Hloc Hab. unfold field.
  rewrite slice_substring by lia. rewrite substring_drop.
  f_equal. lia.
Qed.

Lemma drop_add :
  forall s n m, drop (n + m) s = drop m (drop n s).
Proof.
  induction s as [|c s IH]; intros [|n] m; cbn [drop Nat.add];
    try reflexivity.
  - destruct m; reflexivity.
  - apply IH.
Qed.

(** The field of a name that begins [off] characters behind the model
    offset, when the name is some text of that length, the field, and the
    rest. *)
Lemma field_of_parts :
  forall nm pre x rest off,
    loc_of nm = Z.of_nat off ->
    nm = (pre ++ x ++ rest)%string ->
    forall a, (String.length pre = off + a)%nat ->
    field nm (Z.of_nat a) (Z.of_nat a + Z.of_nat (String.length x)) = x.
Proof.
  intros nm pre x rest off Hloc -> a Hlen.
  rewrite field_substring by lia. rewrite Hloc.
  replace (Z.to_nat (Z.of_nat off + Z.of_nat a)) with (String.length pre)
    by lia.
  rewrite drop_app_length.
  replace (Z.to_nat (Z.of_nat a + Z.of_nat (String.length x) - Z.of_nat a))
    with (String.length x) by lia.
  apply substring_0_app.
Qed.

Lemma find_from_first :
  forall x s i j,
    find_from x s i = Some j ->
    i <= j /\ occurs_at x s (Z.to_nat (j - i)) /\
    forall k, (k < Z.to_nat (j - i))%nat -> ~ occurs_at x s k.
Proof.
  intros x s. induction s as [|c s IH]; intros i j H; cbn [find_from] in H.
  - destruct (prefix x "") eqn:E; [|discriminate]. injection H as <-.
    rewrite Z.sub_diag. split; [lia|]. split; [exact E|]. intros k Hk.
    cbn in Hk. lia.
  - destruct (prefix x (String c s)) eqn:E.
    + injection H as <-. rewrite Z.sub_diag. split; [lia|].
      split; [exact E|]. intros k Hk. cbn in Hk. lia.
    + destruct (IH _ _ H) as (Hle & Hocc & Hfirst).
      split; [lia|].
      replace (Z.to_nat (j - i)) with (S (Z.to_nat (j - (i + 1)))) by lia.
      split; [exact Hocc|].
      intros [|k] Hk; unfold occurs_at; cbn [drop].
      * rewrite E. discriminate.
      * apply Hfirst. lia.
Qed.



Lemma find_some_first :
  forall (A : Type) (f : A -> bool) (l : list A) (x : A),
    List.find f l = Some x ->
    exists l1 l2,
      l = l1 ++ x :: l2 /\ f x = true /\ forall y, In y l1 -> f y = false.
Proof.
  intros A f l x. induction l as [|a l IH]; intros H; [discriminate|].
  cbn [List.find] in H. destruct (f a) eqn:E.
  - injection H as <-. exists [], l. repeat split; [exact E|].
    intros y [].
  - destruct (IH H) as (l1 & l2 & -> & Hx & Hl1).
    exists (a :: l1), l2. repeat split; [exact Hx|].
    intros y [<-|Hy]; [exact E | apply Hl1; exact Hy].
Qed.

(** X7. The model substring searched for in a name is the first of the
    table, in the order of the table, that occurs in the name, wherever in
    the name the others occur; and the offset taken for the fields is that
    of its first occurrence. *)
Theorem match_model_first :
  forall nm m,
    match_model nm = Some m ->
    (exists before after,
        models = before ++ m :: after /\
        contains m nm = true /\
        forall x, In x before -> contains x nm = false) /\
    0 <= loc_of nm /\
    occurs_at m nm (Z.to_nat (loc_of nm)) /\
    (forall k, (k < Z.to_nat (loc_of nm))%nat -> ~ occurs_at m nm k).
Proof.
  intros nm m H. split.
  - unfold match_model in H. apply find_some_first in H. exact H.
  - destruct (loc_of_nonneg _ _ H) as [Hl Hge]. rewrite Hl.
    split; [exact Hge|].
    apply match_model_contains in H. destruct H as [_ H].
    unfold contains in H. unfold find in *.
    destruct (find_from m nm 0) as [j|] eqn:E; [|discriminate].
    apply find_from_first in E. rewrite Z.sub_0_r in E.
    destruct E as (_ & Hocc & Hfirst). split; assumption.
Qed.

Lemma match_model_first_witness :
  0 <= loc_of "SDC0 line in (485B39 212345602560000256000220615)" /\
  occurs_at "485B" "SDC0 line in (485B39 212345602560000256000220615)"
    (Z.to_nat (loc_of "SDC0 line in (485B39 212345602560000256000220615)")).
Proof.
  destruct (match_model_first
              "SDC0 line in (485B39 212345602560000256000220615)"
              "485B" eq_refl) as (_ & Hloc & Hocc & _).
  split; [exact Hloc | exact Hocc].
Defined.

(** ** The model and the serial number of a record *)








(** ** A name built from its fields *)

Lemma digits_of_length :
  forall w n, String.length (digits_of w n) = w.
Proof.
  induction w as [|w IH]; intros n; cbn [digits_of]; [reflexivity|].
  rewrite string_app_length, IH. cbn. lia.
Qed.

Lemma digit_char_mod :
  forall n, digit_of (digit_char (n mod 10)) = Some (n mod 10).
Proof.
  intros n. apply digit_of_digit_char.
  pose proof (Z.mod_pos_bound n 10 ltac:(lia)). lia.
Qed.

Lemma int_digits_digits_of :
  forall w n acc prev t,
    0 <= n < 10 ^ Z.of_nat w ->
    int_digits acc prev (digits_of w n ++ t)%string
    = match w with
      | O => int_digits acc prev t
      | S _ => int_digits (acc * 10 ^ Z.of_nat w + n) true t
      end.
Proof.
  induction w as [|w IH]; intros n acc prev t Hn; [reflexivity|].
  cbn [digits_of]. rewrite string_app_assoc. cbn [append].
  rewrite Nat2Z.inj_succ, Z.pow_succ_r in * by lia.
  assert (Hq : 0 <= n / 10 < 10 ^ Z.of_nat w).
  { split; [apply Z.div_pos; lia|].
    apply Z.div_lt_upper_bound; lia. }
  rewrite IH by exact Hq.
  pose proof (Z.div_mod n 10 ltac:(lia)) as Hdm.
  destruct w as [|w'].
  - cbn [int_digits]. rewrite digit_char_mod.
    change (10 ^ Z.of_nat 0) with 1 in *.
    f_equal. assert (n / 10 = 0) by lia. lia.
  - cbn [int_digits]. rewrite digit_char_mod. f_equal.
    set (p := 10 ^ Z.of_nat (S w')) in *. lia.
Qed.

Lemma digits_of_head :
  forall w n,
    exists k rest,
      0 <= k <= 9 /\ digits_of (S w) n = String (digit_char k) rest.
Proof.
  induction w as [|w IH]; intros n.
  - exists (n mod 10), EmptyString.
    pose proof (Z.mod_pos_bound n 10 ltac:(lia)).
    split; [lia | reflexivity].
  - destruct (IH (n / 10)) as (k & rest & Hk & E).
    change (digits_of (S (S w)) n)
      with (digits_of (S w) (n / 10)
            ++ String (digit_char (n mod 10)) EmptyString)%string.
    rewrite E. cbn [append]. eexists k, _. split; [exact Hk | reflexivity].
Qed.

(** A number written on [w] digits, zeros in front, is read back by
    [int]. *)
Lemma int_digits_of :
  forall w n,
    (0 < w)%nat -> 0 <= n < 10 ^ Z.of_nat w -> int (digits_of w n) = Ok n.
Proof.
  intros [|w] n Hw Hn; [lia|].
  pose proof (int_digits_digits_of (S w) n 0 false EmptyString Hn) as H.
  assert (Happ : forall s : string, (s ++ "")%string = s).
  { induction s as [|c s IHs]; cbn; [reflexivity | rewrite IHs; reflexivity]. }
  rewrite Happ in H. cbn [int_digits] in H. rewrite Z.mul_0_l, Z.add_0_l in H.
  destruct (digits_of_head w n) as (k & rest & Hk & E).
  unfold int. rewrite E in *.
  assert (Hs : lstrip (String (digit_char k) rest)
               = String (digit_char k) rest).
  { cbn [lstrip]. digit_cases k; reflexivity. }
  rewrite Hs.
  assert (Hg : int_signed (String (digit_char k) rest)
               = int_digits 0 false (String (digit_char k) rest)).
  { digit_cases k; reflexivity. }
  rewrite Hg, H. reflexivity.
Qed.

Lemma yymmdd_length :
  forall y1 y2 m1 m2 d1 d2,
    String.length (yymmdd y1 y2 m1 m2 d1 d2) = 6%nat.
Proof. reflexivity. Qed.

(** The fields of a name built by [device_name], when the model offset
    found in it is where its model was put. *)
Lemma device_name_fields :
  forall pre mdl sep code serial w s0 s1 dt post,
    let nm := device_name pre mdl sep code serial w s0 s1 dt post in
    String.length mdl = 6%nat -> String.length serial = 6%nat ->
    String.length dt = 6%nat ->
    loc_of nm = Z.of_nat (String.length pre) ->
    field nm 0 6 = mdl /\
    field nm 7 8 = String code EmptyString /\
    field nm 8 14 = serial /\
    field nm 14 (14 + Z.of_nat w) = digits_of w s0 /\
    field nm (14 + Z.of_nat w) (14 + 2 * Z.of_nat w) = digits_of w s1 /\
    field nm (14 + 2 * Z.of_nat w) (20 + 2 * Z.of_nat w) = dt.
Proof.
  intros pre mdl sep code serial w s0 s1 dt post nm Hm Hs Hd Hloc.
  assert (F : forall front x rest a,
             nm = (front ++ x ++ rest)%string ->
             String.length front = (String.length pre + a)%nat ->
             field nm (Z.of_nat a)
               (Z.of_nat a + Z.of_nat (String.length x)) = x).
  { intros front x rest a Hnm Hlen.
    eapply field_of_parts; [exact Hloc | exact Hnm | exact Hlen]. }
  repeat split.
  - pose proof (F pre mdl
                  (String sep (String code
                     (serial ++ digits_of w s0 ++ digits_of w s1 ++ dt
                      ++ post)))%string 0%nat) as H.
    rewrite Hm in H. apply H; [reflexivity | lia].
  - pose proof (F (pre ++ mdl ++ String sep EmptyString)%string
                  (String code EmptyString)
                  (serial ++ digits_of w s0 ++ digits_of w s1 ++ dt
                   ++ post)%string
                  7%nat) as H.
    apply H.
    + unfold nm, device_name.
      repeat first [rewrite string_app_assoc | progress cbn [append]].
      reflexivity.
    + repeat first [rewrite string_app_length | progress cbn [String.length]].
      rewrite ?Hm, ?Hs, ?digits_of_length. lia.
  - pose proof (F (pre ++ mdl ++ String sep (String code EmptyString))%string
                  serial
                  (digits_of w s0 ++ digits_of w s1 ++ dt ++ post)%string
                  8%nat) as H.
    rewrite Hs in H. apply H.
    + unfold nm, device_name.
      repeat first [rewrite string_app_assoc | progress cbn [append]].
      reflexivity.
    + repeat first [rewrite string_app_length | progress cbn [String.length]].
      rewrite ?Hm, ?Hs, ?digits_of_length. lia.
  - pose proof (F (pre ++ mdl ++ String sep (String code serial))%string
                  (digits_of w s0)
                  (digits_of w s1 ++ dt ++ post)%string
                  14%nat) as H.
    rewrite digits_of_length in H. apply H.
    + unfold nm, device_name.
      repeat first [rewrite string_app_assoc | progress cbn [append]].
      reflexivity.
    + repeat first [rewrite string_app_length | progress cbn [String.length]].
      rewrite ?Hm, ?Hs, ?digits_of_length. lia.
  - pose proof (F (pre ++ mdl ++ String sep (String code serial)
                   ++ digits_of w s0)%string
                  (digits_of w s1) (dt ++ post)%string
                  (14 + w)%nat) as H.
    rewrite digits_of_length in H.
    replace (14 + Z.of_nat w) with (Z.of_nat (14 + w)) by lia.
    replace (14 + 2 * Z.of_nat w)
      with (Z.of_nat (14 + w) + Z.of_nat w) by lia.
    apply H.
    + unfold nm, device_name.
      repeat first [rewrite string_app_assoc | progress cbn [append]].
      reflexivity.
    + repeat first [rewrite string_app_length | progress cbn [String.length]].
      rewrite ?Hm, ?Hs, ?digits_of_length. lia.
  - pose proof (F (pre ++ mdl ++ String sep (String code serial)
                   ++ digits_of w s0 ++ digits_of w s1)%string
                  dt post (14 + w + w)%nat) as H.
    rewrite Hd in H.
    replace (14 + 2 * Z.of_nat w) with (Z.of_nat (14 + w + w)) by lia.
    replace (20 + 2 * Z.of_nat w)
      with (Z.of_nat (14 + w + w) + Z.of_nat 6) by lia.
    apply H.
    + unfold nm, device_name.
      repeat first [rewrite string_app_assoc | progress cbn [append]].
      reflexivity.
    + repeat first [rewrite string_app_length | progress cbn [String.length]].
      rewrite ?Hm, ?Hs, ?digits_of_length. lia.
Qed.

(** X9. Round trip.  A name built from a model and a serial number of six
    characters, a format code "1", "2" or "3", two sensitivities from 1 up
    to the largest number the digits of the code's field width can write,
    and a day of the calendar written YYMMDD, with any text before it in
    which no model substring is found first, is decoded by both functions
    to exactly these values (the sensitivities times 20 for code "3"). *)
Theorem device_name_round_trip :
  forall platform hapis pre mdl sep code serial s0 s1
         y1 y2 m1 m2 d1 d2 post,
    let w := code_width code in
    let nm := device_name pre mdl sep code serial w s0 s1
                (yymmdd y1 y2 m1 m2 d1 d2) post in
    let dev := {| name := nm; hostapi := select_api_num platform hapis |} in
    let d := mkdate (full_year (10 * y1 + y2)) (10 * m1 + m2)
               (10 * d1 + d2) in
    (code = "1" \/ code = "2" \/ code = "3")%char ->
    String.length mdl = 6%nat -> String.length serial = 6%nat ->
    loc_of nm = Z.of_nat (String.length pre) ->
    0 < s0 < 10 ^ Z.of_nat w -> 0 < s1 < 10 ^ Z.of_nat w ->
    0 <= y1 <= 9 -> 0 <= y2 <= 9 -> 0 <= m1 <= 9 -> 0 <= m2 <= 9 ->
    0 <= d1 <= 9 -> 0 <= d2 <= 9 ->
    1 <= 10 * m1 + m2 <= 12 ->
    1 <= 10 * d1 + d2
      <= days_in_month (full_year (10 * y1 + y2)) (10 * m1 + m2) ->
    FindDigiDevices platform hapis [dev]
    = Ok ([expected_record code 0 mdl serial d s0 s1], []) /\
    (forall globals,
        TMSFindDevices globals platform hapis [dev]
        = Ok [expected_record code 0 mdl serial d s0 s1]).
Proof.
  intros platform hapis pre mdl sep code serial s0 s1 y1 y2 m1 m2 d1 d2 post
    w nm dev d Hcode Hm Hs Hloc Hs0 Hs1 Hy1 Hy2 Hm1 Hm2 Hd1 Hd2 Hmm Hdd.
  destruct (device_name_fields pre mdl sep code serial w s0 s1
              (yymmdd y1 y2 m1 m2 d1 d2) post Hm Hs
              (yymmdd_length _ _ _ _ _ _) Hloc)
    as (Fm & Fc & Fs & F0 & F1 & Fd).
  fold nm in Fm, Fc, Fs, F0, F1, Fd.
  assert (Hcand : is_candidate (select_api_num platform hapis) dev = true).
  { unfold is_candidate, dev. cbn [hostapi name]. rewrite Z.eqb_refl.
    unfold loc_of in Hloc. destruct (match_model nm); [reflexivity | lia]. }
  assert (Hw : (0 < w)%nat).
  { unfold w, code_width. destruct (Ascii.eqb code "1"); lia. }
  pose proof (int_digits_of w s0 Hw ltac:(lia)) as I0.
  pose proof (int_digits_of w s1 Hw ltac:(lia)) as I1.
  pose proof (strptime_yymmdd y1 y2 m1 m2 d1 d2 Hy1 Hy2 Hm1 Hm2 Hd1 Hd2
                Hmm Hdd) as Id.
  fold d in Id.
  rewrite <- F0 in I0. rewrite <- F1 in I1. rewrite <- Fd in Id.
  assert (Hdec : decodes_to dev 0 (expected_record code 0 mdl serial d s0 s1)).
  { rewrite <- Fm, <- Fs.
    destruct Hcode as [->|[->| ->]]; cbn in w; subst w;
      cbn [Z.of_nat Pos.of_succ_nat Pos.succ Z.add Z.mul Pos.add Pos.mul
           Pos.add_carry] in I0, I1, Id;
      cbn [expected_record Ascii.eqb Bool.eqb].
    - apply (decodes_code_1 dev 0 s0 s1 d); (exact Fc || assumption || lia).
    - apply (decodes_code_2 dev 0 s0 s1 d); (exact Fc || assumption || lia).
    - apply (decodes_code_3 dev 0 s0 s1 d); (exact Fc || assumption || lia). }
  apply singleton_returned. intros otherwise.
  apply decodes_to_turn; [exact Hcand | exact Hdec].
Qed.

Lemma device_name_round_trip_witness :
  FindDigiDevices "linux" []
    [ {| name := device_name "Microphone (" "333D01" " " "1" "007042" 5
                   1234 98765 (yymmdd 2 4 0 2 2 9) ")";
         hostapi := 0 |} ]
  = Ok ([expected_record "1" 0 "333D01" "007042" (mkdate 2024 2 29)
           1234 98765], []).
Proof.
  refine (proj1 (device_name_round_trip "linux" [] "Microphone (" "333D01"
                   " " "1" "007042" 1234 98765 2 4 0 2 2 9 ")"
                   _ eq_refl eq_refl eq_refl _ _ _ _ _ _ _ _ _ _)).
  - left. reflexivity.
  - split; reflexivity.
  - split; reflexivity.
  - lia.
  - lia.
  - lia.
  - lia.
  - lia.
  - lia.
  - lia.
  - vm_compute. split; discriminate.
Defined.

(** ** Enumerations put one after the other *)

Lemma candidates_app :
  forall api_num l1 l2 i,
    candidates api_num (l1 ++ l2) i
    = candidates api_num l1 i
      ++ candidates api_num l2 (i + Z.of_nat (List.length l1)).
Proof.
  intros api_num l1. induction l1 as [|d l1 IH]; intros l2 i.
  - cbn. rewrite Z.add_0_r. reflexivity.
  - cbn [app candidates List.length]. rewrite IH, <- app_assoc.
    do 3 f_equal. lia.
Qed.

Lemma decodes_to_device :
  forall dev i r, decodes_to dev i r -> device r = i.
Proof. intros dev i r H. destruct H; reflexivity. Qed.

Lemma decodes_to_at_index :
  forall dev i r j, decodes_to dev i r -> decodes_to dev j (at_index r j).
Proof.
  intros dev i r j H.
  destruct H as [s0 s1 d Hc H0 H1 Hs0 Hs1 Hd|s0 s1 d Hc H0 H1 Hs0 Hs1 Hd
                |s0 s1 d Hc H0 H1 Hs0 Hs1 Hd].
  - apply (decodes_code_1 dev j s0 s1 d); assumption.
  - apply (decodes_code_2 dev j s0 s1 d); assumption.
  - apply (decodes_code_3 dev j s0 s1 d); assumption.
Qed.

Lemma decodes_pair_shift :
  forall api_num devices k recs i,
    Forall2 decodes_pair recs (candidates api_num devices i) ->
    Forall2 decodes_pair (map (shift_index k) recs)
      (candidates api_num devices (i + k)).
Proof.
  intros api_num devices k.
  induction devices as [|dev rest IH]; intros recs i H.
  - cbn [candidates] in *. inversion H; subst. constructor.
  - cbn [candidates] in *.
    destruct (is_candidate api_num dev).
    + cbn [app] in *. inversion H as [|r p rs ps Hr Hf]; subst.
      cbn [map]. constructor.
      * unfold decodes_pair in *. cbn [fst snd] in *. unfold shift_index.
        rewrite (decodes_to_device _ _ _ Hr).
        eapply decodes_to_at_index; exact Hr.
      * replace (i + k + 1) with (i + 1 + k) by lia. apply IH. exact Hf.
    + cbn [app] in *. replace (i + k + 1) with (i + 1 + k) by lia.
      apply IH. exact H.
Qed.

(** X10. [TMSFindDevices] on two enumerations put one after the other: when
    it returns a sequence for each of them, it returns for the whole the
    records of the first followed by those of the second, the device
    indices of these moved on by the length of the first enumeration and
    nothing else changed. *)
Theorem TMSFindDevices_app :
  forall globals platform hapis l1 l2 recs1 recs2,
    TMSFindDevices globals platform hapis l1 = Ok recs1 ->
    TMSFindDevices globals platform hapis l2 = Ok recs2 ->
    TMSFindDevices globals platform hapis (l1 ++ l2)
    = Ok (recs1 ++ map (shift_index (Z.of_nat (List.length l1))) recs2).
Proof.
  intros globals platform hapis l1 l2 recs1 recs2 H1 H2.
  assert (Hne : recs1 <> []).
  { unfold TMSFindDevices in H1. bind_inv H1.
    destruct (v_dev_info a); [|injection H1 as <-; discriminate].
    unfold raise_class in H1. destruct (bound _ _); discriminate. }
  apply TMSFindDevices_ok in H1, H2.
  destruct H1 as (st1 & H1 & <-). destruct H2 as (st2 & H2 & <-).
  apply TMSFindDevices_loop_sound in H1, H2.
  destruct H1 as (n1 & E1 & F1). destruct H2 as (n2 & E2 & F2).
  cbn [entry v_dev_info v_dev_num app] in *. rewrite E1, E2 in *.
  assert (F : Forall2 decodes_pair
                (n1 ++ map (shift_index (Z.of_nat (List.length l1))) n2)
                (candidates (select_api_num platform hapis) (l1 ++ l2) 0)).
  { rewrite candidates_app. apply Forall2_app; [exact F1|].
    apply decodes_pair_shift. exact F2. }
  destruct (loop_decodes_all (TMSFindDevices_else globals) _ (l1 ++ l2)
              entry _ F) as (st' & Hl & Hi & _).
  unfold TMSFindDevices, TMSFindDevices_loop. rewrite Hl. cbn [bind].
  rewrite Hi. cbn [entry v_dev_info app].
  destruct n1; [contradiction | reflexivity].
Qed.

Lemma TMSFindDevices_app_witness :
  TMSFindDevices TMS_globals "linux" []
    ([Sample.speakers; Sample.volt2] ++ [Sample.accel1])
  = Ok ([record_for 1 Sample.volt2 (mkdate 2022 6 15) VOLTAGE
           [256000; 256000]
           [quotient32 8388608 256000; quotient32 8388608 256000]]
        ++ map (shift_index (Z.of_nat 2))
             [record_for 0 Sample.accel1 (mkdate 2022 6 15) ACCELERATION
                [12345; 12346]
                [quotient32 855400 12345; quotient32 855400 12346]]).
Proof.
  apply (TMSFindDevices_app TMS_globals "linux" []
           [Sample.speakers; Sample.volt2] [Sample.accel1]).
  - vm_compute. reflexivity.
  - vm_compute. reflexivity.
Defined.

(** ** Windows without the kernel-streaming host API *)

Lemma no_candidate_other_api :
  forall api_num devices,
    (forall dev, In dev devices -> hostapi dev <> api_num) ->
    no_candidate api_num devices = true.
Proof.
  intros api_num devices H. unfold no_candidate. apply forallb_forall.
  intros dev Hin. unfold is_candidate.
  destruct (Z.eqb_spec (hostapi dev) api_num) as [E|_]; [|reflexivity].
  exfalso. exact (H dev Hin E).
Qed.

(** X11. On ["win32"], when no host API is named "Windows WDM-KS" and the
    host-API index of every device is one of the indices of the host APIs,
    no device is looked at: [FindDigiDevices] prints "No compatible
    devices found" and returns the empty sequence and [TMSFindDevices]
    ends at its empty-result [raise], whatever the names of the devices. *)
Theorem win32_without_wdmks :
  forall hapis devices,
    (forall a, In a hapis -> api_name a <> "Windows WDM-KS") ->
    (forall dev, In dev devices ->
                 0 <= hostapi dev < Z.of_nat (List.length hapis)) ->
    FindDigiDevices "win32" hapis devices
    = Ok ([], ["No compatible devices found"]) /\
    TMSFindDevices TMS_globals "win32" hapis devices
    = Raise (NameError "NoDevicesFound").
Proof.
  intros hapis devices Hnone Hidx.
  assert (Hapi : select_api_num "win32" hapis = Z.of_nat (List.length hapis)).
  { unfold select_api_num. cbn [String.eqb Ascii.eqb Bool.eqb].
    rewrite scan_hostapis_none by exact Hnone. lia. }
  assert (Hno : no_candidate (select_api_num "win32" hapis) devices = true).
  { apply no_candidate_other_api. intros dev Hin. rewrite Hapi.
    specialize (Hidx dev Hin). lia. }
  split.
  - unfold FindDigiDevices, FindDigiDevices_loop.
    rewrite for_each_no_candidate by exact Hno. reflexivity.
  - unfold TMSFindDevices, TMSFindDevices_loop.
    rewrite for_each_no_candidate by exact Hno. reflexivity.
Qed.

Lemma win32_without_wdmks_witness :
  FindDigiDevices "win32"
    [ {| api_name := "MME" |}; {| api_name := "Windows WASAPI" |} ]
    [ {| name := name Sample.volt2; hostapi := 0 |};
      {| name := name Sample.volt2; hostapi := 1 |} ]
  = Ok ([], ["No compatible devices found"]) /\
  TMSFindDevices TMS_globals "win32"
    [ {| api_name := "MME" |}; {| api_name := "Windows WASAPI" |} ]
    [ {| name := name Sample.volt2; hostapi := 0 |};
      {| name := name Sample.volt2; hostapi := 1 |} ]
  = Raise (NameError "NoDevicesFound").
Proof.
  apply win32_without_wdmks.
  - intros a [<-|[<-|[]]]; discriminate.
  - intros dev [<-|[<-|[]]]; cbn; lia.
Defined.

(** ** The statements above at sample enumerations *)

Lemma sample_volt2_decodes :
  forall i,
    decodes_to Sample.volt2 i
      (record_for i Sample.volt2 (mkdate 2022 6 15) VOLTAGE [256000; 256000]
         [quotient32 8388608 256000; quotient32 8388608 256000]).
Proof.
  intros i. apply (decodes_code_2 Sample.volt2 i 256000 256000);
    try reflexivity; discriminate.
Qed.

Lemma TMSFindDevices_returns_iff_witness :
  TMSFindDevices TMS_globals "linux" [] [Sample.speakers; Sample.volt2]
  = Ok [record_for 1 Sample.volt2 (mkdate 2022 6 15) VOLTAGE
          [256000; 256000]
          [quotient32 8388608 256000; quotient32 8388608 256000]].
Proof.
  apply (proj2 (TMSFindDevices_returns_iff TMS_globals "linux" []
                  [Sample.speakers; Sample.volt2] _)).
  split; [discriminate|].
  change (candidates (select_api_num "linux" [])
            [Sample.speakers; Sample.volt2] 0)
    with [(1, Sample.volt2)].
  constructor; [|constructor]. apply sample_volt2_decodes.
Defined.

Lemma FindDigiDevices_returns_iff_witness :
  FindDigiDevices "linux" [] [Sample.volt2; Sample.code9]
  = Ok ([record_for 0 Sample.volt2 (mkdate 2022 6 15) VOLTAGE
           [256000; 256000]
           [quotient32 8388608 256000; quotient32 8388608 256000];
         record_for 1 Sample.code9 (mkdate 2022 6 15) VOLTAGE
           [256000; 256000]
           [quotient32 8388608 256000; quotient32 8388608 256000]],
        ["Expecting 1, 2, or 3 format"]).
Proof.
  apply (proj2 (FindDigiDevices_returns_iff "linux" []
                  [Sample.volt2; Sample.code9] _ _)).
  split; [|reflexivity].
  change (candidates (select_api_num "linux" [])
            [Sample.volt2; Sample.code9] 0)
    with [(0, Sample.volt2); (1, Sample.code9)].
  apply records_decoded; [reflexivity | apply sample_volt2_decodes |].
  apply (records_left_over
           (record_for 0 Sample.volt2 (mkdate 2022 6 15) VOLTAGE
              [256000; 256000]
              [quotient32 8388608 256000; quotient32 8388608 256000])
           1 Sample.code9 [] []); [reflexivity | constructor].
Defined.

Lemma FindDigiDevices_unbound_iff_witness :
  FindDigiDevices "linux" []
    ([Sample.speakers] ++ Sample.code9 :: [Sample.volt2])
  = Raise (UnboundLocalError "date").
Proof.
  apply (proj2 (FindDigiDevices_unbound_iff "linux" [] _ "date")).
  split; [reflexivity|].
  exists [Sample.speakers], Sample.code9, [Sample.volt2].
  repeat split; reflexivity.
Defined.

Lemma discovery_exceptions_witness :
  (exists why, ValueError (InvalidLiteralForInt "6 02560") = ValueError why)
  \/ ValueError (InvalidLiteralForInt "6 02560") = ZeroDivisionError
  \/ ValueError (InvalidLiteralForInt "6 02560") = UnboundLocalError "date".
Proof.
  apply (proj1 discovery_exceptions "linux" [] [Sample.spaced]).
  vm_compute. reflexivity.
Defined.

Lemma returned_pairs_agree_witness :
  Forall pairs_agree
    [record_for 0 Sample.volt2 (mkdate 2022 6 15) VOLTAGE [256000; 256000]
       [quotient32 8388608 256000; quotient32 8388608 256000];
     record_for 1 Sample.code9 (mkdate 2022 6 15) VOLTAGE [256000; 256000]
       [quotient32 8388608 256000; quotient32 8388608 256000]].
Proof.
  apply (returned_pairs_agree "linux" [] [Sample.volt2; Sample.code9]).
  left. exists ["Expecting 1, 2, or 3 format"]. vm_compute. reflexivity.
Defined.

Lemma returned_dates_valid_witness :
  Forall (fun r => valid_date (date r))
    [record_for 0 Sample.accel1 (mkdate 2022 6 15) ACCELERATION
       [12345; 12346]
       [quotient32 855400 12345; quotient32 855400 12346]].
Proof.
  apply (returned_dates_valid "linux" [] [Sample.accel1]).
  right. exists TMS_globals. vm_compute. reflexivity.
Defined.


(** ** src/findDigiImport.py: the run of the script *)





Lemma FindDigiDevices_records_head :
  forall recs i dev ps,
    FindDigiDevices_records None recs ((i, dev) :: ps) ->
    exists r rest, recs = r :: rest /\ decodes_to dev i r.
Proof.
  intros recs i dev ps H. inversion H; subst.
  eexists _, _. split; [reflexivity | assumption].
Qed.

(** X13. Whenever the discovery returns and the enumeration has a
    candidate, the script records from the first candidate, at its index
    in the enumeration, and for the [buffersize] frames recorded what it
    shows is decoded from the name of that device itself: the frames
    times its two scale factors, channel by channel in float32, its model
    and serial number in the title, and the label "Amplitude (Volts)"
    when the model is "485B39" and "Amplitude (g's)" otherwise.  The
    product of the shapes never fails. *)
Theorem findDigiImport_first_candidate :
  forall platform hapis devices recorded devs out i dev others,
    FindDigiDevices platform hapis devices = Ok (devs, out) ->
    candidates (select_api_num platform hapis) devices 0
    = (i, dev) :: others ->
    Z.of_nat (List.length recorded) = buffersize ->
    exists r c0 c1,
      decodes_to dev i r /\ scale r = [c0; c1] /\
      findDigiImport platform hapis devices recorded
      = (map Print out ++
         [Rec 96001 48000 2 i; Wait;
          Plot (Linspace 0 2 96001)
            (map (fun x => [mul32 (fst x) c0; mul32 (snd x) c1]) recorded);
          Xlim_min_max (Linspace 0 2 96001);
          Title (field (name dev) 0 6 ++ " S/N: "
                 ++ field (name dev) 8 14)%string;
          Xlabel "Time(seconds)";
          Ylabel (if (field (name dev) 0 6 =? "485B39")%string
                  then "Amplitude (Volts)" else "Amplitude (g's)");
          Show],
         Completed).
Proof.
  intros platform hapis devices recorded devs out i dev others H Hc Hlen.
  pose proof H as H'.
  apply FindDigiDevices_ok in H'. destruct H' as (st & Hl & Hi).
  apply (FindDigiDevices_loop_sound _ _ _ _ locals_track_entry) in Hl.
  destruct Hl as (news & Hn & Hr).
  cbn [entry v_dev_info v_dev_num app] in Hn, Hr.
  rewrite Hi in Hn. subst news. rewrite Hc in Hr.
  change (last_record entry) with (@None DevInfo) in Hr.
  destruct (FindDigiDevices_records_head _ _ _ _ Hr) as (r & rest & -> & Hd).
  assert (Hsc : exists c0 c1, scale r = [c0; c1]).
  { destruct Hd; eexists _, _; reflexivity. }
  destruct Hsc as (c0 & c1 & Hsc).
  assert (Hfields : device r = i /\ model r = field (name dev) 0 6 /\
                    serial_number r = field (name dev) 8 14).
  { destruct Hd; repeat split; reflexivity. }
  destruct Hfields as (Hdev & Hm & Hs).
  exists r, c0, c1. split; [exact Hd|]. split; [exact Hsc|].
  unfold findDigiImport. rewrite H. cbv zeta.
  unfold scale_frames. rewrite Hsc, Hdev, Hm, Hs.
  rewrite length_map, Hlen.
  change (buffersize =? duration * fs + 1) with true. cbv iota.
  rewrite <- app_assoc. reflexivity.
Qed.

Lemma findDigiImport_first_candidate_witness :
  exists r c0 c1,
    decodes_to Sample.volt2 1 r /\ scale r = [c0; c1] /\
    findDigiImport "linux" []
      [Sample.speakers; Sample.volt2; Sample.code9]
      (repeat (S754_finite false 8388608 (-24), S754_zero false)
         (Z.to_nat buffersize))
    = (map Print ["Expecting 1, 2, or 3 format"] ++
       [Rec 96001 48000 2 1; Wait;
        Plot (Linspace 0 2 96001)
          (map (fun x => [mul32 (fst x) c0; mul32 (snd x) c1])
             (repeat (S754_finite false 8388608 (-24), S754_zero false)
                (Z.to_nat buffersize)));
        Xlim_min_max (Linspace 0 2 96001);
        Title (field (name Sample.volt2) 0 6 ++ " S/N: "
               ++ field (name Sample.volt2) 8 14)%string;
        Xlabel "Time(seconds)";
        Ylabel (if (field (name Sample.volt2) 0 6 =? "485B39")%string
                then "Amplitude (Volts)" else "Amplitude (g's)");
        Show],
       Completed).
Proof.
  eapply (findDigiImport_first_candidate "linux" []
            [Sample.speakers; Sample.volt2; Sample.code9]).
  - vm_compute. reflexivity.
  - reflexivity.
  - rewrite repeat_length. vm_compute. reflexivity.
Defined.

(** ** src/TMS_Digital_Audio.py: units and scale *)

Lemma decodes_to_scale_format :
  forall dev i r,
    decodes_to dev i r ->
    (format r = 1 \/ format r = 0) /\ exists c0 c1, scale r = [c0; c1].
Proof.
  intros dev i r H. destruct H; split; try (eexists _, _; reflexivity);
    [right | left | left]; reflexivity.
Qed.

Lemma TMSFindDevices_head :
  forall globals platform hapis devices found,
    TMSFindDevices globals platform hapis devices = Ok found ->
    exists r others c0 c1,
      found = r :: others /\ scale r = [c0; c1] /\
      (format r = 1 \/ format r = 0).
Proof.
  intros globals platform hapis devices found H.
  assert (Hne : found <> []).
  { unfold TMSFindDevices in H. bind_inv H.
    destruct (v_dev_info a); [|injection H as <-; discriminate].
    unfold raise_class in H. destruct (bound _ _); discriminate. }
  apply TMSFindDevices_ok in H. destruct H as (st & H & <-).
  apply TMSFindDevices_loop_sound in H. destruct H as (news & E & Hf).
  cbn [entry v_dev_info app] in E. rewrite E in *.
  destruct Hf as [|r p rs ps Hr Hf]; [contradiction|].
  destruct (decodes_to_scale_format _ _ _ Hr) as (Hfmt & c0 & c1 & Hsc).
  exists r, rs, c0, c1. auto.
Qed.

(** X14. Once [TMSFindDevices] has returned, no subscript of the lines
    that fix the units and the scale is out of range, whatever the two
    sensor sensitivities and units of the configuration.  For a VOLTAGE
    device each channel whose sensor sensitivity is not 0.0 has its scale
    factor multiplied by [1.0 / (eu_sen/1000.0)], in the record of [info]
    itself, and takes the configured unit, a channel with 0.0 keeps its
    factor and "Volts"; for an ACCELERATION device the scale is left as
    decoded and both units are "g".  With the 100.0 of the shipped
    configuration the multiplier is 10.0 exactly. *)
Theorem set_up_outcome :
  forall e0 e1 u0 u1 globals platform hapis devices found,
    TMSFindDevices globals platform hapis devices = Ok found ->
    let adj c e := if Script.ne_zero e then Script.adjusted c e else c in
    let unit e (u : string) := if Script.ne_zero e then u else "Volts" in
    exists r others c0 c1,
      found = r :: others /\ scale r = [c0; c1] /\
      Script.set_up [e0; e1] [u0; u1] globals platform hapis devices
      = Script.Ready
          {| Script.printed :=
               match others with
               | [] => []
               | _ :: _ => ["Using first device found."]
               end;
             Script.info :=
               (if format r =? 1
                then Script.with_scale r [adj c0 e0; adj c1 e1]
                else r) :: others;
             Script.units :=
               if format r =? 1 then [unit e0 u0; unit e1 u1]
               else ["g"; "g"];
             Script.title := ("The Modal Shop " ++ model r)%string;
             Script.ylabel := if format r =? 1 then unit e0 u0 else "g";
             Script.stream_device := device r |} /\
      Script.factor (of_int 100) = of_int 10.
Proof.
  intros e0 e1 u0 u1 globals platform hapis devices found H adj unit.
  destruct (TMSFindDevices_head _ _ _ _ _ H)
    as (r & others & c0 & c1 & -> & Hsc & Hfmt).
  exists r, others, c0, c1. split; [reflexivity|]. split; [exact Hsc|].
  split; [|vm_compute; reflexivity].
  unfold Script.set_up. rewrite H.
  assert (Hout : (if 1 <? Z.of_nat (List.length (r :: others))
                  then ["Using first device found."] else [])
                 = match others with
                   | [] => []
                   | _ :: _ => ["Using first device found."]
                   end).
  { destruct others as [|o os]; [reflexivity|].
    cbn [List.length].
    destruct (Z.ltb_spec 1 (Z.of_nat (S (S (List.length os)))));
      [reflexivity | lia]. }
  rewrite Hout. clear Hout.
  destruct Hfmt as [Hf|Hf]; rewrite Hf; cbn [Z.eqb].
  - rewrite Hsc. cbn [List.length seq Script.channel_loop].
    unfold Script.channel_turn. cbn [nth_error].
    subst adj unit. cbv beta.
    destruct (Script.ne_zero e0), (Script.ne_zero e1); reflexivity.
  - reflexivity.
Qed.

Lemma set_up_outcome_witness :
  exists r others c0 c1,
    [record_for 1 Sample.volt2 (mkdate 2022 6 15) VOLTAGE
       [256000; 256000]
       [quotient32 8388608 256000; quotient32 8388608 256000]]
    = r :: others /\
    scale r = [c0; c1] /\
    Script.set_up [of_int 100; S754_zero false] ["g"; "m/s^2"]
      TMS_globals "linux" [] [Sample.speakers; Sample.volt2]
    = Script.Ready
        {| Script.printed :=
             match others with
             | [] => []
             | _ :: _ => ["Using first device found."]
             end;
           Script.info :=
             (if format r =? 1
              then Script.with_scale r
                     [if Script.ne_zero (of_int 100)
                      then Script.adjusted c0 (of_int 100) else c0;
                      if Script.ne_zero (S754_zero false)
                      then Script.adjusted c1 (S754_zero false) else c1]
              else r) :: others;
           Script.units :=
             if format r =? 1
             then [if Script.ne_zero (of_int 100) then "g" else "Volts";
                   if Script.ne_zero (S754_zero false)
                   then "m/s^2" else "Volts"]
             else ["g"; "g"];
           Script.title := ("The Modal Shop " ++ model r)%string;
           Script.ylabel :=
             if format r =? 1
             then (if Script.ne_zero (of_int 100) then "g" else "Volts")
             else "g";
           Script.stream_device := device r |} /\
    Script.factor (of_int 100) = of_int 10.
Proof.
  apply (set_up_outcome (of_int 100) (S754_zero false) "g" "m/s^2"
           TMS_globals "linux" [] [Sample.speakers; Sample.volt2]).
  vm_compute. reflexivity.
Defined.

(** ** src/TMS_Digital_Audio.py: the pace of the plot *)

Lemma redraw_count_cons :
  forall d ts,
    Script.redraw_count (d :: ts)
    = (if Script.redraws d then 1 else 0) + Script.redraw_count ts.
Proof.
  intros d ts. unfold Script.redraw_count. cbn [filter].
  destruct (Script.redraws d); cbn [List.length]; lia.
Qed.

Lemma redraw_count_nonneg :
  forall ts, 0 <= Script.redraw_count ts.
Proof. intros ts. unfold Script.redraw_count. lia. Qed.

Lemma column_0_scaled :
  forall (data : list (float32 * float32)) c0 c1,
    Script.column_0
      (map (fun x => [mul32 (fst x) c0; mul32 (snd x) c1]) data)
    = Some (map (fun x => mul32 (fst x) c0) data).
Proof.
  induction data as [|x data IH]; intros c0 c1; [reflexivity|].
  cbn [map Script.column_0 fold_right] in *.
  unfold Script.column_0 in IH. rewrite IH. reflexivity.
Qed.

(** What a turn that ends has done. *)
Lemma block_turn_inv :
  forall sc data now st drawn st1,
    Script.block_turn sc data now st = inl (drawn, st1) ->
    exists sdata,
      scale_frames data sc = Some sdata /\
      ((Script.first st = 0 /\
        exists y,
          Script.column_0 sdata = Some y /\
          drawn = [Script.Axis_auto sdata; Script.Plot_line y] /\
          st1 = {| Script.first := 1; Script.start := Some now |}) \/
       (Script.first st <> 0 /\
        exists s,
          Script.start st = Some s /\
          ((s + 100 <= now /\
            exists y,
              Script.column_0 sdata = Some y /\
              drawn = [Script.Axis_auto sdata; Script.Set_data_and_draw y] /\
              st1 = {| Script.first := Script.first st;
                       Script.start := Some (s + 100) |}) \/
           (now < s + 100 /\ drawn = [Script.Axis_auto sdata] /\
            st1 = st)))).
Proof.
  intros sc data now st drawn st1 H. unfold Script.block_turn in H.
  destruct (scale_frames data sc) as [sdata|]; [|discriminate].
  exists sdata. split; [reflexivity|].
  destruct sdata as [|row sdata]; [discriminate|].
  destruct (Z.eqb_spec (Script.first st) 0) as [E|E].
  - left. split; [exact E|].
    destruct (Script.column_0 (row :: sdata)) as [y|]; [|discriminate].
    destruct (Z.of_nat (List.length y) =? Script.blocksize);
      [|discriminate].
    injection H as <- <-. exists y. auto.
  - right. split; [exact E|].
    destruct (Script.start st) as [s|]; [|discriminate].
    exists s. split; [reflexivity|].
    destruct (Z.leb_spec (s + 100) now) as [Hle|Hgt].
    + left. split; [exact Hle|].
      destruct (Script.column_0 (row :: sdata)) as [y|]; [|discriminate].
      destruct (Z.of_nat (List.length y) =? Script.blocksize);
        [|discriminate].
      injection H as <- <-. exists y. auto.
    + right. injection H as <- <-. auto.
Qed.

(** A turn reads [start] only when it is bound. *)
Lemma block_turn_start_bound :
  forall sc data now st,
    Script.first st = 0 \/ (exists s, Script.start st = Some s) ->
    Script.block_turn sc data now st <> inr Script.Start_unbound.
Proof.
  intros sc data now st Hst. unfold Script.block_turn.
  destruct (scale_frames data sc) as [[|row sdata]|]; try discriminate.
  destruct (Z.eqb_spec (Script.first st) 0) as [E|E].
  - destruct (Script.column_0 (row :: sdata)) as [y|]; [|discriminate].
    destruct (Z.of_nat (List.length y) =? Script.blocksize); discriminate.
  - destruct Hst as [E'|[s Hs]]; [contradiction|]. rewrite Hs.
    destruct (s + 100 <=? now); [|discriminate].
    destruct (Script.column_0 (row :: sdata)) as [y|]; [|discriminate].
    destruct (Z.of_nat (List.length y) =? Script.blocksize); discriminate.
Qed.

Lemma block_loop_start_bound :
  forall sc blocks st,
    Script.first st = 0 \/ (exists s, Script.start st = Some s) ->
    Script.block_loop sc blocks st <> inr Script.Start_unbound.
Proof.
  intros sc blocks. induction blocks as [|[data now] rest IH]; intros st Hst.
  - discriminate.
  - cbn [Script.block_loop].
    pose proof (block_turn_start_bound sc data now st Hst) as Hturn.
    destruct (Script.block_turn sc data now st) as [[drawn st1]|f] eqn:E.
    + assert (Hst1 : Script.first st1 = 0
                     \/ (exists s, Script.start st1 = Some s)).
      { destruct (block_turn_inv _ _ _ _ _ _ E) as (sdata & _ & Hcase).
        destruct Hcase as [(_ & y & _ & _ & ->)
                          |(_ & s & Hs & [(_ & y & _ & _ & ->)|(_ & _ & ->)])];
          right; eexists; first [reflexivity | exact Hs]. }
      specialize (IH st1 Hst1).
      destruct (Script.block_loop sc rest st1) as [[more st2]|f'];
        [discriminate|].
      intros H. apply IH. injection H as ->. reflexivity.
    + intros H. apply Hturn. injection H as ->. reflexivity.
Qed.

(** The turns after the first block, with [start] bound to [s]. *)
Lemma block_loop_paced :
  forall sc blocks st s turns st',
    Script.first st <> 0 -> Script.start st = Some s ->
    Script.block_loop sc blocks st = inl (turns, st') ->
    List.length turns = List.length blocks /\
    Script.start st' = Some (s + 100 * Script.redraw_count turns) /\
    (forall k drawn data now,
        nth_error turns k = Some drawn ->
        nth_error blocks k = Some (data, now) ->
        Script.redraws drawn = true ->
        (exists sdata y,
            scale_frames data sc = Some sdata /\
            Script.column_0 sdata = Some y /\
            drawn = [Script.Axis_auto sdata; Script.Set_data_and_draw y]) /\
        s + 100 * Script.redraw_count (firstn (S k) turns) <= now) /\
    (forall top,
        s <= top -> Forall (fun b => snd b <= top) blocks ->
        s + 100 * Script.redraw_count turns <= top) /\
    Forall (fun drawn => forall y, ~ In (Script.Plot_line y) drawn) turns.
Proof.
  intros sc blocks. induction blocks as [|[data now] rest IH];
    intros st s turns st' Hf Hs H.
  - cbn [Script.block_loop] in H. injection H as <- <-.
    split; [reflexivity|]. split.
    + rewrite Hs. unfold Script.redraw_count. cbn. f_equal. lia.
    + split; [intros [|k] ? ? ? H; discriminate|].
      split; [intros top Hle _; unfold Script.redraw_count; cbn; lia|].
      constructor.
  - cbn [Script.block_loop] in H.
    destruct (Script.block_turn sc data now st) as [[drawn st1]|f] eqn:E;
      [|discriminate].
    destruct (Script.block_loop sc rest st1) as [[more st2]|f] eqn:El;
      [|discriminate].
    injection H as <- <-.
    destruct (block_turn_inv _ _ _ _ _ _ E) as (sdata & Hsd & Hcase).
    destruct Hcase as [(E0 & _)|(_ & s' & Hs' & Hcase)]; [contradiction|].
    rewrite Hs in Hs'. injection Hs' as <-.
    destruct Hcase as [(Hle & y & Hy & -> & ->)|(Hgt & -> & ->)].
    + destruct (IH {| Script.first := Script.first st;
                      Script.start := Some (s + 100) |} (s + 100)
                  more st2 Hf eq_refl El)
        as (Hlen & Hst & Hk & Htop & Hplot).
      split; [cbn [List.length]; lia|]. split.
      * rewrite Hst, redraw_count_cons. cbn [Script.redraws existsb orb].
        f_equal. lia.
      * split; [|split].
        -- intros [|k] drawn d n Hn Hb Hr; cbn [nth_error firstn] in *.
           ++ injection Hb as <- <-. injection Hn as <-.
              split; [exists sdata, y; auto|].
              rewrite redraw_count_cons. cbn [Script.redraws existsb orb].
              unfold Script.redraw_count. cbn. lia.
           ++ rewrite redraw_count_cons. cbn [Script.redraws existsb orb].
              destruct (Hk k drawn d n Hn Hb Hr) as [Hdr Hpace].
              split; [exact Hdr | lia].
        -- intros top Hs' Hall. inversion Hall as [|b l Hb Hl']; subst.
           cbn [snd] in Hb. rewrite redraw_count_cons.
           cbn [Script.redraws existsb orb].
           specialize (Htop top ltac:(lia) Hl'). lia.
        -- constructor; [|exact Hplot].
           intros y' [H|[H|[]]]; discriminate.
    + destruct (IH st s more st2 Hf Hs El)
        as (Hlen & Hst & Hk & Htop & Hplot).
      split; [cbn [List.length]; lia|]. split.
      * rewrite Hst, redraw_count_cons. cbn [Script.redraws existsb orb].
        f_equal.
      * split; [|split].
        -- intros [|k] drawn d n Hn Hb Hr; cbn [nth_error firstn] in *.
           ++ injection Hn as <-. discriminate.
           ++ rewrite redraw_count_cons. cbn [Script.redraws existsb orb].
              destruct (Hk k drawn d n Hn Hb Hr) as [Hdr Hpace].
              split; [exact Hdr | lia].
        -- intros top Hs' Hall. inversion Hall as [|b l Hb Hl']; subst.
           rewrite redraw_count_cons. cbn [Script.redraws existsb orb].
           specialize (Htop top Hs' Hl'). lia.
        -- constructor; [|exact Hplot].
           intros y [H|[]]; discriminate.
Qed.

(** X15. The plot loop never reads [start] unbound.  In every run of the
    loop that goes through its turns, the first turn plots the line,
    channel 0 of the block times the scale, no later turn plots another,
    and the line is redrawn at a pace of at most once per 100 ms of the
    clock read by the loop: the turn that redraws it for the n-th time
    reads a clock of at least 100*n ms after the reading of the first
    turn, so that with no reading above [top] there are at most
    [(top - first reading) / 100] redraws in all. *)
Theorem stream_loop_paced :
  (forall sc blocks,
      Script.stream_loop sc blocks <> inr Script.Start_unbound) /\
  (forall sc data0 now0 rest turns0 st',
      Script.stream_loop sc ((data0, now0) :: rest) = inl (turns0, st') ->
      exists sdata0 y0 turns,
        scale_frames data0 sc = Some sdata0 /\
        Script.column_0 sdata0 = Some y0 /\
        turns0 = [Script.Axis_auto sdata0; Script.Plot_line y0] :: turns /\
        List.length turns = Nat.min 199 (List.length rest) /\
        Script.start st' = Some (now0 + 100 * Script.redraw_count turns) /\
        Forall (fun drawn => forall y, ~ In (Script.Plot_line y) drawn)
          turns /\
        (forall k drawn data now,
            nth_error turns k = Some drawn ->
            nth_error rest k = Some (data, now) ->
            Script.redraws drawn = true ->
            (exists sdata y,
                scale_frames data sc = Some sdata /\
                Script.column_0 sdata = Some y /\
                drawn = [Script.Axis_auto sdata;
                         Script.Set_data_and_draw y]) /\
            now0 + 100 * Script.redraw_count (firstn (S k) turns) <= now) /\
        (forall top,
            now0 <= top ->
            Forall (fun b => snd b <= top) (firstn 199 rest) ->
            100 * Script.redraw_count turns <= top - now0)).
Proof.
  split.
  - intros sc blocks. unfold Script.stream_loop.
    apply block_loop_start_bound. left. reflexivity.
  - intros sc data0 now0 rest turns0 st' H.
    unfold Script.stream_loop in H.
    change (firstn 200 ((data0, now0) :: rest))
      with ((data0, now0) :: firstn 199 rest) in H.
    cbn [Script.block_loop] in H.
    destruct (Script.block_turn sc data0 now0 Script.at_start)
      as [[drawn st1]|f] eqn:E; [|discriminate].
    destruct (Script.block_loop sc (firstn 199 rest) st1)
      as [[turns st2]|f] eqn:El; [|discriminate].
    injection H as <- <-.
    destruct (block_turn_inv _ _ _ _ _ _ E) as (sdata0 & Hsd & Hcase).
    destruct Hcase as [(_ & y0 & Hy & -> & ->)|(Hne & _)];
      [|exfalso; apply Hne; reflexivity].
    destruct (block_loop_paced sc (firstn 199 rest)
                {| Script.first := 1; Script.start := Some now0 |} now0
                turns st2 ltac:(discriminate) eq_refl El)
      as (Hlen & Hst & Hk & Htop & Hplot).
    exists sdata0, y0, turns.
    split; [exact Hsd|]. split; [exact Hy|]. split; [reflexivity|].
    split; [rewrite Hlen; apply length_firstn|].
    split; [exact Hst|]. split; [exact Hplot|]. split.
    + intros k drawn data now Hn Hb Hr.
      assert (Hk199 : (k < 199)%nat).
      { assert (Hlt : (k < List.length turns)%nat)
          by (apply nth_error_Some; rewrite Hn; discriminate).
        rewrite Hlen, length_firstn in Hlt. lia. }
      assert (Hb' : nth_error (firstn 199 rest) k = Some (data, now)).
      { rewrite nth_error_firstn.
        destruct (Nat.ltb_spec k 199); [exact Hb | lia]. }
      exact (Hk k drawn data now Hn Hb' Hr).
    + intros top Hle Hall. specialize (Htop top Hle Hall). lia.
Qed.

Lemma stream_loop_paced_witness :
  exists sdata0 y0 turns,
    scale_frames Run.block Run.factors = Some sdata0 /\
    Script.column_0 sdata0 = Some y0 /\
    [Script.Axis_auto Run.scaled; Script.Plot_line Run.channel_0]
    :: Run.turns
    = [Script.Axis_auto sdata0; Script.Plot_line y0] :: turns /\
    List.length turns = Nat.min 199 2 /\
    Script.start {| Script.first := 1; Script.start := Some 1100 |}
    = Some (1000 + 100 * Script.redraw_count turns).
Proof.
  destruct (proj2 stream_loop_paced Run.factors Run.block 1000 Run.blocks
              ([Script.Axis_auto Run.scaled; Script.Plot_line Run.channel_0]
               :: Run.turns)
              {| Script.first := 1; Script.start := Some 1100 |})
    as (sdata0 & y0 & turns & Hsd & Hy & Ht & Hlen & Hst & _).
  - vm_compute. reflexivity.
  - exists sdata0, y0, turns. repeat split; assumption.
Defined.
